(** * Workflow editor: the node-graph editing model

    A shallow embedding of the graph-editing core of the [WorkflowEditor]
    class (the monolithic editor) and of the port rules that
    [WorkflowEditorMain] duplicates, together with the properties of the
    editor's specification that can be settled on that embedding.

    Conventions of the embedding.
    - The editor object ([this]) is the record [Editor]; a method is a
      function in the monad [M], which threads the editor and records
      whether the method completed normally or threw.  The state reached
      when an exception is thrown is kept: JavaScript does not roll back.
    - A JavaScript [Map] keyed by strings is a [gmap string _].  Insertion
      order, which [Map] preserves, is not represented: loops over a map
      run in the order of the keys, and no property below depends on the
      order.
    - A JavaScript number is an IEEE 754 double.  The node counter only
      ever holds integers: it is an integer ([Z]), and [++] and [parseInt]
      round to the nearest double where the source leaves the range in
      which every integer is a double, at 2^53.  Coordinates, zoom and
      grid size are rationals ([Q]), as every finite double is.  Where a
      position is snapped to the grid (dropping, dragging) or moved by a
      copy, each operation rounds its result to the nearest double
      ([Js.fl]), as the source does: [Math.round] can turn a rounding
      error into another grid cell.  Panning, zooming and fitting the
      view are given in exact arithmetic, which the doubles of the source
      follow up to their rounding errors.  Infinities, overflow and [NaN]
      are not represented (except the [NaN] of [parseInt]), so statements
      that divide assume a positive divisor.
    - Strings are sequences of characters with a code below 256.
    - Objects are values: the editor never relies on two references to
      one object, except that a loaded node shares its position and
      configuration objects with the serialized workflow it was loaded
      from, which is not read again.
    - The document tree is not represented; the canvas element and its
      layers are taken to exist, as they do on the editor page.  Calls
      that only draw ([renderNode], [renderConnection],
      [updateCanvasTransform], [updateGrid], [updateZoomDisplay],
      notifications) change nothing in the editor object; of them only
      the exception that [querySelector] throws on a selector the browser
      rejects is represented, where deleting and loading connections
      depend on it (section "The page").  What a method reads from the
      tree (the event target, the canvas rectangle, the position of a
      handle) is an argument.  The results of [Date.now()] and of
      [Math.random().toString(36).substr(2, 9)] are arguments as well. *)

From Stdlib Require Import ZArith QArith Qround Qminmax Qabs Lqa.
From Stdlib Require Import String Ascii DecimalString DecimalZ DecimalPos.
From stdpp Require Import gmap strings list fin_maps.

Local Open Scope string_scope.
Local Open Scope Z_scope.

(** ** JavaScript primitives used by the editor *)

Module Js.

(** *** Numbers

    A JavaScript number is an IEEE 754 double.  The node counter only ever
    holds integers, and every integer of magnitude up to 2^53 is a double:
    it is a [Z] here, and the two places where the source can leave that
    range, [++] and [parseInt], round as the source does.  Coordinates are
    doubles as well, and every double is a rational: they are [Q] here. *)

(** The double nearest to an integer, halfway cases going to the even
    significand.  Integers of 2^1024 and more, which are [Infinity] in the
    source, are not represented. *)
Definition toDouble (z : Z) : Z :=
  let a := Z.abs z in
  let sh := Z.log2 a - 52 in
  if sh <=? 0 then z
  else
    let q := Z.shiftr a sh in
    let r := a - Z.shiftl q sh in
    let half := Z.shiftl 1 (sh - 1) in
    let q' := if (half <? r) || ((r =? half) && Z.odd q) then q + 1 else q in
    Z.sgn z * Z.shiftl q' sh.

(** [++n] on an integer-valued number. *)
Definition increment (z : Z) : Z := toDouble (z + 1).

(** Template-literal conversion of an integer-valued number: its decimal
    digits.  (From 2^54 on the source prints the shortest digits that
    denote the same double, and from 10^21 on an exponent; no statement
    below reaches that range.) *)
Definition numberToString (z : Z) : string :=
  NilZero.string_of_int (Z.to_int z).

(** Floor of the binary logarithm of a positive rational. *)
Definition ilog2 (a : Q) : Z :=
  let e := Z.log2 (Qnum a) - Z.log2 (Zpos (Qden a)) in
  if Qle_bool (2 ^ e) a then e else e - 1.

(** The integer nearest to a rational, halfway cases going to the even
    one. *)
Definition roundHalfEven (m : Q) : Z :=
  let f := Qfloor m in
  match (m - inject_Z f ?= 1 # 2)%Q with
  | Lt => f
  | Gt => f + 1
  | Eq => if Z.even f then f else f + 1
  end.

(** [fl q]: the double nearest to the rational [q], which is what an
    arithmetic operation of the source returns when [q] is its exact
    result.  The significand has 53 bits, and the exponent of the last
    bit is not below -1074.  Results of 2^1024 and more, infinite in the
    source, and the sign of zero are not represented. *)
Definition fl (q : Q) : Q :=
  if Qeq_bool q 0 then 0%Q
  else
    let a := Qabs q in
    let u := Z.max (ilog2 a - 52) (-1074) in
    let r := roundHalfEven (a / 2 ^ u) in
    Qred ((if Qle_bool 0 q then 1 else -1) * inject_Z r * 2 ^ u).

(** [a + b], [a - b], [a * b] and [a / b] on doubles. *)
Definition add (a b : Q) : Q := fl (a + b).
Definition sub (a b : Q) : Q := fl (a - b).
Definition mul (a b : Q) : Q := fl (a * b).
Definition div (a b : Q) : Q := fl (a / b).

(** [s.split(sep)] for a one-character separator. *)
Fixpoint split (sep : ascii) (s : string) : list string :=
  match s with
  | EmptyString => [EmptyString]
  | String c s' =>
      if Ascii.eqb c sep then EmptyString :: split sep s'
      else match split sep s' with
           | [] => [String c EmptyString]
           | w :: ws => String c w :: ws
           end
  end.

(** White space and line terminators skipped by [parseInt]: tab, line
    feed, vertical tab, form feed, carriage return, space and no-break
    space (the ones with a code below 256). *)
Definition isWhiteSpace (c : ascii) : bool :=
  let n := nat_of_ascii c in
  ((9 <=? n)%nat && (n <=? 13)%nat) || (n =? 32)%nat || (n =? 160)%nat.

Fixpoint trimStart (s : string) : string :=
  match s with
  | String c s' => if isWhiteSpace c then trimStart s' else s
  | EmptyString => EmptyString
  end.

(** Value of a character as a digit, any radix up to 36. *)
Definition charValue (c : ascii) : option Z :=
  let n := Z.of_nat (nat_of_ascii c) in
  if (48 <=? n) && (n <=? 57) then Some (n - 48)
  else if (97 <=? n) && (n <=? 122) then Some (n - 87)
  else if (65 <=? n) && (n <=? 90) then Some (n - 55)
  else None.

Definition digitValue (radix : Z) (c : ascii) : option Z :=
  match charValue c with
  | Some d => if d <? radix then Some d else None
  | None => None
  end.

(** The longest prefix of radix digits, read as a number; [acc] is [None]
    as long as no digit has been read. *)
Fixpoint parseDigits (radix : Z) (s : string) (acc : option Z) : option Z :=
  match s with
  | EmptyString => acc
  | String c s' =>
      match digitValue radix c with
      | Some d =>
          parseDigits radix s'
            (Some (match acc with Some a => a * radix + d | None => d end))
      | None => acc
      end
  end.

Definition stripSign (s : string) : Z * string :=
  match s with
  | String "-" s' => (-1, s')
  | String "+" s' => (1, s')
  | _ => (1, s)
  end.

Definition stripHexPrefix (s : string) : Z * string :=
  match s with
  | String "0" (String "x" s') => (16, s')
  | String "0" (String "X" s') => (16, s')
  | _ => (10, s)
  end.

(** The integer that [parseInt(string)], without a radix, reads off the
    string; [None] when there is no digit. *)
Definition parseIntString (s : string) : option Z :=
  let '(sign, s1) := stripSign (trimStart s) in
  let '(radix, s2) := stripHexPrefix s1 in
  match parseDigits radix s2 None with
  | Some n => Some (sign * n)
  | None => None
  end.

(** [parseInt(v)] where [v] may be [undefined]: the argument is first
    converted to the string [undefined], which has no digit.  The result
    is the double nearest to the integer read ([None] is [NaN]); past the
    20th significant digit the language leaves the rounding to the
    engine, and engines round correctly. *)
Definition parseInt (v : option string) : option Z :=
  toDouble <$> parseIntString (default "undefined" v).

(** [a > b] where [a] may be [NaN]. *)
Definition gt (a : option Z) (b : Z) : bool :=
  match a with
  | Some n => b <? n
  | None => false
  end.

(** [Math.round]: the nearest integer, ties towards plus infinity. *)
Definition round (x : Q) : Q := inject_Z (Qfloor (x + (1 # 2))).

(** [v || d] on a possibly missing string: the empty string is falsy. *)
Definition orString (v : option string) (d : string) : string :=
  match v with
  | Some EmptyString | None => d
  | Some s => s
  end.

(** [v || d] on a possibly missing number: zero is falsy. *)
Definition orNumber (v : option Q) (d : Q) : Q :=
  match v with
  | Some q => if Qeq_bool q 0 then d else q
  | None => d
  end.

(** [v || false] on a possibly missing boolean. *)
Definition orFalse (v : option bool) : bool :=
  match v with
  | Some b => b
  | None => false
  end.

End Js.

(** ** Data model *)

(** Values of configuration fields. *)
Inductive JsValue : Type :=
  | VString (s : string)
  | VNumber (q : Q)
  | VBool (b : bool)
  | VNull.

Record Position : Type := { x : Q; y : Q }.

Record FieldDescriptor : Type := {
  field_name : string;
  field_type : string;
  field_default : option JsValue;
  field_required : bool
}.

(** A node type descriptor; [config_schema] is [config_schema.fields] when
    both are present. *)
Record NodeType : Type := {
  name : string;
  display_name : string;
  category : string;
  description : string;
  config_schema : option (list FieldDescriptor)
}.

(** A node of the store.  The last three fields are absent on a node made
    by [createNode]. *)
Record Node : Type := {
  node_id : string;
  node_type : string;
  node_name : string;
  node_position : Position;
  node_config : gmap string JsValue;
  node_description : option string;
  node_continue_on_error : option bool;
  node_timeout : option Q;
  inputs : list string;
  outputs : list string
}.

Record Connection : Type := {
  conn_id : string;
  source : string;
  sourceHandle : string;
  target : string;
  targetHandle : string
}.

(** Entries of a serialized workflow. *)
Record NodeData : Type := {
  nd_id : string;
  nd_type : string;
  nd_name : string;
  nd_position : Position;
  nd_config : option (gmap string JsValue);
  nd_description : option string;
  nd_continue_on_error : option bool;
  nd_timeout : option Q
}.

Record ConnectionData : Type := {
  cd_id : string;
  cd_source : string;
  cd_sourceHandle : option string;
  cd_target : string;
  cd_targetHandle : option string
}.

Record WorkflowData : Type := {
  wd_nodes : option (list NodeData);
  wd_connections : option (list ConnectionData)
}.

Record ConnectionStart : Type := {
  cs_nodeId : string;
  cs_handle : string;
  cs_position : Position
}.

(** Callbacks registered with [setTimeout]. *)
Inductive Timer : Type :=
  | LoadConnections.

(** What a pointer event hit. *)
Inductive EventTarget : Type :=
  | TargetCanvas
  | TargetGrid
  | TargetInputHandle (nodeId handle : string)
  | TargetOutputHandle (nodeId handle : string)
  | TargetOther.

Record MouseEvent : Type := {
  clientX : Q;
  clientY : Q;
  deltaY : Q;
  ev_target : EventTarget
}.

Record Rect : Type := { rect_left : Q; rect_top : Q }.

(** The editor object. *)
Record Editor : Type := {
  workflowData : option WorkflowData;
  selectedNode : option string;
  selectedConnection : option string;
  isDragging : bool;
  isPanning : bool;
  isConnecting : bool;
  connectionStart : option ConnectionStart;
  lastMousePos : Position;
  nodeCounter : Z;
  clipboard : option Node;
  canvasOffset : Position;
  zoomLevel : Q;
  gridSize : Q;
  nodeTypes : gmap string NodeType;
  nodes : gmap string Node;
  connections : gmap string Connection;
  isDirty : bool;
  timers : list Timer
}.

(** Field updates of the editor object. *)
Definition set_workflowData (v : option WorkflowData) (s : Editor) : Editor :=
  Build_Editor v (selectedNode s) (selectedConnection s) (isDragging s)
    (isPanning s) (isConnecting s) (connectionStart s) (lastMousePos s)
    (nodeCounter s) (clipboard s) (canvasOffset s) (zoomLevel s) (gridSize s)
    (nodeTypes s) (nodes s) (connections s) (isDirty s) (timers s).
Definition set_selectedNode (v : option string) (s : Editor) : Editor :=
  Build_Editor (workflowData s) v (selectedConnection s) (isDragging s)
    (isPanning s) (isConnecting s) (connectionStart s) (lastMousePos s)
    (nodeCounter s) (clipboard s) (canvasOffset s) (zoomLevel s) (gridSize s)
    (nodeTypes s) (nodes s) (connections s) (isDirty s) (timers s).
Definition set_selectedConnection (v : option string) (s : Editor) : Editor :=
  Build_Editor (workflowData s) (selectedNode s) v (isDragging s)
    (isPanning s) (isConnecting s) (connectionStart s) (lastMousePos s)
    (nodeCounter s) (clipboard s) (canvasOffset s) (zoomLevel s) (gridSize s)
    (nodeTypes s) (nodes s) (connections s) (isDirty s) (timers s).
Definition set_isDragging (v : bool) (s : Editor) : Editor :=
  Build_Editor (workflowData s) (selectedNode s) (selectedConnection s) v
    (isPanning s) (isConnecting s) (connectionStart s) (lastMousePos s)
    (nodeCounter s) (clipboard s) (canvasOffset s) (zoomLevel s) (gridSize s)
    (nodeTypes s) (nodes s) (connections s) (isDirty s) (timers s).
Definition set_isPanning (v : bool) (s : Editor) : Editor :=
  Build_Editor (workflowData s) (selectedNode s) (selectedConnection s)
    (isDragging s) v (isConnecting s) (connectionStart s) (lastMousePos s)
    (nodeCounter s) (clipboard s) (canvasOffset s) (zoomLevel s) (gridSize s)
    (nodeTypes s) (nodes s) (connections s) (isDirty s) (timers s).
Definition set_isConnecting (v : bool) (s : Editor) : Editor :=
  Build_Editor (workflowData s) (selectedNode s) (selectedConnection s)
    (isDragging s) (isPanning s) v (connectionStart s) (lastMousePos s)
    (nodeCounter s) (clipboard s) (canvasOffset s) (zoomLevel s) (gridSize s)
    (nodeTypes s) (nodes s) (connections s) (isDirty s) (timers s).
Definition set_connectionStart (v : option ConnectionStart) (s : Editor) : Editor :=
  Build_Editor (workflowData s) (selectedNode s) (selectedConnection s)
    (isDragging s) (isPanning s) (isConnecting s) v (lastMousePos s)
    (nodeCounter s) (clipboard s) (canvasOffset s) (zoomLevel s) (gridSize s)
    (nodeTypes s) (nodes s) (connections s) (isDirty s) (timers s).
Definition set_lastMousePos (v : Position) (s : Editor) : Editor :=
  Build_Editor (workflowData s) (selectedNode s) (selectedConnection s)
    (isDragging s) (isPanning s) (isConnecting s) (connectionStart s) v
    (nodeCounter s) (clipboard s) (canvasOffset s) (zoomLevel s) (gridSize s)
    (nodeTypes s) (nodes s) (connections s) (isDirty s) (timers s).
Definition set_nodeCounter (v : Z) (s : Editor) : Editor :=
  Build_Editor (workflowData s) (selectedNode s) (selectedConnection s)
    (isDragging s) (isPanning s) (isConnecting s) (connectionStart s)
    (lastMousePos s) v (clipboard s) (canvasOffset s) (zoomLevel s)
    (gridSize s) (nodeTypes s) (nodes s) (connections s) (isDirty s)
    (timers s).
Definition set_clipboard (v : option Node) (s : Editor) : Editor :=
  Build_Editor (workflowData s) (selectedNode s) (selectedConnection s)
    (isDragging s) (isPanning s) (isConnecting s) (connectionStart s)
    (lastMousePos s) (nodeCounter s) v (canvasOffset s) (zoomLevel s)
    (gridSize s) (nodeTypes s) (nodes s) (connections s) (isDirty s)
    (timers s).
Definition set_canvasOffset (v : Position) (s : Editor) : Editor :=
  Build_Editor (workflowData s) (selectedNode s) (selectedConnection s)
    (isDragging s) (isPanning s) (isConnecting s) (connectionStart s)
    (lastMousePos s) (nodeCounter s) (clipboard s) v (zoomLevel s)
    (gridSize s) (nodeTypes s) (nodes s) (connections s) (isDirty s)
    (timers s).
Definition set_zoomLevel (v : Q) (s : Editor) : Editor :=
  Build_Editor (workflowData s) (selectedNode s) (selectedConnection s)
    (isDragging s) (isPanning s) (isConnecting s) (connectionStart s)
    (lastMousePos s) (nodeCounter s) (clipboard s) (canvasOffset s) v
    (gridSize s) (nodeTypes s) (nodes s) (connections s) (isDirty s)
    (timers s).
Definition set_nodeTypes (v : gmap string NodeType) (s : Editor) : Editor :=
  Build_Editor (workflowData s) (selectedNode s) (selectedConnection s)
    (isDragging s) (isPanning s) (isConnecting s) (connectionStart s)
    (lastMousePos s) (nodeCounter s) (clipboard s) (canvasOffset s)
    (zoomLevel s) (gridSize s) v (nodes s) (connections s) (isDirty s)
    (timers s).
Definition set_nodes (v : gmap string Node) (s : Editor) : Editor :=
  Build_Editor (workflowData s) (selectedNode s) (selectedConnection s)
    (isDragging s) (isPanning s) (isConnecting s) (connectionStart s)
    (lastMousePos s) (nodeCounter s) (clipboard s) (canvasOffset s)
    (zoomLevel s) (gridSize s) (nodeTypes s) v (connections s) (isDirty s)
    (timers s).
Definition set_connections (v : gmap string Connection) (s : Editor) : Editor :=
  Build_Editor (workflowData s) (selectedNode s) (selectedConnection s)
    (isDragging s) (isPanning s) (isConnecting s) (connectionStart s)
    (lastMousePos s) (nodeCounter s) (clipboard s) (canvasOffset s)
    (zoomLevel s) (gridSize s) (nodeTypes s) (nodes s) v (isDirty s)
    (timers s).
Definition set_isDirty (v : bool) (s : Editor) : Editor :=
  Build_Editor (workflowData s) (selectedNode s) (selectedConnection s)
    (isDragging s) (isPanning s) (isConnecting s) (connectionStart s)
    (lastMousePos s) (nodeCounter s) (clipboard s) (canvasOffset s)
    (zoomLevel s) (gridSize s) (nodeTypes s) (nodes s) (connections s) v
    (timers s).
Definition set_timers (v : list Timer) (s : Editor) : Editor :=
  Build_Editor (workflowData s) (selectedNode s) (selectedConnection s)
    (isDragging s) (isPanning s) (isConnecting s) (connectionStart s)
    (lastMousePos s) (nodeCounter s) (clipboard s) (canvasOffset s)
    (zoomLevel s) (gridSize s) (nodeTypes s) (nodes s) (connections s)
    (isDirty s) v.

Definition set_node_position (p : Position) (n : Node) : Node :=
  {| node_id := node_id n; node_type := node_type n; node_name := node_name n;
     node_position := p; node_config := node_config n;
     node_description := node_description n;
     node_continue_on_error := node_continue_on_error n;
     node_timeout := node_timeout n;
     inputs := inputs n; outputs := outputs n |}.

Definition set_node_id (id : string) (n : Node) : Node :=
  {| node_id := id; node_type := node_type n; node_name := node_name n;
     node_position := node_position n; node_config := node_config n;
     node_description := node_description n;
     node_continue_on_error := node_continue_on_error n;
     node_timeout := node_timeout n;
     inputs := inputs n; outputs := outputs n |}.

Definition set_node_name (v : string) (n : Node) : Node :=
  {| node_id := node_id n; node_type := node_type n; node_name := v;
     node_position := node_position n; node_config := node_config n;
     node_description := node_description n;
     node_continue_on_error := node_continue_on_error n;
     node_timeout := node_timeout n;
     inputs := inputs n; outputs := outputs n |}.

(** ** Completions and the editor monad *)

Inductive JsError : Type :=
  | TypeError (msg : string)
  | SyntaxError.

(** Result of a function that does not touch the editor but may throw. *)
Inductive Result (A : Type) : Type :=
  | Ok (a : A)
  | Err (e : JsError).
Arguments Ok {A} a.
Arguments Err {A} e.

(** Result of a method: how it completed and the editor it left. *)
Inductive Completion (A : Type) : Type :=
  | Normal (a : A) (s : Editor)
  | Throw (e : JsError) (s : Editor).
Arguments Normal {A} a s.
Arguments Throw {A} e s.

Definition M (A : Type) : Type := Editor -> Completion A.

Definition ret {A : Type} (a : A) : M A := fun s => Normal a s.

Definition bind {A B : Type} (m : M A) (k : A -> M B) : M B :=
  fun s =>
    match m s with
    | Normal a s' => k a s'
    | Throw e s' => Throw e s'
    end.

Definition get : M Editor := fun s => Normal s s.

Definition modify (f : Editor -> Editor) : M unit := fun s => Normal tt (f s).

Definition lift {A : Type} (r : Result A) : M A :=
  fun s =>
    match r with
    | Ok a => Normal a s
    | Err e => Throw e s
    end.

(** [try { m } catch (error) { }]: the handlers of the editor only notify. *)
Definition catch (m : M unit) : M unit :=
  fun s =>
    match m s with
    | Normal a s' => Normal a s'
    | Throw _ s' => Normal tt s'
    end.

(** The editor a completion leaves, however it completed. *)
Definition final {A : Type} (c : Completion A) : Editor :=
  match c with
  | Normal _ s => s
  | Throw _ s => s
  end.

Declare Scope editor_scope.
Delimit Scope editor_scope with editor.
Notation "v <- c1 ;; c2" := (bind c1 (fun v => c2))
  (at level 100, c1 at next level, right associativity) : editor_scope.
Notation "c1 ;; c2" := (bind c1 (fun _ => c2))
  (at level 100, right associativity) : editor_scope.
Local Open Scope editor_scope.

Definition when (b : bool) (m : M unit) : M unit :=
  if b then m else ret tt.

(** [array.forEach(f)]. *)
Fixpoint forEach {A : Type} (l : list A) (f : A -> M unit) : M unit :=
  match l with
  | [] => ret tt
  | a :: l' => f a ;; forEach l' f
  end.

(** Truthiness of a value that is [null] or a string. *)
Definition truthy (v : option string) : bool :=
  match v with
  | Some EmptyString | None => false
  | Some _ => true
  end.

(** ** The editor *)

Definition emptyWorkflowData : WorkflowData :=
  {| wd_nodes := Some []; wd_connections := Some [] |}.

Definition origin : Position := {| x := 0; y := 0 |}.

(** [constructor(options)], before [init()] runs. *)
Definition constructor (options_workflowData : option WorkflowData) : Editor :=
  {| workflowData := Some (default emptyWorkflowData options_workflowData);
     selectedNode := None;
     selectedConnection := None;
     isDragging := false;
     isPanning := false;
     isConnecting := false;
     connectionStart := None;
     lastMousePos := origin;
     nodeCounter := 0;
     clipboard := None;
     canvasOffset := origin;
     zoomLevel := 1;
     gridSize := 20;
     nodeTypes := ∅;
     nodes := ∅;
     connections := ∅;
     isDirty := false;
     timers := [] |}.

Definition field (n t : string) (d : option JsValue) (r : bool) : FieldDescriptor :=
  {| field_name := n; field_type := t; field_default := d; field_required := r |}.

Definition nodeTypeOf (n dn c d : string) (fs : list FieldDescriptor) : NodeType :=
  {| name := n; display_name := dn; category := c; description := d;
     config_schema := Some fs |}.

(** Two entries of the built-in catalogue. *)
Definition webhook_trigger : NodeType :=
  nodeTypeOf "webhook_trigger" "Webhook" "trigger" "Trigger workflow via HTTP webhook"
    [ field "method" "select" (Some (VString "POST")) false;
      field "path" "text" None false ].

Definition http_request : NodeType :=
  nodeTypeOf "http_request" "HTTP Request" "data" "Make HTTP requests to APIs"
    [ field "method" "select" (Some (VString "GET")) false;
      field "url" "text" None true;
      field "headers" "textarea" None false;
      field "body" "textarea" None false;
      field "timeout" "number" (Some (VNumber 30)) false ].

(** The built-in catalogue of [loadDefaultNodeTypes] (icons, colours,
    labels, placeholders and option lists are presentation and left out). *)
Definition defaultTypes : list NodeType :=
  [ webhook_trigger;
    nodeTypeOf "schedule_trigger" "Schedule" "trigger" "Trigger workflow on schedule"
      [ field "cron" "text" None false;
        field "timezone" "select" (Some (VString "UTC")) false ];
    nodeTypeOf "manual_trigger" "Manual" "trigger" "Manually trigger workflow" [];
    http_request;
    nodeTypeOf "database_query" "Database Query" "data" "Query database for data"
      [ field "query_type" "select" (Some (VString "SELECT")) false;
        field "table_name" "text" None true;
        field "conditions" "text" None false;
        field "fields" "text" (Some (VString "*")) false;
        field "limit" "number" (Some (VNumber 100)) false ];
    nodeTypeOf "data_transform" "Transform Data" "transform" "Transform and map data"
      [ field "transform_type" "select" (Some (VString "map")) false;
        field "field_mappings" "textarea" None false ];
    nodeTypeOf "json_parser" "JSON Parser" "transform" "Parse and manipulate JSON data"
      [ field "operation" "select" (Some (VString "parse")) false;
        field "json_field" "text" (Some (VString "data")) false;
        field "fields" "textarea" None false ];
    nodeTypeOf "condition" "Condition" "condition" "Branch workflow based on conditions"
      [ field "field" "text" None true;
        field "operator" "select" (Some (VString "equals")) false;
        field "value" "text" None false;
        field "logic_operator" "select" (Some (VString "AND")) false ];
    nodeTypeOf "switch" "Switch" "condition" "Route to different paths based on value"
      [ field "switch_field" "text" None true;
        field "cases" "textarea" None false ];
    nodeTypeOf "email_send" "Send Email" "action" "Send email notifications"
      [ field "to" "text" None true;
        field "subject" "text" None true;
        field "body" "textarea" None true;
        field "from_email" "text" None false ];
    nodeTypeOf "slack_notification" "Slack Notification" "action" "Send Slack notifications"
      [ field "webhook_url" "text" None true;
        field "message" "textarea" None true;
        field "channel" "text" None false;
        field "username" "text" (Some (VString "Workflow Bot")) false ];
    nodeTypeOf "delay" "Delay" "action" "Add delay to workflow execution"
      [ field "delay_seconds" "number" (Some (VNumber 1)) true;
        field "delay_type" "select" (Some (VString "fixed")) false;
        field "min_delay" "number" (Some (VNumber 1)) false;
        field "max_delay" "number" (Some (VNumber 5)) false ];
    nodeTypeOf "database_save" "Save to Database" "output" "Save data to database"
      [ field "table_name" "text" None true;
        field "operation" "select" (Some (VString "insert")) false;
        field "where_conditions" "textarea" None false;
        field "unique_columns" "text" None false ];
    nodeTypeOf "file_export" "Export to File" "output" "Export data to file"
      [ field "file_path" "text" None true;
        field "format" "select" (Some (VString "json")) false ] ].

(** [nodeTypes.forEach(nodeType => this.nodeTypes.set(nodeType.name, nodeType))]. *)
Definition registerNodeTypes (l : list NodeType) : M unit :=
  forEach l (fun nodeType =>
    modify (fun s => set_nodeTypes (<[name nodeType := nodeType]> (nodeTypes s)) s)).

Definition loadDefaultNodeTypes : M unit := registerNodeTypes defaultTypes.

(** [loadNodeTypes()]: [response] is the list the node type API returned,
    [None] when the request failed. *)
Definition loadNodeTypes (response : option (list NodeType)) : M unit :=
  match response with
  | Some l => registerNodeTypes l
  | None => loadDefaultNodeTypes
  end.

Definition markDirty : M unit := modify (set_isDirty true).

(** [deselectAll()] after its loop over the connections, which is
    [renderConnections] below. *)
Definition deselectAll : M unit :=
  modify (fun s => set_selectedConnection None (set_selectedNode None s)).

(** [showNodeProperties(nodeId)]: reading [node.type] throws when the node
    is not in the store; the rest fills the properties panel. *)
Definition showNodeProperties (nodeId : string) : M unit :=
  s <- get ;;
  match nodes s !! nodeId with
  | None => lift (Err (TypeError "Cannot read properties of undefined (reading 'type')"))
  | Some _ => ret tt
  end.

Definition selectNode (nodeId : string) : M unit :=
  deselectAll ;;
  modify (set_selectedNode (Some nodeId)) ;;
  showNodeProperties nodeId.

(** [config[name] = value] on a plain object.  The configuration is the
    map of the object's own properties; assigning to [__proto__] goes to
    the accessor of [Object.prototype] and makes no own property. *)
Definition assign (key : string) (value : JsValue) (config : gmap string JsValue)
    : gmap string JsValue :=
  if decide (key = "__proto__") then config else <[key := value]> config.

Definition getDefaultConfig (nodeType : NodeType) : gmap string JsValue :=
  match config_schema nodeType with
  | Some fields =>
      fold_left
        (fun config f =>
           match field_default f with
           | Some d => assign (field_name f) d config
           | None => config
           end)
        fields ∅
  | None => ∅
  end.

(** [getNodeInputs(nodeType)]; the argument is [None] when the caller
    passes [undefined]. *)
Definition getNodeInputs (nodeType : option NodeType) : Result (list string) :=
  match nodeType with
  | None => Err (TypeError "Cannot read properties of undefined (reading 'category')")
  | Some nt =>
      if decide (category nt = "trigger") then Ok [] else Ok ["input"]
  end.

Definition getNodeOutputs (nodeType : option NodeType) : Result (list string) :=
  match nodeType with
  | None => Err (TypeError "Cannot read properties of undefined (reading 'name')")
  | Some nt =>
      if decide (name nt = "condition") then Ok ["true"; "false"]
      else if decide (name nt = "switch") then Ok ["output"]
      else Ok ["output"]
  end.

Definition createNode (nodeType : NodeType) (position : Position) : M string :=
  s <- get ;;
  let counter := Js.increment (nodeCounter s) in
  modify (set_nodeCounter counter) ;;
  let nodeId := "node_" +:+ Js.numberToString counter in
  ins <- lift (getNodeInputs (Some nodeType)) ;;
  outs <- lift (getNodeOutputs (Some nodeType)) ;;
  let node :=
    {| node_id := nodeId;
       node_type := name nodeType;
       node_name := display_name nodeType;
       node_position := position;
       node_config := getDefaultConfig nodeType;
       node_description := None;
       node_continue_on_error := None;
       node_timeout := None;
       inputs := ins;
       outputs := outs |} in
  modify (fun s => set_nodes (<[nodeId := node]> (nodes s)) s) ;;
  selectNode nodeId ;;
  markDirty ;;
  ret nodeId.

(** [Math.round(v / gridSize) * gridSize]. *)
Definition snapToGrid (gridSize v : Q) : Q :=
  Js.mul (Js.round (Js.div v gridSize)) gridSize.

(** [onCanvasDrop(e)]: [nodeTypeName] is the dragged palette entry, [rect]
    the canvas rectangle. *)
Definition onCanvasDrop (rect : Rect) (nodeTypeName : string) (e : MouseEvent) : M unit :=
  s <- get ;;
  match nodeTypes s !! nodeTypeName with
  | None => ret tt
  | Some nodeType =>
      let px := Js.div (Js.sub (Js.sub (clientX e) (rect_left rect)) (x (canvasOffset s)))
                  (zoomLevel s) in
      let py := Js.div (Js.sub (Js.sub (clientY e) (rect_top rect)) (y (canvasOffset s)))
                  (zoomLevel s) in
      let snappedX := snapToGrid (gridSize s) px in
      let snappedY := snapToGrid (gridSize s) py in
      _ <- createNode nodeType {| x := snappedX; y := snappedY |} ;;
      ret tt
  end.

(** *** The page

    The calls that draw ([renderNode], [renderConnection], the properties
    panel) do not change the editor object.  They are left out, with one
    exception: looking an element up with a selector that holds an id or a
    handle name, as [querySelector] is asked to in [deleteConnection],
    throws a [SyntaxError] when the browser does not accept the selector.
    A name without a double quote, a backslash and a line break is
    [quotable]: between the quotes of an attribute selector it is a string
    of the selector language, and the selector is accepted.  Every id and
    every handle name the editor makes is quotable; a loaded workflow may
    hold others, and what the browser's parser makes of the selector is
    then read from the page.

    The lookups are part of [deleteConnection], [deleteNode] and the
    connection callback of [loadWorkflow] below, with the page as an
    argument.  In [createNode], [addConnection], [selectNode], the node
    loop of [loadWorkflow] and the handlers that call [deselectAll] the
    drawing is left out: these definitions give the run in which drawing
    completes, as it does whenever the names in the store are quotable,
    and a statement about them is a statement about that run.  Where the
    arguments of a method or the workflow that is loaded decide whether
    drawing completes, the statement names the condition. *)

Record Page : Type := {
  (** the browser's parser accepts the selector *)
  parses : string -> bool;
  (** the nodes layer holds an element for the node id *)
  nodeElement : string -> bool
}.

(** The double quote. *)
Definition quote : string := String "034"%char EmptyString.

Definition quotableChar (c : ascii) : bool :=
  let n := nat_of_ascii c in
  negb ((n =? 34)%nat || (n =? 92)%nat || (n =? 10)%nat || (n =? 12)%nat || (n =? 13)%nat).

Fixpoint quotable (value : string) : bool :=
  match value with
  | EmptyString => true
  | String c rest => quotableChar c && quotable rest
  end.

Definition attributeSelector (attribute value : string) : string :=
  "[" +:+ attribute +:+ "=" +:+ quote +:+ value +:+ quote +:+ "]".

Definition nodeSelector (nodeId : string) : string :=
  attributeSelector "data-node-id" nodeId.

Definition connectionSelector (connectionId : string) : string :=
  attributeSelector "data-connection-id" connectionId.

Definition handleSelector (type handleName : string) : string :=
  ".node-handle." +:+ type +:+ attributeSelector "data-handle" handleName.

(** The browser accepts the selector made of a name. *)
Definition accepted (page : Page) (select : string -> string) (value : string) : bool :=
  quotable value || parses page (select value).

(** [querySelector(select(value))], for its exception only: a
    [DOMException] named [SyntaxError], whose message is not represented.
    What the lookup finds is not represented either. *)
Definition querySelector (page : Page) (select : string -> string) (value : string)
    : M unit :=
  if accepted page select value then ret tt else lift (Err SyntaxError).

(** [getHandlePosition(nodeId, handleName, type)], for its exceptions. *)
Definition getHandlePosition (page : Page) (nodeId handleName type : string) : M unit :=
  querySelector page nodeSelector nodeId ;;
  if nodeElement page nodeId then querySelector page (handleSelector type) handleName
  else ret tt.

(** [renderConnection(connection)], for its exceptions: nothing is drawn
    when one of the two nodes is not in the store. *)
Definition renderConnection (page : Page) (connection : Connection) : M unit :=
  s <- get ;;
  match nodes s !! source connection, nodes s !! target connection with
  | Some _, Some _ =>
      getHandlePosition page (source connection) (sourceHandle connection) "output" ;;
      getHandlePosition page (target connection) (targetHandle connection) "input" ;;
      querySelector page connectionSelector (conn_id connection)
  | _, _ => ret tt
  end.

(** [renderConnections()], for its exceptions: every connection is drawn
    again.  [deselectAll()] runs the same loop before it clears the
    selection.  The loop changes nothing in the editor, and it throws when
    drawing one of the connections does. *)
Definition renderConnections (page : Page) : M unit :=
  s <- get ;;
  forEach (map_to_list (connections s)).*2 (renderConnection page).

(** *** Connections *)

(** [startConnection(sourceNodeId, sourceHandle, e)]; [handlePosition] is
    what [getHandlePosition] measured. *)
Definition startConnection (sourceNodeId sourceHandle : string)
    (handlePosition : Position) : M unit :=
  modify (set_isConnecting true) ;;
  modify (set_connectionStart
            (Some {| cs_nodeId := sourceNodeId; cs_handle := sourceHandle;
                     cs_position := handlePosition |})).

(** [onHandleMouseDown(e, nodeId, handleElement)]: only output handles
    start a connection. *)
Definition onHandleMouseDown (e : MouseEvent) (handlePosition : Position) : M unit :=
  match ev_target e with
  | TargetOutputHandle nodeId handleName =>
      startConnection nodeId handleName handlePosition
  | _ => ret tt
  end.

(** The id built from [Date.now()] and the random suffix. *)
Definition connectionIdOf (now : Z) (rnd : string) : string :=
  "connection_" +:+ Js.numberToString now +:+ "_" +:+ rnd.

Definition addConnection (now : Z) (rnd : string)
    (sourceNodeId sourceHandle targetNodeId targetHandle : string) : M string :=
  let connectionId := connectionIdOf now rnd in
  let connection :=
    {| conn_id := connectionId;
       source := sourceNodeId;
       sourceHandle := sourceHandle;
       target := targetNodeId;
       targetHandle := targetHandle |} in
  modify (fun s => set_connections (<[connectionId := connection]> (connections s)) s) ;;
  markDirty ;;
  ret connectionId.

Definition finishConnection (now : Z) (rnd : string) (e : MouseEvent) : M unit :=
  modify (set_isConnecting false) ;;
  match ev_target e with
  | TargetInputHandle targetNodeId targetHandle =>
      s <- get ;;
      match connectionStart s with
      | Some start =>
          if decide (targetNodeId ≠ cs_nodeId start)
          then _ <- addConnection now rnd (cs_nodeId start) (cs_handle start)
                      targetNodeId targetHandle ;;
               ret tt
          else ret tt
      | None => ret tt
      end
  | _ => ret tt
  end ;;
  modify (set_connectionStart None).

(** *** Deletion *)

Definition deleteConnection (page : Page) (connectionId : string) : M unit :=
  modify (fun s => set_connections (delete connectionId (connections s)) s) ;;
  querySelector page connectionSelector connectionId ;;
  s <- get ;;
  when (bool_decide (selectedConnection s = Some connectionId))
    (renderConnections page ;; deselectAll) ;;
  markDirty.

(** The ids [deleteNode] pushes onto [connectionsToRemove]. *)
Definition connectionsToRemove (nodeId : string) (s : Editor) : list string :=
  (List.filter
     (fun entry : string * Connection =>
        bool_decide (source entry.2 = nodeId) || bool_decide (target entry.2 = nodeId))
     (map_to_list (connections s))).*1.

Definition deleteNode (page : Page) (nodeId : string) : M unit :=
  s <- get ;;
  forEach (connectionsToRemove nodeId s) (deleteConnection page) ;;
  modify (fun s => set_nodes (delete nodeId (nodes s)) s) ;;
  querySelector page nodeSelector nodeId ;;
  renderConnections page ;;
  deselectAll ;;
  markDirty.

(** [clearCanvas()]; [confirmed] is the answer to the confirmation dialog. *)
Definition clearCanvas (confirmed : bool) : M unit :=
  when confirmed
    (modify (set_nodes ∅) ;;
     modify (set_connections ∅) ;;
     deselectAll ;;
     markDirty).

(** *** Clipboard *)

(** The copy that [duplicateNode] and [pasteNode] store: a new id from the
    counter, the position moved by (50, 50), a suffix on the name. *)
Definition storeCopy (original : Node) (suffix : string) : M unit :=
  s <- get ;;
  let counter := Js.increment (nodeCounter s) in
  modify (set_nodeCounter counter) ;;
  let newId := "node_" +:+ Js.numberToString counter in
  let newNode :=
    set_node_name (node_name original +:+ suffix)
      (set_node_position
         {| x := Js.add (x (node_position original)) 50;
            y := Js.add (y (node_position original)) 50 |}
         (set_node_id newId original)) in
  modify (fun s => set_nodes (<[newId := newNode]> (nodes s)) s) ;;
  selectNode newId ;;
  markDirty.

Definition copyNode (nodeId : string) : M unit :=
  s <- get ;;
  match nodes s !! nodeId with
  | Some node => modify (set_clipboard (Some node))
  | None => ret tt
  end.

Definition duplicateNode (nodeId : string) : M unit :=
  s <- get ;;
  match nodes s !! nodeId with
  | Some node => storeCopy node " (Copy)"
  | None => ret tt
  end.

Definition pasteNode : M unit :=
  s <- get ;;
  match clipboard s with
  | Some node => storeCopy node " (Pasted)"
  | None => ret tt
  end.

(** *** Pointer gestures *)

Definition onNodeMouseDown (e : MouseEvent) (nodeId : string) : M unit :=
  s <- get ;;
  when (negb (truthy (selectedNode s)) || negb (bool_decide (selectedNode s = Some nodeId)))
    (selectNode nodeId) ;;
  modify (set_isDragging true) ;;
  modify (set_lastMousePos {| x := clientX e; y := clientY e |}).

Definition onCanvasMouseDown (e : MouseEvent) : M unit :=
  match ev_target e with
  | TargetCanvas | TargetGrid =>
      deselectAll ;;
      modify (set_isPanning true) ;;
      modify (set_lastMousePos {| x := clientX e; y := clientY e |})
  | _ => ret tt
  end.

(** The dragging branch of [onCanvasMouseMove(e)]. *)
Definition dragSelectedNode (e : MouseEvent) : M unit :=
  s <- get ;;
  match selectedNode s with
  | Some selected =>
      let deltaX := Js.div (Js.sub (clientX e) (x (lastMousePos s))) (zoomLevel s) in
      let deltaY := Js.div (Js.sub (clientY e) (y (lastMousePos s))) (zoomLevel s) in
      match nodes s !! selected with
      | Some node =>
          let movedX := Js.add (x (node_position node)) deltaX in
          let movedY := Js.add (y (node_position node)) deltaY in
          let snapped :=
            {| x := snapToGrid (gridSize s) movedX;
               y := snapToGrid (gridSize s) movedY |} in
          modify (fun s => set_nodes (<[selected := set_node_position snapped node]> (nodes s)) s)
      | None => ret tt
      end ;;
      modify (set_lastMousePos {| x := clientX e; y := clientY e |})
  | None => ret tt
  end.

Definition onCanvasMouseMove (e : MouseEvent) : M unit :=
  s <- get ;;
  when (isPanning s)
    (let deltaX := (clientX e - x (lastMousePos s))%Q in
     let deltaY := (clientY e - y (lastMousePos s))%Q in
     modify (set_canvasOffset
               {| x := (x (canvasOffset s) + deltaX)%Q;
                  y := (y (canvasOffset s) + deltaY)%Q |}) ;;
     modify (set_lastMousePos {| x := clientX e; y := clientY e |})) ;;
  s <- get ;;
  when (isDragging s && truthy (selectedNode s)) (dragSelectedNode e).

Definition onCanvasMouseUp (now : Z) (rnd : string) (e : MouseEvent) : M unit :=
  s <- get ;;
  when (isPanning s) (modify (set_isPanning false)) ;;
  s <- get ;;
  when (isDragging s) (modify (set_isDragging false) ;; markDirty) ;;
  s <- get ;;
  when (isConnecting s) (finishConnection now rnd e).

(** *** Zoom *)

(** [onCanvasWheel(e)]; [rect] is the canvas rectangle. *)
Definition onCanvasWheel (rect : Rect) (e : MouseEvent) : M unit :=
  s <- get ;;
  let mouseX := (clientX e - rect_left rect)%Q in
  let mouseY := (clientY e - rect_top rect)%Q in
  let scaleFactor := if Qlt_le_dec 0 (deltaY e) then 9 # 10 else 11 # 10 in
  let newZoom := Qmax (1 # 10) (Qmin 3 (zoomLevel s * scaleFactor)) in
  let scaleChange := (newZoom / zoomLevel s)%Q in
  modify (set_canvasOffset
            {| x := (mouseX - (mouseX - x (canvasOffset s)) * scaleChange)%Q;
               y := (mouseY - (mouseY - y (canvasOffset s)) * scaleChange)%Q |}) ;;
  modify (set_zoomLevel newZoom).

Definition zoomIn : M unit :=
  s <- get ;; modify (set_zoomLevel (Qmin (zoomLevel s * (12 # 10)) 3)).

Definition zoomOut : M unit :=
  s <- get ;; modify (set_zoomLevel (Qmax (zoomLevel s / (12 # 10)) (1 # 10))).

(** *** Loading a serialized workflow *)

(** The part of a node id after its first underscore, [undefined] when
    there is none. *)
Definition idSuffix (id : string) : option string :=
  Js.split "_" id !! 1%nat.

(** The callback [loadWorkflow] runs on every node entry. *)
Definition loadNode (nodeData : NodeData) : M unit :=
  s <- get ;;
  ins <- lift (getNodeInputs (nodeTypes s !! nd_type nodeData)) ;;
  outs <- lift (getNodeOutputs (nodeTypes s !! nd_type nodeData)) ;;
  let node :=
    {| node_id := nd_id nodeData;
       node_type := nd_type nodeData;
       node_name := nd_name nodeData;
       node_position := nd_position nodeData;
       node_config := default ∅ (nd_config nodeData);
       node_description := Some (Js.orString (nd_description nodeData) "");
       node_continue_on_error := Some (Js.orFalse (nd_continue_on_error nodeData));
       node_timeout := Some (Js.orNumber (nd_timeout nodeData) 30);
       inputs := ins;
       outputs := outs |} in
  modify (fun s => set_nodes (<[node_id node := node]> (nodes s)) s) ;;
  s <- get ;;
  when (Js.gt (Js.parseInt (idSuffix (node_id node))) (nodeCounter s))
    (modify (set_nodeCounter (default 0 (Js.parseInt (idSuffix (node_id node)))))).

(** [loadWorkflow()]: the nodes are loaded at once, the connections by a
    timer callback. *)
Definition loadWorkflow : M unit :=
  s <- get ;;
  match workflowData s with
  | Some data =>
      match wd_nodes data with
      | Some nodeList =>
          forEach nodeList loadNode ;;
          modify (fun s => set_timers (timers s ++ [LoadConnections]) s)
      | None => ret tt
      end
  | None => ret tt
  end.

(** The connection that the callback of [loadWorkflow] makes of an
    entry. *)
Definition connectionOf (connectionData : ConnectionData) : Connection :=
  {| conn_id := cd_id connectionData;
     source := cd_source connectionData;
     sourceHandle := Js.orString (cd_sourceHandle connectionData) "output";
     target := cd_target connectionData;
     targetHandle := Js.orString (cd_targetHandle connectionData) "input" |}.

(** The callback [loadWorkflow] runs on every connection entry: the
    connection is stored, then drawn. *)
Definition loadConnection (page : Page) (connectionData : ConnectionData) : M unit :=
  let connection := connectionOf connectionData in
  modify (fun s => set_connections (<[conn_id connection := connection]> (connections s)) s) ;;
  renderConnection page connection.

(** The timer callback of [loadWorkflow]; [page] is the page at the time
    the timer fires. *)
Definition loadConnections (page : Page) : M unit :=
  s <- get ;;
  match workflowData s with
  | Some data =>
      match wd_connections data with
      | Some connectionList => forEach connectionList (loadConnection page)
      | None => ret tt
      end
  | None =>
      lift (Err (TypeError "Cannot read properties of null (reading 'connections')"))
  end.

Definition runTimer (page : Page) (t : Timer) : M unit :=
  match t with
  | LoadConnections => loadConnections page
  end.

(** The event loop fires the oldest pending timer. *)
Definition fireTimer (page : Page) : M unit :=
  s <- get ;;
  match timers s with
  | [] => ret tt
  | t :: rest => modify (set_timers rest) ;; runTimer page t
  end.

(** The [reader.onload] handler of [importWorkflow()]: [definition] is
    [workflowData.definition || workflowData] of the parsed file,
    [confirmReplace] and [confirmClear] the answers to the two dialogs. *)
Definition importWorkflow (definition : WorkflowData)
    (confirmReplace confirmClear : bool) : M unit :=
  catch
    (when confirmReplace
       (clearCanvas confirmClear ;;
        modify (set_workflowData (Some definition)) ;;
        loadWorkflow ;;
        markDirty)).

(** [init()] when the node type API answered with [response]. *)
Definition init (response : option (list NodeType)) : M unit :=
  loadNodeTypes response ;;
  loadWorkflow.

(** ** The port rules as [WorkflowEditorMain] states them *)

Module Main.

Definition getNodeInputs (nodeType : option NodeType) : Result (list string) :=
  match nodeType with
  | None => Err (TypeError "Cannot read properties of undefined (reading 'category')")
  | Some nt =>
      if decide (category nt = "trigger") then Ok [] else Ok ["input"]
  end.

Definition getNodeOutputs (nodeType : option NodeType) : Result (list string) :=
  match nodeType with
  | None => Err (TypeError "Cannot read properties of undefined (reading 'name')")
  | Some nt =>
      if decide (name nt = "condition") then Ok ["true"; "false"]
      else if decide (name nt = "switch") then Ok ["output"]
      else Ok ["output"]
  end.



End Main.

(** ** More of the editor *)

(** *** Selecting *)

(** [selectConnection(connectionId)]: drawing the connection reads
    [connection.source], which throws when the id is not in the store. *)
Definition selectConnection (connectionId : string) : M unit :=
  deselectAll ;;
  modify (set_selectedConnection (Some connectionId)) ;;
  s <- get ;;
  match connections s !! connectionId with
  | None => lift (Err (TypeError "Cannot read properties of undefined (reading 'source')"))
  | Some _ => ret tt
  end.

Definition onNodeClick (nodeId : string) : M unit := selectNode nodeId.

Definition onNodeContextMenu (nodeId : string) : M unit := selectNode nodeId.

Definition onConnectionClick (connectionId : string) : M unit :=
  selectConnection connectionId.

(** *** Fitting and centring the view *)

(** Width and height of the canvas rectangle. *)
Record Size : Type := { width : Q; height : Q }.

(** The corners [minX], [minY], [maxX], [maxY] of the loop over the nodes. *)
Record Box : Type := { minX : Q; minY : Q; maxX : Q; maxY : Q }.

(** One round of the loop; [None] stands for the initial corners
    ([Infinity], [Infinity], [-Infinity], [-Infinity]).  A node counts as
    200 wide and 100 high. *)
Definition extendBox (box : option Box) (node : Node) : option Box :=
  let px := x (node_position node) in
  let py := y (node_position node) in
  match box with
  | None =>
      Some {| minX := px; minY := py; maxX := (px + 200)%Q; maxY := (py + 100)%Q |}
  | Some b =>
      Some {| minX := Qmin (minX b) px; minY := Qmin (minY b) py;
              maxX := Qmax (maxX b) (px + 200)%Q;
              maxY := Qmax (maxY b) (py + 100)%Q |}
  end.

Definition boundingBox (s : Editor) : option Box :=
  fold_left extendBox (map_to_list (nodes s)).*2 None.

(** [fitToScreen()]; [rect] is the size of the canvas.  An empty store
    returns at once, and then only is the box the initial one. *)
Definition fitToScreen (rect : Size) : M unit :=
  s <- get ;;
  match boundingBox s with
  | None => ret tt
  | Some b =>
      let workflowWidth := (maxX b - minX b)%Q in
      let workflowHeight := (maxY b - minY b)%Q in
      let scaleX := ((width rect - 100) / workflowWidth)%Q in
      let scaleY := ((height rect - 100) / workflowHeight)%Q in
      let zoom := Qmin (Qmin scaleX scaleY) 1 in
      modify (set_zoomLevel zoom) ;;
      let centerX := ((minX b + maxX b) / 2)%Q in
      let centerY := ((minY b + maxY b) / 2)%Q in
      modify (set_canvasOffset
                {| x := (width rect / 2 - centerX * zoom)%Q;
                   y := (height rect / 2 - centerY * zoom)%Q |})
  end.

Definition centerCanvas (rect : Size) : M unit :=
  s <- get ;;
  match boundingBox s with
  | None => ret tt
  | Some b =>
      let centerX := ((minX b + maxX b) / 2)%Q in
      let centerY := ((minY b + maxY b) / 2)%Q in
      modify (set_canvasOffset
                {| x := (width rect / 2 - centerX * zoomLevel s)%Q;
                   y := (height rect / 2 - centerY * zoomLevel s)%Q |})
  end.

(** *** Serializing *)

Definition nodeDataOf (node : Node) : NodeData :=
  {| nd_id := node_id node;
     nd_type := node_type node;
     nd_name := node_name node;
     nd_position := node_position node;
     nd_config := Some (node_config node);
     nd_description := Some (Js.orString (node_description node) "");
     nd_continue_on_error := Some (Js.orFalse (node_continue_on_error node));
     nd_timeout := Some (Js.orNumber (node_timeout node) 30) |}.

Definition connectionDataOf (connection : Connection) : ConnectionData :=
  {| cd_id := conn_id connection;
     cd_source := source connection;
     cd_sourceHandle := Some (sourceHandle connection);
     cd_target := target connection;
     cd_targetHandle := Some (targetHandle connection) |}.

(** [getWorkflowData()].  The entries come in the order of the map, which
    is the order of insertion in the source and not represented here. *)
Definition getWorkflowData (s : Editor) : WorkflowData :=
  {| wd_nodes := Some (nodeDataOf <$> (map_to_list (nodes s)).*2);
     wd_connections := Some (connectionDataOf <$> (map_to_list (connections s)).*2) |}.

(** *** Watching an execution *)

Module Polling.

(** What the status request comes back with: the request or the decoding
    of its body failed, the response was not a success, or it carried a
    status. *)
Inductive Reply : Type :=
  | Failed
  | NotOk
  | Status (status : string).

(** What polling does to the outside. *)
Inductive Effect : Type :=
  | FetchStatus
  | FetchLogs
  | SetTimeout (ms : nat).

Definition maxPolls : nat := 60.

Definition inProgress (status : string) : bool :=
  bool_decide (status = "running") || bool_decide (status = "queued").

(** The closure [poll] of [pollExecutionStatus(executionId)], run against
    the replies the server gives to the successive status requests; the
    replies that have not arrived yet are not in the list.  [pollCount] is
    the variable the closure captures. *)
Fixpoint poll (replies : list Reply) (pollCount : nat) : list Effect :=
  FetchStatus ::
  match replies with
  | [] => []
  | Status status :: later =>
      if inProgress status then
        if (pollCount <? maxPolls)%nat
        then SetTimeout 5000 :: poll later (S pollCount)
        else []
      else [FetchLogs]
  | _ :: _ => []
  end.

Definition pollExecutionStatus (replies : list Reply) : list Effect :=
  poll replies 0.

End Polling.

(** ** Notions used to state the properties *)


(** The type of a node entry is in the registry. *)
Definition registered (s : Editor) (nodeData : NodeData) : Prop :=
  is_Some (nodeTypes s !! nd_type nodeData).

(** What [getNodeInputs(undefined)] throws. *)
Definition undefinedCategory : JsError :=
  TypeError "Cannot read properties of undefined (reading 'category')".

(** The entries [loadWorkflow] stores: those before the first entry whose
    type is not registered, where the loop is left by the exception. *)
Fixpoint restoredNodes (s : Editor) (nodeList : list NodeData) : list NodeData :=
  match nodeList with
  | [] => []
  | nodeData :: rest =>
      match nodeTypes s !! nd_type nodeData with
      | Some _ => nodeData :: restoredNodes s rest
      | None => []
      end
  end.

(** A sequence of [createNode] calls and the ids they return. *)
Fixpoint createNodes (calls : list (NodeType * Position)) : M (list string) :=
  match calls with
  | [] => ret []
  | (nodeType, position) :: rest =>
      nodeId <- createNode nodeType position ;;
      nodeIds <- createNodes rest ;;
      ret (nodeId :: nodeIds)
  end.

(** The factor by which a wheel event scales the view:
    [e.deltaY > 0 ? 0.9 : 1.1]. *)
Definition wheelFactor (e : MouseEvent) : Q :=
  if Qlt_le_dec 0 (deltaY e) then 9 # 10 else 11 # 10.

(** A connection starts or ends at the node. *)
Definition touches (nodeId : string) (c : Connection) : Prop :=
  source c = nodeId \/ target c = nodeId.

(** Both handle names of a connection are non-empty. *)
Definition handlesNamed (c : Connection) : Prop :=
  sourceHandle c <> "" /\ targetHandle c <> "".

#[global] Instance handlesNamed_dec (c : Connection) : Decision (handlesNamed c).
Proof. unfold handlesNamed. apply _. Defined.

(** The id, the end points and the handle names of a connection are
    quotable: drawing it throws no exception, whatever the page. *)
Definition drawable (c : Connection) : bool :=
  quotable (conn_id c) && quotable (source c) && quotable (sourceHandle c)
  && quotable (target c) && quotable (targetHandle c).

(** The string does not contain the character. *)
Fixpoint lacks (sep : ascii) (s : string) : Prop :=
  match s with
  | EmptyString => True
  | String c s' => c <> sep /\ lacks sep s'
  end.

(** How many status requests and how many log requests there are among
    the effects of polling. *)
Definition statusRequests (effects : list Polling.Effect) : nat :=
  length (List.filter (fun e => match e with Polling.FetchStatus => true | _ => false end)
            effects).

Definition logRequests (effects : list Polling.Effect) : nat :=
  length (List.filter (fun e => match e with Polling.FetchLogs => true | _ => false end)
            effects).

Definition timeouts (effects : list Polling.Effect) : nat :=
  length (List.filter (fun e => match e with Polling.SetTimeout _ => true | _ => false end)
            effects).

(** ** Concrete editors for the scenarios *)

(** A page on which every node has its element and whose parser accepts
    no selector made of a name that is not quotable. *)
Definition strictPage : Page :=
  {| parses := fun _ => false; nodeElement := fun _ => true |}.

(** The editor after [init()] fell back to the built-in catalogue. *)
Definition catalogue : Editor := final (init None (constructor None)).

(** Nodes A, B, C with connections A to B and B to C. *)
Definition scenarioABC : M unit :=
  a <- createNode webhook_trigger {| x := 0; y := 0 |} ;;
  b <- createNode http_request {| x := 100; y := 0 |} ;;
  c <- createNode http_request {| x := 200; y := 0 |} ;;
  _ <- addConnection 1700000000000 "k3x9q2m1a" a "output" b "input" ;;
  _ <- addConnection 1700000000001 "p0z8w7v6b" b "output" c "input" ;;
  ret tt.

Definition storeABC : Editor := final (scenarioABC catalogue).

(** A connection is being drawn from the output of the second node and the
    pointer is released over the input handle of that same node. *)
Definition connectingFromNode2 : Editor :=
  final (startConnection "node_2" "output" {| x := 300; y := 50 |} storeABC).

Definition releaseOnNode2Input : MouseEvent :=
  {| clientX := 100; clientY := 50; deltaY := 0;
     ev_target := TargetInputHandle "node_2" "input" |}.

(** The second node, at (100, 0), is grabbed at (110, 10) and the pointer
    moves 7 pixels to the right. *)
Definition pressNode2 : MouseEvent :=
  {| clientX := 110; clientY := 10; deltaY := 0; ev_target := TargetOther |}.

Definition moveBy7 : MouseEvent :=
  {| clientX := 117; clientY := 10; deltaY := 0; ev_target := TargetOther |}.

Definition draggingNode2 : Editor :=
  final (onNodeMouseDown pressNode2 "node_2" storeABC).


Definition originRect : Rect := {| rect_left := 0; rect_top := 0 |}.



Definition nodeEntry (id type : string) (position : Position) : NodeData :=
  {| nd_id := id; nd_type := type; nd_name := "Step"; nd_position := position;
     nd_config := None; nd_description := None; nd_continue_on_error := None;
     nd_timeout := None |}.

(** A snapshot with one node, [node_5]. *)
Definition snapshot5 : WorkflowData :=
  {| wd_nodes := Some [ nodeEntry "node_5" "http_request" {| x := 40; y := 60 |} ];
     wd_connections := Some [] |}.

(** A snapshot with one node, whose number is 2^53. *)
Definition snapshotLimit : WorkflowData :=
  {| wd_nodes :=
       Some [ nodeEntry "node_9007199254740992" "http_request" {| x := 40; y := 60 |} ];
     wd_connections := Some [] |}.

(** A snapshot whose second node has a type the registry does not know,
    and whose connections leave out handle names. *)
Definition snapshotUnknown : WorkflowData :=
  {| wd_nodes :=
       Some [ nodeEntry "node_1" "webhook_trigger" {| x := 0; y := 0 |};
              nodeEntry "node_2" "sms_send" {| x := 200; y := 0 |};
              nodeEntry "node_3" "http_request" {| x := 400; y := 0 |} ];
     wd_connections :=
       Some [ {| cd_id := "connection_1"; cd_source := "node_1";
                 cd_sourceHandle := None; cd_target := "node_3";
                 cd_targetHandle := Some "" |} ] |}.

(** An id with a double quote in it. *)
Definition quotedId : string := "c" +:+ quote +:+ "x".

(** A serialized workflow with two nodes and a connection of that id
    between them. *)
Definition snapshotQuoted : WorkflowData :=
  {| wd_nodes :=
       Some [ nodeEntry "node_1" "webhook_trigger" {| x := 0; y := 0 |};
              nodeEntry "node_2" "http_request" {| x := 200; y := 0 |} ];
     wd_connections :=
       Some [ {| cd_id := quotedId; cd_source := "node_1";
                 cd_sourceHandle := Some "output"; cd_target := "node_2";
                 cd_targetHandle := Some "input" |} ] |}.

(** The editor opened on that workflow: [init] fell back to the built-in
    catalogue and loaded the nodes, and the timer stored the connection
    before drawing it threw. *)
Definition quotedStore : Editor :=
  final (fireTimer strictPage (final (init None (constructor (Some snapshotQuoted))))).

(** ** Sessions *)

(** What can happen to an editor: the handlers and methods above, with
    what they read from the outside (the page as it is when they run). *)
Inductive Action : Type :=
  | DoInit (response : option (list NodeType))
  | DoCreateNode (nodeType : NodeType) (position : Position)
  | DoCanvasDrop (rect : Rect) (nodeTypeName : string) (e : MouseEvent)
  | DoCopyNode (nodeId : string)
  | DoDuplicateNode (nodeId : string)
  | DoPasteNode
  | DoDeleteNode (page : Page) (nodeId : string)
  | DoDeleteConnection (page : Page) (connectionId : string)
  | DoAddConnection (now : Z) (rnd : string)
      (sourceNodeId sourceHandle targetNodeId targetHandle : string)
  | DoClearCanvas (confirmed : bool)
  | DoImportWorkflow (definition : WorkflowData) (confirmReplace confirmClear : bool)
  | DoFireTimer (page : Page)
  | DoNodeMouseDown (e : MouseEvent) (nodeId : string)
  | DoNodeClick (nodeId : string)
  | DoNodeContextMenu (nodeId : string)
  | DoConnectionClick (connectionId : string)
  | DoHandleMouseDown (e : MouseEvent) (handlePosition : Position)
  | DoCanvasMouseDown (e : MouseEvent)
  | DoCanvasMouseMove (e : MouseEvent)
  | DoCanvasMouseUp (now : Z) (rnd : string) (e : MouseEvent)
  | DoCanvasWheel (rect : Rect) (e : MouseEvent)
  | DoZoomIn
  | DoZoomOut
  | DoFitToScreen (rect : Size)
  | DoCenterCanvas (rect : Size).

Definition perform (a : Action) : M unit :=
  match a with
  | DoInit response => init response
  | DoCreateNode nodeType position => _ <- createNode nodeType position ;; ret tt
  | DoCanvasDrop rect nodeTypeName e => onCanvasDrop rect nodeTypeName e
  | DoCopyNode nodeId => copyNode nodeId
  | DoDuplicateNode nodeId => duplicateNode nodeId
  | DoPasteNode => pasteNode
  | DoDeleteNode page nodeId => deleteNode page nodeId
  | DoDeleteConnection page connectionId => deleteConnection page connectionId
  | DoAddConnection now rnd a b c d => _ <- addConnection now rnd a b c d ;; ret tt
  | DoClearCanvas confirmed => clearCanvas confirmed
  | DoImportWorkflow definition confirmReplace confirmClear =>
      importWorkflow definition confirmReplace confirmClear
  | DoFireTimer page => fireTimer page
  | DoNodeMouseDown e nodeId => onNodeMouseDown e nodeId
  | DoNodeClick nodeId => onNodeClick nodeId
  | DoNodeContextMenu nodeId => onNodeContextMenu nodeId
  | DoConnectionClick connectionId => onConnectionClick connectionId
  | DoHandleMouseDown e handlePosition => onHandleMouseDown e handlePosition
  | DoCanvasMouseDown e => onCanvasMouseDown e
  | DoCanvasMouseMove e => onCanvasMouseMove e
  | DoCanvasMouseUp now rnd e => onCanvasMouseUp now rnd e
  | DoCanvasWheel rect e => onCanvasWheel rect e
  | DoZoomIn => zoomIn
  | DoZoomOut => zoomOut
  | DoFitToScreen rect => fitToScreen rect
  | DoCenterCanvas rect => centerCanvas rect
  end.

(** The editor after a sequence of actions.  Each action is a handler run
    of its own: an exception ends that handler and the editor stays as the
    handler left it. *)
Definition session (actions : list Action) (s : Editor) : Editor :=
  fold_left (fun s a => final (perform a s)) actions s.

(** The id [createNode], [duplicateNode] and [pasteNode] use next. *)
Definition nextNodeId (s : Editor) : string :=
  "node_" +:+ Js.numberToString (Js.increment (nodeCounter s)).

(** What every editor of a session satisfies: the counter is not below the
    number of any stored node id of the form [node_<number>]; nodes and
    connections are stored under their own ids; a node and a connection
    are never selected together. *)
Record Consistent (s : Editor) : Prop := {
  ids_covered :
    forall id k,
      is_Some (nodes s !! id) -> id = "node_" +:+ Js.numberToString k ->
      k <= nodeCounter s;
  nodes_keyed : forall id n, nodes s !! id = Some n -> node_id n = id;
  connections_keyed : forall id c, connections s !! id = Some c -> conn_id c = id;
  selection_exclusive : selectedNode s = None \/ selectedConnection s = None
}.

(** The counter is a count, and the editor is consistent as long as the
    counter has not reached 2^53, from where on [++] no longer counts. *)
Definition ConsistentBelowLimit (s : Editor) : Prop :=
  0 <= nodeCounter s /\ (nodeCounter s < 2 ^ 53 -> Consistent s).

(** ** Properties *)

(** Runs the monad on the editor at hand. *)
Ltac run :=
  unfold bind, ret, get, modify, lift, when, catch;
  cbn [final forEach x y andb orb negb
       workflowData selectedNode selectedConnection isDragging isPanning
       isConnecting connectionStart lastMousePos nodeCounter clipboard
       canvasOffset zoomLevel gridSize nodeTypes nodes connections isDirty
       timers set_workflowData set_selectedNode set_selectedConnection
       set_isDragging set_isPanning set_isConnecting set_connectionStart
       set_lastMousePos set_nodeCounter set_clipboard set_canvasOffset set_zoomLevel
       set_nodeTypes set_nodes set_connections set_isDirty set_timers].

Lemma forEach_cons {A : Type} (a : A) (l : list A) (f : A -> M unit) (s : Editor) :
  forEach (a :: l) f s =
  match f a s with
  | Normal _ s' => forEach l f s'
  | Throw e s' => Throw e s'
  end.
Proof. reflexivity. Qed.

Lemma final_bind {A B : Type} (m : M A) (k : A -> M B) (s : Editor) :
  final (bind m k s) =
  match m s with
  | Normal a s' => final (k a s')
  | Throw _ s' => s'
  end.
Proof. unfold bind. destruct (m s); reflexivity. Qed.

Lemma final_catch (m : M unit) (s : Editor) : final (catch m s) = final (m s).
Proof. unfold catch. destruct (m s); reflexivity. Qed.

(** A property kept by every round of a loop is kept by the loop, however
    it ends. *)
Lemma forEach_final_ind {A : Type} (P : Editor -> Prop) (f : A -> M unit) l s :
  (forall a s0, P s0 -> P (final (f a s0))) ->
  P s -> P (final (forEach l f s)).
Proof.
  intros Hf. revert s. induction l as [|a l IH]; intros s Hs; [exact Hs|].
  rewrite forEach_cons. specialize (Hf a s Hs).
  destruct (f a s) as [[] s'|e s']; [apply IH|]; exact Hf.
Qed.

(** *** Creating nodes *)

Lemma createNode_spec nt pos s :
  exists node s',
    createNode nt pos s = Normal (nextNodeId s) s'
    /\ nodes s' = <[nextNodeId s := node]> (nodes s)
    /\ nodeCounter s' = Js.increment (nodeCounter s)
    /\ nodeTypes s' = nodeTypes s
    /\ connections s' = connections s
    /\ getNodeInputs (Some nt) = Ok (inputs node)
    /\ getNodeOutputs (Some nt) = Ok (outputs node).
Proof.
  unfold createNode, getNodeInputs, getNodeOutputs, selectNode, deselectAll,
    showNodeProperties, markDirty, nextNodeId.
  run.
  destruct (decide (category nt = "trigger")), (decide (name nt = "condition")); run.
  all: try destruct (decide (name nt = "switch")); run.
  all: rewrite lookup_insert_eq; run.
  all: eexists _, _; repeat split; reflexivity.
Qed.



(** *** Loading nodes *)

Lemma loadNode_unregistered nd s :
  nodeTypes s !! nd_type nd = None ->
  loadNode nd s = Throw undefinedCategory s.
Proof. intros H. unfold loadNode, getNodeInputs. run. rewrite H. reflexivity. Qed.

Lemma loadNode_registered nd s :
  registered s nd ->
  exists node s',
    loadNode nd s = Normal tt s'
    /\ nodes s' = <[nd_id nd := node]> (nodes s)
    /\ nodeCounter s' =
       (if Js.gt (Js.parseInt (idSuffix (nd_id nd))) (nodeCounter s)
        then default 0 (Js.parseInt (idSuffix (nd_id nd)))
        else nodeCounter s)
    /\ nodeTypes s' = nodeTypes s
    /\ connections s' = connections s
    /\ workflowData s' = workflowData s
    /\ timers s' = timers s.
Proof.
  intros [nt H]. unfold loadNode, getNodeInputs, getNodeOutputs. run. rewrite H.
  repeat case_decide; run.
  all: destruct (Js.gt _ _); eexists _, _; repeat split; reflexivity.
Qed.


Lemma restoredNodes_nodeTypes s s' l :
  nodeTypes s' = nodeTypes s -> restoredNodes s' l = restoredNodes s l.
Proof.
  intros Hty. induction l as [|nd l IH]; [reflexivity|].
  cbn. rewrite Hty, IH. reflexivity.
Qed.





(** *** Loading connections *)



(** Looking up or drawing never changes the editor. *)
Lemma final_querySelector page select value s :
  final (querySelector page select value s) = s.
Proof. unfold querySelector. destruct (accepted _ _ _); reflexivity. Qed.

Lemma quotable_accepted page select value :
  quotable value = true -> accepted page select value = true.
Proof. unfold accepted. intros ->. reflexivity. Qed.

Lemma querySelector_accepted page select value s :
  accepted page select value = true -> querySelector page select value s = Normal tt s.
Proof. intros H. unfold querySelector. rewrite H. reflexivity. Qed.

Lemma querySelector_rejected page select value s :
  accepted page select value = false ->
  querySelector page select value s = Throw SyntaxError s.
Proof. intros H. unfold querySelector. rewrite H. reflexivity. Qed.

(** Drawing a connection either completes or throws a [SyntaxError], and
    leaves the editor as it is. *)
Lemma renderConnection_cases page c s :
  renderConnection page c s = Normal tt s
  \/ renderConnection page c s = Throw SyntaxError s.
Proof.
  unfold renderConnection, getHandlePosition, querySelector. run.
  destruct (nodes s !! source c); [|by left].
  destruct (nodes s !! target c); [|by left].
  repeat (match goal with
          | |- context [if ?b then _ else _] => destruct b
          end; run); auto.
Qed.

Lemma final_renderConnection page c s : final (renderConnection page c s) = s.
Proof. destruct (renderConnection_cases page c s) as [-> | ->]; reflexivity. Qed.

(** A connection is drawn without an exception when one of its nodes is
    not in the store, and when its names are quotable. *)
Lemma renderConnection_missing page c s :
  nodes s !! source c = None \/ nodes s !! target c = None ->
  renderConnection page c s = Normal tt s.
Proof.
  intros H. unfold renderConnection. run.
  destruct (nodes s !! source c), (nodes s !! target c), H; congruence.
Qed.

Lemma renderConnection_drawable page c s :
  drawable c = true -> renderConnection page c s = Normal tt s.
Proof.
  unfold drawable. intros H.
  apply andb_true_iff in H as [H Ht']. apply andb_true_iff in H as [H Ht].
  apply andb_true_iff in H as [H Hs']. apply andb_true_iff in H as [Hid Hs].
  unfold renderConnection, getHandlePosition, querySelector, accepted. run.
  rewrite Hid, Hs, Hs', Ht, Ht'. cbn [orb].
  destruct (nodes s !! source c); [|reflexivity].
  destruct (nodes s !! target c); [|reflexivity]. run.
  destruct (nodeElement page (source c)), (nodeElement page (target c)); reflexivity.
Qed.

Lemma final_renderConnections page s : final (renderConnections page s) = s.
Proof.
  unfold renderConnections. run.
  apply (forEach_final_ind (fun s' => s' = s)); [|reflexivity].
  intros c s0 ->. apply final_renderConnection.
Qed.

Lemma renderConnections_cases page s :
  renderConnections page s = Normal tt s
  \/ renderConnections page s = Throw SyntaxError s.
Proof.
  unfold renderConnections. run.
  induction ((map_to_list (connections s)).*2) as [|c l IH]; [by left|].
  rewrite forEach_cons.
  destruct (renderConnection_cases page c s) as [-> | ->]; [exact IH|by right].
Qed.

Lemma renderConnections_drawable page s :
  map_Forall (fun _ c => drawable c = true) (connections s) ->
  renderConnections page s = Normal tt s.
Proof.
  intros Hs. unfold renderConnections. run.
  assert (Forall (fun c => drawable c = true) (map_to_list (connections s)).*2) as Hl.
  { apply Forall_forall. intros c ([k c'] & -> & Hin)%list_elem_of_fmap.
    apply elem_of_map_to_list in Hin. exact (Hs k c' Hin). }
  induction Hl as [|c l Hc Hl IH]; [reflexivity|].
  rewrite forEach_cons, renderConnection_drawable by exact Hc. exact IH.
Qed.

(** The callback stores the connection of the entry, with the handle
    names defaulted, and draws it afterwards: the connection is in the
    store whether drawing it throws or not. *)
Lemma loadConnection_spec page cd s :
  let s1 := set_connections (<[cd_id cd := connectionOf cd]> (connections s)) s in
  final (loadConnection page cd s) = s1
  /\ (loadConnection page cd s = Normal tt s1
      \/ loadConnection page cd s = Throw SyntaxError s1)
  /\ (renderConnection page (connectionOf cd) s1 = Normal tt s1 ->
      loadConnection page cd s = Normal tt s1).
Proof.
  intros s1. unfold loadConnection. run.
  change (conn_id (connectionOf cd)) with (cd_id cd). fold s1.
  destruct (renderConnection_cases page (connectionOf cd) s1) as [-> | ->].
  - split; [reflexivity|]. split; [by left|]. trivial.
  - split; [reflexivity|]. split; [by right|discriminate].
Qed.










(** The store with nodes A, B, C satisfies the assumption on the
    connections already stored, and the entry without handle names is
    loaded between the default ports. *)
Lemma loadConnections_scenario :
  map_Forall (fun _ c => handlesNamed c) (connections storeABC)
  /\ (fun c => (sourceHandle c, targetHandle c))
       <$> (connections
              (final (loadConnections strictPage
                        (set_workflowData (Some snapshotUnknown) storeABC)))
            !! "connection_1")
     = Some ("output", "input").
Proof.
  split.
  - apply (bool_decide_unpack _). vm_compute. exact I.
  - vm_compute. reflexivity.
Qed.

(** *** Deleting *)

Lemma deleteConnection_rejected page id s :
  accepted page connectionSelector id = false ->
  deleteConnection page id s
  = Throw SyntaxError (set_connections (delete id (connections s)) s).
Proof.
  intros H. unfold deleteConnection, querySelector. run. rewrite H. reflexivity.
Qed.

(** However it ends, [deleteConnection] has removed the id and has left
    the nodes and the counter alone. *)
Lemma deleteConnection_final page id s :
  let s' := final (deleteConnection page id s) in
  connections s' = delete id (connections s)
  /\ nodes s' = nodes s
  /\ nodeCounter s' = nodeCounter s
  /\ nodeTypes s' = nodeTypes s
  /\ (selectedNode s' = selectedNode s /\ selectedConnection s' = selectedConnection s
      \/ selectedNode s' = None /\ selectedConnection s' = None)
  /\ (deleteConnection page id s = Normal tt s'
      \/ deleteConnection page id s = Throw SyntaxError s').
Proof.
  unfold deleteConnection, querySelector, deselectAll, markDirty. run.
  destruct (accepted page connectionSelector id); run.
  2: { repeat split; auto. }
  case_bool_decide; run.
  2: { repeat split; auto. }
  match goal with
  | |- context [renderConnections page ?s0] =>
      destruct (renderConnections_cases page s0) as [-> | ->]
  end; run; repeat split; auto.
Qed.

Lemma deleteConnection_spec page id s :
  accepted page connectionSelector id = true ->
  (selectedConnection s = Some id ->
   map_Forall (fun _ c => drawable c = true) (connections s)) ->
  exists s',
    deleteConnection page id s = Normal tt s'
    /\ connections s' = delete id (connections s)
    /\ nodes s' = nodes s
    /\ nodeCounter s' = nodeCounter s
    /\ nodeTypes s' = nodeTypes s
    /\ selectedConnection s' <> Some id
    /\ (selectedConnection s' = selectedConnection s \/ selectedConnection s' = None).
Proof.
  intros Hid Hdraw. unfold deleteConnection, querySelector, deselectAll, markDirty. run.
  rewrite Hid. run. case_bool_decide as Hsel; run.
  - rewrite renderConnections_drawable.
    + run. eexists. repeat split; auto; discriminate.
    + cbn. apply map_Forall_delete. by apply Hdraw.
  - eexists. repeat split; auto.
Qed.

Lemma forEach_deleteConnection page ids : forall s,
  Forall (fun id => accepted page connectionSelector id = true) ids ->
  map_Forall (fun _ c => drawable c = true) (connections s) ->
  exists s',
    forEach ids (deleteConnection page) s = Normal tt s'
    /\ nodes s' = nodes s
    /\ nodeCounter s' = nodeCounter s
    /\ nodeTypes s' = nodeTypes s
    /\ forall id, connections s' !! id =
                  if decide (id ∈ ids) then None else connections s !! id.
Proof.
  induction ids as [|k ids IH]; intros s Hids Hdraw.
  { exists s. do 4 (split; [reflexivity|]).
    intros id. case_decide as H; [inversion H|done]. }
  apply Forall_cons in Hids as [Hk' Hids].
  destruct (deleteConnection_spec page k s Hk' (fun _ => Hdraw))
    as (s1 & Hrun & Hc & Hn & Hk & Ht & _).
  destruct (IH s1 Hids) as (s2 & Hrun2 & Hn2 & Hk2 & Ht2 & Hc2).
  { rewrite Hc. by apply map_Forall_delete. }
  exists s2. rewrite forEach_cons, Hrun.
  split; [exact Hrun2|]. do 3 (split; [congruence|]).
  intros id. rewrite Hc2, Hc.
  destruct (decide (id ∈ ids)) as [Hin|Hin];
    destruct (decide (id ∈ k :: ids)) as [Hin'|Hin']; try done.
  - exfalso. apply Hin'. by right.
  - apply elem_of_cons in Hin' as [->|?]; [|done]. apply lookup_delete_eq.
  - apply lookup_delete_ne. intros ->. apply Hin'. by left.
Qed.

Lemma elem_of_connectionsToRemove id nodeId s :
  id ∈ connectionsToRemove nodeId s <->
  exists c, connections s !! id = Some c /\ touches nodeId c.
Proof.
  unfold connectionsToRemove, touches. rewrite list_elem_of_fmap. split.
  - intros ([k c] & -> & Hin). cbn.
    apply list_elem_of_In, filter_In in Hin as [Hin Hb].
    apply list_elem_of_In, elem_of_map_to_list in Hin. exists c. split; [done|].
    cbn in Hb. apply orb_true_iff in Hb as [H|H]; apply bool_decide_eq_true in H; auto.
  - intros (c & Hc & Ht). exists (id, c). split; [done|].
    apply list_elem_of_In, filter_In. split.
    + by apply list_elem_of_In, elem_of_map_to_list.
    + cbn. apply orb_true_iff. destruct Ht; [left|right]; by apply bool_decide_eq_true.
Qed.

(** The cascade as the claim has it, for a store whose names the browser
    takes: when the selectors of the node and of its connections are
    accepted and the connections can be drawn, [deleteNode(n)] completes,
    removes [n] and removes exactly the connections at [n]. *)
Lemma deleteNode_spec page nodeId s :
  accepted page nodeSelector nodeId = true ->
  (forall id c, connections s !! id = Some c -> touches nodeId c ->
                accepted page connectionSelector id = true) ->
  map_Forall (fun _ c => drawable c = true) (connections s) ->
  exists s',
    deleteNode page nodeId s = Normal tt s'
    /\ nodes s' = delete nodeId (nodes s)
    /\ nodeCounter s' = nodeCounter s
    /\ connections s' = filter (fun entry => ¬ touches nodeId entry.2) (connections s).
Proof.
  intros Hnode Hids Hdraw.
  destruct (forEach_deleteConnection page (connectionsToRemove nodeId s) s)
    as (s1 & Hrun & Hn & Hk & _ & Hc); [|exact Hdraw|].
  { apply Forall_forall. intros id (c & Hc & Ht)%elem_of_connectionsToRemove. eauto. }
  assert (connections s1 = filter (fun entry => ¬ touches nodeId entry.2) (connections s))
    as Hfilter.
  { apply map_eq. intros id. rewrite Hc.
    destruct (connections s !! id) as [c|] eqn:Hid.
    - destruct (decide (touches nodeId c)) as [Ht|Ht].
      + rewrite decide_True by (apply elem_of_connectionsToRemove; eauto).
        symmetry. apply map_lookup_filter_None. right. intros c' Hc'. cbn.
        rewrite Hid in Hc'. injection Hc' as <-. tauto.
      + rewrite decide_False.
        * symmetry. apply map_lookup_filter_Some. auto.
        * intros (c' & Hc' & Ht')%elem_of_connectionsToRemove.
          rewrite Hid in Hc'. injection Hc' as <-. tauto.
    - case_decide.
      + symmetry. apply map_lookup_filter_None. left. done.
      + symmetry. apply map_lookup_filter_None. left. done. }
  unfold deleteNode, querySelector, deselectAll, markDirty. run. rewrite Hrun. run.
  rewrite Hnode. run. rewrite renderConnections_drawable.
  2: { cbn. rewrite Hfilter. intros id c [Hid _]%map_lookup_filter_Some.
       exact (Hdraw id c Hid). }
  run. eexists. split; [reflexivity|]. cbn. rewrite Hn, Hk. repeat split. exact Hfilter.
Qed.

(** The scenario of the claim: with nodes A, B, C ([node_1], [node_2],
    [node_3]) and connections A to B and B to C, deleting B leaves only A
    and C and no connection. *)
Lemma deleteNode_scenarioABC :
  dom (nodes storeABC) = {[ "node_1"; "node_2"; "node_3" ]}
  /\ (fun c => (source c, target c)) <$> connections storeABC
     = {[ "connection_1700000000000_k3x9q2m1a" := ("node_1", "node_2");
          "connection_1700000000001_p0z8w7v6b" := ("node_2", "node_3") ]}
  /\ exists s',
      deleteNode strictPage "node_2" storeABC = Normal tt s'
      /\ dom (nodes s') = {[ "node_1"; "node_3" ]}
      /\ connections s' = ∅.
Proof.
  split; [vm_compute; reflexivity|]. split; [vm_compute; reflexivity|].
  eexists. split; [vm_compute; reflexivity|]. split; vm_compute; reflexivity.
Qed.

(** The loop over the connections of a node is left by the exception of
    the first [deleteConnection] that throws; the nodes are as before. *)
Lemma forEach_deleteConnection_throws page ids : forall s,
  Exists (fun id => accepted page connectionSelector id = false) ids ->
  exists s',
    forEach ids (deleteConnection page) s = Throw SyntaxError s'
    /\ nodes s' = nodes s.
Proof.
  induction ids as [|k ids IH]; intros s Hex; [inversion Hex|].
  rewrite forEach_cons.
  destruct (deleteConnection_final page k s) as (_ & Hn & _ & _ & _ & Hrun).
  set (s1 := final (deleteConnection page k s)) in *. clearbody s1.
  destruct Hrun as [Hrun|Hrun]; rewrite Hrun.
  - apply Exists_cons in Hex as [Hk|Hex].
    + rewrite (deleteConnection_rejected page k s Hk) in Hrun. discriminate Hrun.
    + destruct (IH s1 Hex) as (s' & Hloop & Hn'). exists s'. split; [exact Hloop|].
      congruence.
  - exists s1. split; [reflexivity|exact Hn].
Qed.

(** C1, where the code fails the claim.  [deleteConnection] looks the
    path of the connection up with a selector that holds the id, after it
    has removed the connection from the map.  When the browser rejects
    that selector for a connection at the node, the exception leaves
    [deleteNode] inside its loop: the node is never removed, and the
    connections of the node that the loop had not reached stay as well. *)
Theorem deleteNode_cascade_interrupted page nodeId s connectionId connection :
  connections s !! connectionId = Some connection ->
  touches nodeId connection ->
  accepted page connectionSelector connectionId = false ->
  exists s',
    deleteNode page nodeId s = Throw SyntaxError s'
    /\ nodes s' = nodes s.
Proof.
  intros Hc Ht Hrejected.
  destruct (forEach_deleteConnection_throws page (connectionsToRemove nodeId s) s)
    as (s' & Hrun & Hn).
  { apply Exists_exists. exists connectionId. split; [|exact Hrejected].
    apply elem_of_connectionsToRemove. eauto. }
  exists s'. split; [|exact Hn].
  unfold deleteNode. run. rewrite Hrun. reflexivity.
Qed.

Lemma deleteNode_cascade_interrupted_witness :
  dom (nodes quotedStore) = {[ "node_1"; "node_2" ]}
  /\ (fun c => (source c, target c)) <$> connections quotedStore
     = {[ quotedId := ("node_1", "node_2") ]}
  /\ accepted strictPage connectionSelector quotedId = false
  /\ exists s',
      deleteNode strictPage "node_2" quotedStore = Throw SyntaxError s'
      /\ dom (nodes s') = {[ "node_1"; "node_2" ]}.
Proof.
  split; [vm_compute; reflexivity|]. split; [vm_compute; reflexivity|].
  split; [vm_compute; reflexivity|].
  assert (exists c, connections quotedStore !! quotedId = Some c
                    /\ touches "node_2" c) as (c & Hc & Ht).
  { eexists. split; [vm_compute; reflexivity|]. right. reflexivity. }
  destruct (deleteNode_cascade_interrupted strictPage "node_2" quotedStore quotedId c
              Hc Ht ltac:(vm_compute; reflexivity)) as (s' & Hrun & Hn).
  exists s'. split; [exact Hrun|]. rewrite Hn. vm_compute. reflexivity.
Defined.

(** C4, against the claim.  Deleting a connection id that is not in the
    store, here in a fresh editor, completes normally: nothing is thrown. *)
Lemma deleteConnection_missing_completes :
  connections (constructor None) !! "connection_1700000000000_k3x9q2m1a" = None
  /\ deleteConnection strictPage "connection_1700000000000_k3x9q2m1a" (constructor None)
     = Normal tt (set_isDirty true (constructor None)).
Proof. split; vm_compute; reflexivity. Qed.

(** C4, as the code has it.  There is no [NotFoundError]:
    [deleteConnection(connectionId)] does not look whether the id is in
    the store.  When the browser accepts the selector made of the id, as
    it does for every quotable id, and, in case the connection is the
    selected one, the connections of the store can be drawn again, the
    call completes normally, removes the id from the connections and
    leaves the nodes alone; when the id is not in the store the
    connections are unchanged.  Called twice in a row, the second call
    completes normally too and changes neither connections nor nodes. *)
Theorem deleteConnection_missing_is_noop page s connectionId :
  accepted page connectionSelector connectionId = true ->
  (selectedConnection s = Some connectionId ->
   map_Forall (fun _ c => drawable c = true) (connections s)) ->
  exists s1 s2,
    deleteConnection page connectionId s = Normal tt s1
    /\ connections s1 = delete connectionId (connections s)
    /\ nodes s1 = nodes s
    /\ (connections s !! connectionId = None -> connections s1 = connections s)
    /\ deleteConnection page connectionId s1 = Normal tt s2
    /\ connections s2 = connections s1
    /\ nodes s2 = nodes s1.
Proof.
  intros Hid Hdraw.
  destruct (deleteConnection_spec page connectionId s Hid Hdraw)
    as (s1 & Hrun1 & Hc1 & Hn1 & _ & _ & Hsel & _).
  destruct (deleteConnection_spec page connectionId s1 Hid)
    as (s2 & Hrun2 & Hc2 & Hn2 & _); [congruence|].
  exists s1, s2. repeat split; try assumption.
  - intros Hnone. rewrite Hc1. by apply delete_id.
  - rewrite Hc2, Hc1. apply delete_id, lookup_delete_eq.
Qed.

Lemma deleteConnection_missing_is_noop_witness :
  let connectionId := "connection_1700000000000_k3x9q2m1a" in
  accepted strictPage connectionSelector connectionId = true
  /\ exists s1 s2,
       deleteConnection strictPage connectionId storeABC = Normal tt s1
       /\ connections s1 = delete connectionId (connections storeABC)
       /\ nodes s1 = nodes storeABC
       /\ deleteConnection strictPage connectionId s1 = Normal tt s2
       /\ connections s2 = connections s1
       /\ nodes s2 = nodes s1.
Proof.
  intros connectionId.
  assert (accepted strictPage connectionSelector connectionId = true) as Hid
    by (vm_compute; reflexivity).
  split; [exact Hid|].
  destruct (deleteConnection_missing_is_noop strictPage storeABC connectionId Hid)
    as (s1 & s2 & H1 & H2 & H3 & _ & H4 & H5 & H6).
  { intros Hsel. vm_compute in Hsel. discriminate Hsel. }
  exists s1, s2. auto 10.
Defined.

(** *** Decimal strings *)

(** Reading decimal digits after an accumulator that is already positive. *)
Lemma parseDigits_uint_acc (d : Decimal.uint) (acc : positive) :
  Js.parseDigits 10 (NilEmpty.string_of_uint d) (Some (Z.pos acc))
  = Some (Z.pos (Pos.of_uint_acc d acc)).
Proof.
  revert acc. induction d; intros acc; cbn [NilEmpty.string_of_uint Pos.of_uint_acc];
    [reflexivity|..];
    rewrite <- IHd; cbn [Js.parseDigits]; 
    match goal with |- context [Js.digitValue 10 ?c] =>
      let v := eval vm_compute in (Js.digitValue 10 c) in
      change (Js.digitValue 10 c) with v end;
    cbv iota; do 2 f_equal; lia.
Qed.

(** Reading decimal digits while only zeros have been read. *)
Lemma parseDigits_uint_zero (d : Decimal.uint) :
  Js.parseDigits 10 (NilEmpty.string_of_uint d) (Some 0)
  = Some (Z.of_N (Pos.of_uint d)).
Proof.
  induction d; cbn [NilEmpty.string_of_uint Pos.of_uint]; [reflexivity|exact IHd|..];
    apply (parseDigits_uint_acc d).
Qed.

Lemma parseDigits_uint (d : Decimal.uint) :
  d <> Decimal.Nil ->
  Js.parseDigits 10 (NilEmpty.string_of_uint d) None
  = Some (Z.of_N (Pos.of_uint d)).
Proof.
  destruct d; intros Hd; [congruence|apply (parseDigits_uint_zero d)|..];
    apply (parseDigits_uint_acc d).
Qed.

(** A decimal numeral has no hexadecimal prefix. *)
Lemma stripHexPrefix_uint (d : Decimal.uint) :
  Js.stripHexPrefix (NilEmpty.string_of_uint d) = (10, NilEmpty.string_of_uint d).
Proof. destruct d as [|d| | | | | | | | |]; try reflexivity. destruct d; reflexivity. Qed.

Lemma stripSign_uint (d : Decimal.uint) :
  Js.stripSign (NilEmpty.string_of_uint d) = (1, NilEmpty.string_of_uint d).
Proof. destruct d; reflexivity. Qed.

Lemma trimStart_uint (d : Decimal.uint) :
  Js.trimStart (NilEmpty.string_of_uint d) = NilEmpty.string_of_uint d.
Proof. destruct d; reflexivity. Qed.

Lemma parseIntString_pos (p : positive) :
  Js.parseIntString (NilEmpty.string_of_uint (Pos.to_uint p)) = Some (Z.pos p).
Proof.
  unfold Js.parseIntString.
  rewrite trimStart_uint, stripSign_uint, stripHexPrefix_uint.
  rewrite parseDigits_uint by apply Unsigned.to_uint_nonnil.
  rewrite Unsigned.of_to. cbn. reflexivity.
Qed.

Lemma parseIntString_neg (p : positive) :
  Js.parseIntString (String "-" (NilEmpty.string_of_uint (Pos.to_uint p)))
  = Some (Z.neg p).
Proof.
  unfold Js.parseIntString.
  change (Js.trimStart (String "-" ?s)) with (String "-" s).
  cbn [Js.stripSign]. rewrite stripHexPrefix_uint.
  rewrite parseDigits_uint by apply Unsigned.to_uint_nonnil.
  rewrite Unsigned.of_to. reflexivity.
Qed.

Lemma string_of_uint_nonnil (d : Decimal.uint) :
  d <> Decimal.Nil -> NilZero.string_of_uint d = NilEmpty.string_of_uint d.
Proof. destruct d; intros H; [congruence|reflexivity..]. Qed.

(** The integer that [parseInt] reads in what the template literal
    printed is the number printed. *)
Lemma parseIntString_numberToString (k : Z) :
  Js.parseIntString (Js.numberToString k) = Some k.
Proof.
  unfold Js.numberToString.
  destruct k as [|p|p]; cbn [Z.to_int NilZero.string_of_int].
  - reflexivity.
  - rewrite string_of_uint_nonnil by apply Unsigned.to_uint_nonnil.
    apply parseIntString_pos.
  - rewrite string_of_uint_nonnil by apply Unsigned.to_uint_nonnil.
    apply parseIntString_neg.
Qed.

(** [parseInt] returns the double nearest to it. *)
Lemma parseInt_numberToString (k : Z) :
  Js.parseInt (Some (Js.numberToString k)) = Some (Js.toDouble k).
Proof.
  change (Js.toDouble <$> Js.parseIntString (Js.numberToString k) = Some (Js.toDouble k)).
  rewrite parseIntString_numberToString. reflexivity.
Qed.

(** Integers of magnitude up to 2^53 are doubles. *)
Lemma toDouble_small (z : Z) : Z.abs z <= 2 ^ 53 -> Js.toDouble z = z.
Proof.
  intros Hz. unfold Js.toDouble. cbv zeta.
  destruct (Z.leb_spec (Z.log2 (Z.abs z) - 52) 0) as [_|Hsh]; [reflexivity|].
  assert (Z.abs z = 2 ^ 53) as Heq.
  { assert (2 ^ 53 <= Z.abs z); [|lia].
    destruct (Z.le_gt_cases (2 ^ 53) (Z.abs z)) as [?|Hlt]; [assumption|].
    assert (Z.log2 (Z.abs z) < 53); [|lia].
    destruct (Z.eq_dec (Z.abs z) 0) as [->|Hnz]; [cbn; lia|].
    apply Z.log2_lt_pow2; lia. }
  rewrite Heq. destruct z as [|p|p]; cbn in Heq; try discriminate.
  - injection Heq as ->. reflexivity.
  - injection Heq as ->. reflexivity.
Qed.

Lemma increment_small (z : Z) :
  0 <= z < 2 ^ 53 -> Js.increment z = z + 1.
Proof. intros Hz. unfold Js.increment. apply toDouble_small. lia. Qed.

(** Strings without the separator are not split. *)
Lemma split_lacks sep s : lacks sep s -> Js.split sep s = [s].
Proof.
  induction s as [|c s IH]; [reflexivity|]. intros [Hc Hs]. cbn.
  destruct (Ascii.eqb_spec c sep) as [->|_]; [congruence|].
  rewrite IH by assumption. reflexivity.
Qed.

Lemma lacks_underscore_uint (d : Decimal.uint) :
  lacks "_" (NilEmpty.string_of_uint d).
Proof. induction d; cbn; [trivial|..]; (split; [discriminate|assumption]). Qed.

Lemma lacks_underscore_numberToString (k : Z) : lacks "_" (Js.numberToString k).
Proof.
  unfold Js.numberToString.
  destruct k as [|p|p]; cbn [Z.to_int NilZero.string_of_int].
  - cbn. split; [discriminate|trivial].
  - rewrite string_of_uint_nonnil by apply Unsigned.to_uint_nonnil.
    apply lacks_underscore_uint.
  - rewrite string_of_uint_nonnil by apply Unsigned.to_uint_nonnil.
    split; [discriminate|apply lacks_underscore_uint].
Qed.

Lemma split_node (t : string) :
  Js.split "_" ("node_" +:+ t) = "node" :: Js.split "_" t.
Proof. reflexivity. Qed.

Lemma idSuffix_node (k : Z) :
  idSuffix ("node_" +:+ Js.numberToString k) = Some (Js.numberToString k).
Proof.
  unfold idSuffix. rewrite split_node.
  rewrite split_lacks by apply lacks_underscore_numberToString. reflexivity.
Qed.

(** The number [loadWorkflow] reads off an id that [createNode] made. *)
Lemma parseInt_idSuffix_node (k : Z) :
  Js.parseInt (idSuffix ("node_" +:+ Js.numberToString k)) = Some (Js.toDouble k).
Proof. rewrite idSuffix_node. apply parseInt_numberToString. Qed.

Lemma quotable_app (a b : string) : quotable (a +:+ b) = quotable a && quotable b.
Proof.
  induction a as [|ch a IH]; [reflexivity|].
  change (quotableChar ch && quotable (a +:+ b) = quotableChar ch && quotable a && quotable b).
  rewrite IH. apply andb_assoc.
Qed.

Lemma quotable_uint (d : Decimal.uint) : quotable (NilEmpty.string_of_uint d) = true.
Proof. induction d; cbn [NilEmpty.string_of_uint quotable]; try rewrite IHd; reflexivity. Qed.

(** The digits of a number are quotable. *)
Lemma quotable_numberToString (k : Z) : quotable (Js.numberToString k) = true.
Proof.
  unfold Js.numberToString.
  destruct k as [|p|p]; cbn [Z.to_int NilZero.string_of_int].
  - reflexivity.
  - rewrite string_of_uint_nonnil by apply Unsigned.to_uint_nonnil.
    apply quotable_uint.
  - rewrite string_of_uint_nonnil by apply Unsigned.to_uint_nonnil.
    cbn [quotable]. rewrite quotable_uint. reflexivity.
Qed.

Lemma quotable_connectionIdOf clock rnd :
  quotable rnd = true -> quotable (connectionIdOf clock rnd) = true.
Proof.
  intros H. unfold connectionIdOf.
  rewrite !quotable_app, quotable_numberToString, H. reflexivity.
Qed.


(** *** Connections *)

Lemma addConnection_spec clock rnd a b c d s :
  exists s',
    addConnection clock rnd a b c d s = Normal (connectionIdOf clock rnd) s'
    /\ connections s' =
       <[connectionIdOf clock rnd :=
           {| conn_id := connectionIdOf clock rnd; source := a; sourceHandle := b;
              target := c; targetHandle := d |}]> (connections s)
    /\ nodes s' = nodes s
    /\ nodeCounter s' = nodeCounter s.
Proof.
  unfold addConnection, markDirty. run. eexists. repeat split; reflexivity.
Qed.

(** C3, against the claim.  In a fresh editor, which has no node, a
    connection between two unknown node ids and with port names no node
    has is stored all the same. *)
Lemma addConnection_unknown_nodes_accepted :
  nodes (constructor None) !! "node_7" = None
  /\ nodes (constructor None) !! "node_8" = None
  /\ exists s',
      addConnection 1700000000000 "k3x9q2m1a" "node_7" "nowhere" "node_8" "nothing"
        (constructor None)
      = Normal "connection_1700000000000_k3x9q2m1a" s'
      /\ connections s' !! "connection_1700000000000_k3x9q2m1a"
         = Some {| conn_id := "connection_1700000000000_k3x9q2m1a";
                   source := "node_7"; sourceHandle := "nowhere";
                   target := "node_8"; targetHandle := "nothing" |}
      /\ connections s' <> connections (constructor None).
Proof.
  split; [reflexivity|]. split; [reflexivity|].
  eexists. split; [vm_compute; reflexivity|]. split; [vm_compute; reflexivity|].
  intros H. apply (f_equal (fun m => m !! "connection_1700000000000_k3x9q2m1a")) in H.
  vm_compute in H. discriminate H.
Qed.

(** C3, as the code has it.  [addConnection] checks nothing: whatever the
    node ids and port names are, it stores the connection with these end
    points under the id made of the clock and the random suffix and leaves
    the nodes alone.  It then draws the connection, and completes
    normally, returning the id, when drawing does: when one of the two
    nodes is not in the store, as nothing is drawn then, and when the node
    ids, the port names and the random suffix are quotable, as every
    selector that drawing builds is well-formed then, on whatever page. *)
Theorem addConnection_unconditional page clock rnd
    sourceNodeId sourcePort targetNodeId targetPort s :
  let connection :=
    {| conn_id := connectionIdOf clock rnd;
       source := sourceNodeId; sourceHandle := sourcePort;
       target := targetNodeId; targetHandle := targetPort |} in
  nodes s !! sourceNodeId = None \/ nodes s !! targetNodeId = None
  \/ quotable sourceNodeId && quotable sourcePort
     && quotable targetNodeId && quotable targetPort && quotable rnd = true ->
  exists s',
    addConnection clock rnd sourceNodeId sourcePort targetNodeId targetPort s
    = Normal (connectionIdOf clock rnd) s'
    /\ connections s' = <[connectionIdOf clock rnd := connection]> (connections s)
    /\ nodes s' = nodes s
    /\ renderConnection page connection s' = Normal tt s'.
Proof.
  intros connection Hdraw.
  destruct (addConnection_spec clock rnd sourceNodeId sourcePort targetNodeId targetPort s)
    as (s' & H1 & H2 & H3 & _).
  exists s'. split; [exact H1|]. split; [exact H2|]. split; [exact H3|].
  destruct Hdraw as [Hmiss|[Hmiss|Hq]].
  - apply renderConnection_missing. left. rewrite H3. exact Hmiss.
  - apply renderConnection_missing. right. rewrite H3. exact Hmiss.
  - apply renderConnection_drawable. unfold drawable, connection.
    cbn [conn_id source sourceHandle target targetHandle].
    apply andb_true_iff in Hq as [Hq Hrnd]. apply andb_true_iff in Hq as [Hq Hd].
    apply andb_true_iff in Hq as [Hq Hc]. apply andb_true_iff in Hq as [Ha Hb].
    rewrite (quotable_connectionIdOf clock rnd Hrnd), Ha, Hb, Hc, Hd. reflexivity.
Qed.

Lemma addConnection_unconditional_witness :
  let connection :=
    {| conn_id := connectionIdOf 1700000000000 "k3x9q2m1a";
       source := "node_7"; sourceHandle := "nowhere";
       target := "node_2"; targetHandle := "nothing" |} in
  exists s',
    addConnection 1700000000000 "k3x9q2m1a" "node_7" "nowhere" "node_2" "nothing" storeABC
    = Normal (connectionIdOf 1700000000000 "k3x9q2m1a") s'
    /\ connections s' = <[connectionIdOf 1700000000000 "k3x9q2m1a" := connection]>
                          (connections storeABC)
    /\ nodes s' = nodes storeABC
    /\ renderConnection strictPage connection s' = Normal tt s'.
Proof.
  apply (addConnection_unconditional strictPage 1700000000000 "k3x9q2m1a"
           "node_7" "nowhere" "node_2" "nothing" storeABC).
  right. right. vm_compute. reflexivity.
Defined.

(** C2, against the claim.  With nodes A, B, C in the store, the store's
    [addConnection] called with B as source and as target stores the
    self-loop. *)
Lemma addConnection_self_loop_accepted :
  is_Some (nodes storeABC !! "node_2")
  /\ exists s',
      addConnection 1700000000002 "s1e2l3f4c" "node_2" "output" "node_2" "input" storeABC
      = Normal "connection_1700000000002_s1e2l3f4c" s'
      /\ connections s' !! "connection_1700000000002_s1e2l3f4c"
         = Some {| conn_id := "connection_1700000000002_s1e2l3f4c";
                   source := "node_2"; sourceHandle := "output";
                   target := "node_2"; targetHandle := "input" |}
      /\ connections storeABC !! "connection_1700000000002_s1e2l3f4c" = None.
Proof.
  split; [vm_compute; eauto|].
  eexists. split; [vm_compute; reflexivity|]. split; vm_compute; reflexivity.
Qed.

(** C2, as the code has it.  The self-loop is refused by the gesture, not
    by the store: when a connection drawn from node [n] is released over
    an input handle of the same node [n], [finishConnection] completes
    normally without calling [addConnection]; connections and nodes are
    unchanged and the gesture is over. *)
Theorem finishConnection_rejects_self_loop clock rnd e s start n q :
  connectionStart s = Some start ->
  cs_nodeId start = n ->
  ev_target e = TargetInputHandle n q ->
  exists s',
    finishConnection clock rnd e s = Normal tt s'
    /\ connections s' = connections s
    /\ nodes s' = nodes s
    /\ isConnecting s' = false
    /\ connectionStart s' = None.
Proof.
  intros Hstart Hn Ht. unfold finishConnection. run. rewrite Ht. run. rewrite Hstart.
  rewrite decide_False by (intros H; apply H; congruence).
  eexists. repeat split; reflexivity.
Qed.

Lemma finishConnection_rejects_self_loop_witness :
  exists s',
    finishConnection 1700000000002 "s1e2l3f4c" releaseOnNode2Input connectingFromNode2
    = Normal tt s'
    /\ connections s' = connections connectingFromNode2
    /\ nodes s' = nodes connectingFromNode2
    /\ isConnecting s' = false
    /\ connectionStart s' = None.
Proof.
  apply (finishConnection_rejects_self_loop 1700000000002 "s1e2l3f4c"
           releaseOnNode2Input connectingFromNode2
           {| cs_nodeId := "node_2"; cs_handle := "output";
              cs_position := {| x := 300; y := 50 |} |} "node_2" "input");
    reflexivity.
Defined.

(** Released over an input handle of another node, the gesture does store
    the connection. *)
Lemma finishConnection_other_node clock rnd e s start n q :
  connectionStart s = Some start ->
  cs_nodeId start <> n ->
  ev_target e = TargetInputHandle n q ->
  exists s',
    finishConnection clock rnd e s = Normal tt s'
    /\ connections s' =
       <[connectionIdOf clock rnd :=
           {| conn_id := connectionIdOf clock rnd;
              source := cs_nodeId start; sourceHandle := cs_handle start;
              target := n; targetHandle := q |}]> (connections s).
Proof.
  intros Hstart Hn Ht. unfold finishConnection. run. rewrite Ht. run. rewrite Hstart.
  rewrite decide_True by congruence. unfold addConnection, markDirty. run.
  eexists. repeat split; reflexivity.
Qed.

(** *** The node counter *)

(** The counter after a node entry is at least the number read off its id
    and never decreases. *)
Lemma counter_after_update (parsed : option Z) (counter n : Z) :
  let counter' := if Js.gt parsed counter then default 0 parsed else counter in
  counter <= counter' /\ (parsed = Some n -> n <= counter').
Proof.
  destruct parsed as [m|]; cbn.
  - destruct (Z.ltb_spec counter m); split; try lia; intros [= ->]; lia.
  - split; [lia|discriminate].
Qed.

Lemma forEach_loadNode_counter l s :
  let s1 := final (forEach l loadNode s) in
  nodeCounter s <= nodeCounter s1
  /\ (forall id, is_Some (nodes s !! id) -> is_Some (nodes s1 !! id))
  /\ (forall nd, nd ∈ restoredNodes s l -> is_Some (nodes s1 !! nd_id nd))
  /\ (forall nd n, nd ∈ restoredNodes s l ->
        Js.parseInt (idSuffix (nd_id nd)) = Some n -> n <= nodeCounter s1).
Proof.
  revert s. induction l as [|nd l IH]; intros s; cbn zeta.
  { cbn. split; [lia|]. split; [trivial|]. split; [intros nd' H|intros nd' n H]; inversion H. }
  rewrite forEach_cons. cbn [restoredNodes].
  destruct (nodeTypes s !! nd_type nd) as [nt|] eqn:Hnt.
  - assert (registered s nd) as Hreg by (eexists; eassumption).
    destruct (loadNode_registered nd s Hreg)
      as (node & s' & -> & Hn & Hk & Hty & _).
    destruct (IH s') as (Hmono & Hkeep & Hin & Hmax).
    pose proof (restoredNodes_nodeTypes s s' l Hty) as Hsame.
    rewrite Hsame in Hin, Hmax.
    pose proof (counter_after_update (Js.parseInt (idSuffix (nd_id nd))) (nodeCounter s)) as Hupd.
    cbn zeta in Hupd. rewrite <- Hk in Hupd.
    split; [pose proof (Hupd 0) as [? _]; lia|].
    split.
    { intros id Hid. apply Hkeep. rewrite Hn, lookup_insert. case_decide; eauto. }
    split.
    + intros nd' [->|H]%elem_of_cons; [|by apply Hin].
      apply Hkeep. rewrite Hn, lookup_insert_eq. eauto.
    + intros nd' n [->|H]%elem_of_cons Hparse; [|by eapply Hmax].
      destruct (Hupd n) as [_ Hle]. specialize (Hle Hparse). lia.
  - rewrite loadNode_unregistered by assumption. cbn.
    split; [lia|]. split; [trivial|]. split; [intros nd' H|intros nd' n H]; inversion H.
Qed.

(** The ids in the store after the loop are those that were there and
    those of the restored entries. *)
Lemma forEach_loadNode_keys l s id :
  is_Some (nodes (final (forEach l loadNode s)) !! id) <->
  is_Some (nodes s !! id) \/ exists nd, nd ∈ restoredNodes s l /\ nd_id nd = id.
Proof.
  revert s. induction l as [|nd l IH]; intros s.
  { cbn. split; [auto|]. intros [H|(nd & H & _)]; [exact H|inversion H]. }
  rewrite forEach_cons. cbn [restoredNodes].
  destruct (nodeTypes s !! nd_type nd) as [nt|] eqn:Hnt.
  - assert (registered s nd) as Hreg by (eexists; eassumption).
    destruct (loadNode_registered nd s Hreg) as (node & s' & -> & Hn & _ & Hty & _).
    rewrite IH, (restoredNodes_nodeTypes s s' l Hty), Hn, lookup_insert.
    split.
    + intros [H|(nd' & Hin & Hid)].
      * case_decide; [right; exists nd; split; [by left|assumption]|by left].
      * right. exists nd'. split; [by right|assumption].
    + intros [H|(nd' & [->|Hin]%elem_of_cons & Hid)].
      * left. case_decide; eauto.
      * left. rewrite decide_True by assumption. eauto.
      * right. eauto.
  - rewrite loadNode_unregistered by assumption. cbn.
    split; [auto|]. intros [H|(nd' & H & _)]; [exact H|inversion H].
Qed.

Lemma loadWorkflow_final s data nodeList :
  workflowData s = Some data ->
  wd_nodes data = Some nodeList ->
  nodes (final (loadWorkflow s)) = nodes (final (forEach nodeList loadNode s))
  /\ nodeCounter (final (loadWorkflow s)) = nodeCounter (final (forEach nodeList loadNode s)).
Proof.
  intros Hwd Hn. unfold loadWorkflow. run. rewrite Hwd, Hn.
  destruct (forEach nodeList loadNode s); split; reflexivity.
Qed.

Lemma createNodes_spec calls s :
  exists ids s',
    createNodes calls s = Normal ids s'
    /\ length ids = length calls
    /\ (0 <= nodeCounter s ->
        nodeCounter s + Z.of_nat (length calls) <= 2 ^ 53 ->
        nodeCounter s' = nodeCounter s + Z.of_nat (length calls)
        /\ forall id, id ∈ ids ->
             exists k, nodeCounter s < k <= 2 ^ 53 /\ id = "node_" +:+ Js.numberToString k).
Proof.
  revert s. induction calls as [|[nt pos] calls IH]; intros s.
  { exists [], s. split; [reflexivity|]. split; [reflexivity|].
    intros _ _. split; [cbn; lia|]. intros id H. inversion H. }
  destruct (createNode_spec nt pos s) as (node & s1 & Hrun & _ & Hk & _).
  destruct (IH s1) as (ids & s2 & Hrun2 & Hlen & Hids).
  exists (nextNodeId s :: ids), s2.
  split.
  { cbn [createNodes]. unfold bind at 1. rewrite Hrun. unfold bind at 1. rewrite Hrun2.
    reflexivity. }
  split; [cbn; congruence|].
  cbn [length]. intros Hlo Hhi.
  rewrite increment_small in Hk by lia.
  destruct Hids as [Hk2 Hids]; [lia..|].
  split; [lia|].
  intros id [->|H]%elem_of_cons.
  - exists (nodeCounter s + 1). split; [lia|].
    unfold nextNodeId. rewrite increment_small by lia. reflexivity.
  - destruct (Hids id H) as (k & Hlt & ->). exists k. split; [lia|reflexivity].
Qed.

Lemma numberToString_inj (k1 k2 : Z) :
  Js.numberToString k1 = Js.numberToString k2 -> k1 = k2.
Proof.
  intros H. pose proof (parseIntString_numberToString k1) as H1.
  rewrite H, parseIntString_numberToString in H1. congruence.
Qed.

(** The ids that a sequence of [createNode] calls returns are pairwise
    distinct, as long as the counter stays in the range where adding one
    is exact. *)
Lemma createNodes_distinct calls s :
  0 <= nodeCounter s ->
  nodeCounter s + Z.of_nat (length calls) <= 2 ^ 53 ->
  exists ids s', createNodes calls s = Normal ids s' /\ NoDup ids.
Proof.
  revert s. induction calls as [|[nt pos] calls IH]; intros s Hlo Hhi.
  { exists [], s. split; [reflexivity|constructor]. }
  cbn [length] in Hhi.
  destruct (createNode_spec nt pos s) as (node & s1 & Hrun & _ & Hk & _).
  rewrite increment_small in Hk by lia.
  destruct (IH s1) as (ids & s2 & Hrun2 & Hnodup); [lia..|].
  destruct (createNodes_spec calls s1) as (ids' & s2' & Hrun2' & _ & Hids).
  rewrite Hrun2 in Hrun2'. injection Hrun2' as <- <-.
  destruct Hids as [_ Hids]; [lia..|].
  exists (nextNodeId s :: ids), s2.
  split.
  { cbn [createNodes]. unfold bind at 1. rewrite Hrun. unfold bind at 1. rewrite Hrun2.
    reflexivity. }
  constructor; [|exact Hnodup].
  intros Hin. destruct (Hids _ Hin) as (k & Hlt & Heq).
  unfold nextNodeId in Heq. rewrite increment_small in Heq by lia.
  cbn in Heq. injection Heq as Heq. apply numberToString_inj in Heq. lia.
Qed.

(** At 2^53 the counter no longer moves: [++this.nodeCounter] leaves it
    where it is, and [createNode] returns the id of the node that the
    store already holds under that number. *)
Lemma createNode_at_limit :
  let s := set_workflowData (Some snapshotLimit) catalogue in
  exists s1 s2,
    loadWorkflow s = Normal tt s1
    /\ is_Some (nodes s1 !! "node_9007199254740992")
    /\ nodeCounter s1 = 2 ^ 53
    /\ createNode http_request origin s1 = Normal "node_9007199254740992" s2
    /\ nodeCounter s2 = 2 ^ 53.
Proof.
  eexists _, _. split; [vm_compute; reflexivity|].
  split; [vm_compute; eauto|]. split; [reflexivity|].
  split; [vm_compute; reflexivity|reflexivity].
Qed.




(** *** Zoom *)



(** The wheel handler, in one step. *)
Lemma onCanvasWheel_spec rect e s :
  let mouseX := (clientX e - rect_left rect)%Q in
  let mouseY := (clientY e - rect_top rect)%Q in
  let newZoom := Qmax (1 # 10) (Qmin 3 (zoomLevel s * wheelFactor e)) in
  onCanvasWheel rect e s =
  Normal tt
    (set_zoomLevel newZoom
       (set_canvasOffset
          {| x := (mouseX - (mouseX - x (canvasOffset s)) * (newZoom / zoomLevel s))%Q;
             y := (mouseY - (mouseY - y (canvasOffset s)) * (newZoom / zoomLevel s))%Q |}
          s)).
Proof. reflexivity. Qed.


(** The doubles of the source do not restore the scale either: 1 times
    0.9 times 1.1, rounded after each product as the source rounds, is
    within a thousandth of 0.99. *)
Lemma wheel_factors_as_doubles :
  let scale := Js.mul (Js.mul 1 (Js.fl (9 # 10))) (Js.fl (11 # 10)) in
  (989 # 1000 < scale)%Q /\ (scale < 991 # 1000)%Q.
Proof. split; vm_compute; reflexivity. Qed.




(** *** Dragging a node *)

Lemma finishConnection_nodes clock rnd e s :
  exists s',
    finishConnection clock rnd e s = Normal tt s'
    /\ nodes s' = nodes s
    /\ isDragging s' = isDragging s
    /\ isPanning s' = isPanning s.
Proof.
  unfold finishConnection, addConnection, markDirty. run.
  destruct (ev_target e); run; try (eexists; repeat split; reflexivity).
  destruct (connectionStart s); run; try (eexists; repeat split; reflexivity).
  case_decide; run; eexists; repeat split; reflexivity.
Qed.

Lemma onCanvasMouseUp_spec clock rnd e s :
  exists s',
    onCanvasMouseUp clock rnd e s = Normal tt s'
    /\ nodes s' = nodes s
    /\ isDragging s' = false
    /\ isPanning s' = false.
Proof.
  unfold onCanvasMouseUp, markDirty. run.
  destruct (isPanning s) eqn:Hp; run;
    destruct (isDragging s) eqn:Hd; run;
    destruct (isConnecting s) eqn:Hc; run;
    try (eexists; repeat split; reflexivity || assumption);
    lazymatch goal with
    | |- context [finishConnection ?a ?b ?c ?s0] =>
        destruct (finishConnection_nodes a b c s0) as (s' & -> & Hn & Hd' & Hp')
    end;
    exists s'; cbn in Hn, Hd', Hp'; repeat split; congruence.
Qed.

(** C6, against the claim.  The second node, at (100, 0), is grabbed and
    the pointer moves 7 pixels to the right at scale 1 with grid size 20:
    after this intermediate move the node is at x = 100, the snapped
    value, not at the raw x = 107. *)
Lemma drag_move_is_snapped :
  zoomLevel draggingNode2 = 1%Q
  /\ gridSize draggingNode2 = 20%Q
  /\ isDragging draggingNode2 = true
  /\ x <$> (node_position <$> (nodes draggingNode2 !! "node_2")) = Some 100%Q
  /\ exists s1 n1,
      onCanvasMouseMove moveBy7 draggingNode2 = Normal tt s1
      /\ isDragging s1 = true
      /\ nodes s1 !! "node_2" = Some n1
      /\ (x (node_position n1) == 100)%Q
      /\ ~ (x (node_position n1) == 100 + (117 - 110) / 1)%Q.
Proof.
  split; [reflexivity|]. split; [reflexivity|]. split; [reflexivity|].
  split; [vm_compute; reflexivity|].
  eexists _, _. split; [vm_compute; reflexivity|]. split; [reflexivity|].
  split; [vm_compute; reflexivity|]. split; vm_compute; congruence.
Qed.

(** C6, as the code has it.  During a drag every intermediate move snaps:
    [onCanvasMouseMove] adds the pointer delta divided by the scale to the
    position of the selected node and stores the grid-snapped result, on
    each axis the double nearest to an integer multiple of the grid size;
    every operation rounds as the doubles of the source do.  The delta is
    taken from the last pointer position, which is the position of this
    very event when the editor is panning as well, as the panning branch
    runs first and resets it.  The node is stored before it is drawn, so
    this is what the store holds however the handler ends, and the
    handler completes normally when the node and the connections can be
    drawn.  [onCanvasMouseUp] ends the drag and leaves every node where
    it is. *)
Theorem drag_snaps_on_every_move s e selected node :
  isDragging s = true ->
  selectedNode s = Some selected ->
  selected <> "" ->
  nodes s !! selected = Some node ->
  (0 < zoomLevel s)%Q ->
  (0 < gridSize s)%Q ->
  let last :=
    if isPanning s then {| x := clientX e; y := clientY e |} else lastMousePos s in
  let movedX :=
    Js.add (x (node_position node)) (Js.div (Js.sub (clientX e) (x last)) (zoomLevel s)) in
  let movedY :=
    Js.add (y (node_position node)) (Js.div (Js.sub (clientY e) (y last)) (zoomLevel s)) in
  let s1 := final (onCanvasMouseMove e s) in
  exists node1,
    nodes s1 = <[selected := node1]> (nodes s)
    /\ x (node_position node1) = snapToGrid (gridSize s) movedX
    /\ y (node_position node1) = snapToGrid (gridSize s) movedY
    /\ (exists kx ky : Z,
          x (node_position node1) = Js.mul (inject_Z kx) (gridSize s)
          /\ y (node_position node1) = Js.mul (inject_Z ky) (gridSize s))
    /\ isDragging s1 = true
    /\ (quotable selected = true ->
        map_Forall (fun _ c => drawable c = true) (connections s) ->
        onCanvasMouseMove e s = Normal tt s1)
    /\ forall clock rnd e',
         nodes (final (onCanvasMouseUp clock rnd e' s1)) = nodes s1
         /\ isDragging (final (onCanvasMouseUp clock rnd e' s1)) = false.
Proof.
  intros Hdrag Hsel Hne Hnode _ _ last movedX movedY s1.
  assert (truthy (Some selected) = true) as Htruthy
    by (destruct selected; [congruence|reflexivity]).
  assert (exists s' node1,
            onCanvasMouseMove e s = Normal tt s'
            /\ nodes s' = <[selected := node1]> (nodes s)
            /\ x (node_position node1) = snapToGrid (gridSize s) movedX
            /\ y (node_position node1) = snapToGrid (gridSize s) movedY
            /\ isDragging s' = true) as (s' & node1 & Hrun & Hn & Hx & Hy & Hd).
  { subst movedX movedY last.
    unfold onCanvasMouseMove, dragSelectedNode. run.
    destruct (isPanning s) eqn:Hpan; run; rewrite Hdrag, Hsel, Htruthy; run;
      rewrite Hsel; run; rewrite Hnode; run;
      (eexists _, _; split; [reflexivity|]; run; repeat split; assumption || reflexivity). }
  assert (s1 = s') as -> by (unfold s1; rewrite Hrun; reflexivity).
  exists node1.
  split; [exact Hn|]. split; [exact Hx|]. split; [exact Hy|].
  split.
  { rewrite Hx, Hy. unfold snapToGrid, Js.round. eexists _, _. split; reflexivity. }
  split; [exact Hd|]. split; [intros _ _; exact Hrun|].
  intros clock rnd e'.
  destruct (onCanvasMouseUp_spec clock rnd e' s') as (s2 & -> & Hn2 & Hd2 & _).
  split; assumption.
Qed.

Lemma drag_snaps_on_every_move_witness :
  let s := draggingNode2 in
  let node :=
    {| node_id := "node_2"; node_type := "http_request"; node_name := "HTTP Request";
       node_position := {| x := 100; y := 0 |};
       node_config := getDefaultConfig http_request;
       node_description := None; node_continue_on_error := None;
       node_timeout := None; inputs := ["input"]; outputs := ["output"] |} in
  let last :=
    if isPanning s then {| x := clientX moveBy7; y := clientY moveBy7 |}
    else lastMousePos s in
  let movedX :=
    Js.add (x (node_position node))
      (Js.div (Js.sub (clientX moveBy7) (x last)) (zoomLevel s)) in
  let movedY :=
    Js.add (y (node_position node))
      (Js.div (Js.sub (clientY moveBy7) (y last)) (zoomLevel s)) in
  let s1 := final (onCanvasMouseMove moveBy7 s) in
  exists node1,
    nodes s1 = <["node_2" := node1]> (nodes s)
    /\ x (node_position node1) = snapToGrid (gridSize s) movedX
    /\ y (node_position node1) = snapToGrid (gridSize s) movedY
    /\ (exists kx ky : Z,
          x (node_position node1) = Js.mul (inject_Z kx) (gridSize s)
          /\ y (node_position node1) = Js.mul (inject_Z ky) (gridSize s))
    /\ isDragging s1 = true
    /\ (quotable "node_2" = true ->
        map_Forall (fun _ c => drawable c = true) (connections s) ->
        onCanvasMouseMove moveBy7 s = Normal tt s1)
    /\ forall clock rnd e',
         nodes (final (onCanvasMouseUp clock rnd e' s1)) = nodes s1
         /\ isDragging (final (onCanvasMouseUp clock rnd e' s1)) = false.
Proof.
  apply (drag_snaps_on_every_move draggingNode2 moveBy7 "node_2").
  - reflexivity.
  - reflexivity.
  - discriminate.
  - vm_compute. reflexivity.
  - reflexivity.
  - reflexivity.
Defined.

(** The operations round as the doubles of the source do.  The scale 1.1
    is, as a double, a little more than 11/10; a move of 11 pixels at this
    scale is a delta of 10 once the quotient is rounded, which takes the
    node from x = 100 to the tie at 110 and on to 120, where the quotient
    not rounded, a little less than 10, would leave it at 100. *)
Lemma drag_rounds_as_doubles :
  let s := set_zoomLevel (Js.fl (11 # 10)) draggingNode2 in
  let e := {| clientX := 121; clientY := 10; deltaY := 0; ev_target := TargetOther |} in
  (11 # 10 < zoomLevel s)%Q
  /\ (Js.div (Js.sub (clientX e) (x (lastMousePos s))) (zoomLevel s) == 10)%Q
  /\ ((clientX e - x (lastMousePos s)) / zoomLevel s < 10)%Q
  /\ (exists s1 n1,
        onCanvasMouseMove e s = Normal tt s1
        /\ nodes s1 !! "node_2" = Some n1
        /\ (x (node_position n1) == 120)%Q)
  /\ (Js.round ((100 + (clientX e - x (lastMousePos s)) / zoomLevel s) / 20) * 20 == 100)%Q.
Proof.
  split; [vm_compute; reflexivity|]. split; [vm_compute; reflexivity|].
  split; [vm_compute; reflexivity|]. split; [|vm_compute; reflexivity].
  eexists _, _. split; [vm_compute; reflexivity|].
  split; vm_compute; reflexivity.
Qed.

(** A button released outside the canvas leaves the flags it set, so an
    editor can be panning and dragging at once.  A move of 27 pixels then
    pans the view by 27 pixels, and the node, which the same move takes
    from x = 100 to 120 when the editor is not panning, stays: the panning
    branch has made the position of this event the last one. *)
Lemma drag_while_panning :
  let e := {| clientX := 137; clientY := 10; deltaY := 0; ev_target := TargetOther |} in
  (exists s1 n1,
     onCanvasMouseMove e draggingNode2 = Normal tt s1
     /\ canvasOffset s1 = canvasOffset draggingNode2
     /\ nodes s1 !! "node_2" = Some n1
     /\ (x (node_position n1) == 120)%Q)
  /\ (exists s1 n1,
        onCanvasMouseMove e (set_isPanning true draggingNode2) = Normal tt s1
        /\ (x (canvasOffset s1) == x (canvasOffset draggingNode2) + 27)%Q
        /\ nodes s1 !! "node_2" = Some n1
        /\ (x (node_position n1) == 100)%Q).
Proof.
  split; eexists _, _; (split; [vm_compute; reflexivity|]);
    (split; [vm_compute; reflexivity|]); split; vm_compute; reflexivity.
Qed.

(** *** Importing a file *)

(** An import confirmed in both dialogs never throws and replaces the
    nodes of the store by the restored ones. *)
Lemma importWorkflow_replaces_nodes definition nodeList s :
  wd_nodes definition = Some nodeList ->
  exists s',
    importWorkflow definition true true s = Normal tt s'
    /\ nodeCounter s <= nodeCounter s'
    /\ forall id,
         is_Some (nodes s' !! id) <->
         exists nd, nd ∈ restoredNodes s nodeList /\ nd_id nd = id.
Proof.
  intros Hnodes.
  set (s0 := set_workflowData (Some definition)
               (set_isDirty true
                  (set_selectedConnection None
                     (set_selectedNode None (set_connections ∅ (set_nodes ∅ s)))))).
  assert (Hrun : importWorkflow definition true true s
                 = catch (bind loadWorkflow (fun _ => markDirty)) s0) by reflexivity.
  destruct (loadWorkflow_final s0 definition nodeList eq_refl Hnodes) as [Hn Hk].
  destruct (forEach_loadNode_counter nodeList s0) as (Hmono & _).
  cbn zeta in Hmono. rewrite <- Hk in Hmono.
  assert (Hkeys : forall id,
             is_Some (nodes (final (loadWorkflow s0)) !! id) <->
             exists nd, nd ∈ restoredNodes s nodeList /\ nd_id nd = id).
  { intros id. rewrite Hn, forEach_loadNode_keys.
    rewrite (restoredNodes_nodeTypes s s0 nodeList eq_refl).
    split; [|auto]. intros [H|H]; [|exact H].
    cbn in H. rewrite lookup_empty in H. by destruct H. }
  rewrite Hrun. unfold catch, bind, markDirty, modify.
  destruct (loadWorkflow s0) as [[] s1|err s1]; cbn in Hmono, Hkeys;
    eexists; (split; [reflexivity|]); split; assumption.
Qed.

(** ** Sessions, gestures, polling and saving *)

(** *** The counter below its limit *)

(** From 2^53 on the nearest double is 2^53 at least. *)
Lemma toDouble_large (z : Z) : 2 ^ 53 <= z -> 2 ^ 53 <= Js.toDouble z.
Proof.
  intros Hz. unfold Js.toDouble. cbv zeta.
  rewrite (Z.abs_eq z) by lia.
  assert (53 <= Z.log2 z) as Hl by (apply Z.log2_le_pow2; lia).
  destruct (Z.leb_spec (Z.log2 z - 52) 0) as [Hsh|Hsh]; [lia|].
  set (sh := Z.log2 z - 52) in *.
  rewrite Z.sgn_pos, Z.mul_1_l by lia.
  rewrite Z.shiftr_div_pow2 by lia.
  assert (0 < 2 ^ sh) as Hpow by (apply Z.pow_pos_nonneg; lia).
  assert (2 ^ 52 <= z / 2 ^ sh) as Hq.
  { apply Z.div_le_lower_bound; [exact Hpow|].
    rewrite <- Z.pow_add_r by lia. replace (sh + 52) with (Z.log2 z) by lia.
    apply Z.log2_spec. lia. }
  set (q := z / 2 ^ sh) in *.
  match goal with
  | |- _ <= Z.shiftl (if ?b then _ else _) _ => destruct b
  end; rewrite Z.shiftl_mul_pow2 by lia.
  all: assert (2 <= 2 ^ sh) by (change 2 with (2 ^ 1) at 1; apply Z.pow_le_mono_r; lia).
  all: nia.
Qed.

(** [++] counts as long as the counter is below 2^53, and never takes a
    counter that was below 2^53 back: it stays at 2^53 or above once it is
    there. *)
Lemma increment_capped (c : Z) : 0 <= c -> Z.min c (2 ^ 53) <= Js.increment c.
Proof.
  intros Hc. unfold Js.increment.
  destruct (Z.le_gt_cases (c + 1) (2 ^ 53)).
  - rewrite toDouble_small by lia. lia.
  - pose proof (toDouble_large (c + 1)). lia.
Qed.

Lemma increment_below (c : Z) :
  0 <= c -> Js.increment c < 2 ^ 53 -> Js.increment c = c + 1.
Proof.
  intros Hc Hlt. pose proof (increment_capped c Hc).
  apply increment_small. lia.
Qed.

Lemma counter_selectNode nodeId s :
  nodeCounter (final (selectNode nodeId s)) = nodeCounter s.
Proof.
  unfold selectNode, deselectAll, showNodeProperties. run.
  destruct (nodes s !! nodeId); reflexivity.
Qed.

Lemma counter_createNode nt pos s :
  nodeCounter (final (createNode nt pos s)) = Js.increment (nodeCounter s).
Proof.
  destruct (createNode_spec nt pos s) as (node & s' & -> & _ & Hk & _). exact Hk.
Qed.

Lemma counter_storeCopy original suffix s :
  nodeCounter (final (storeCopy original suffix s)) = Js.increment (nodeCounter s).
Proof.
  unfold storeCopy, selectNode, deselectAll, showNodeProperties, markDirty. run.
  rewrite lookup_insert_eq. reflexivity.
Qed.

Lemma counter_deleteConnection page connectionId s :
  nodeCounter (final (deleteConnection page connectionId s)) = nodeCounter s.
Proof.
  destruct (deleteConnection_final page connectionId s) as (_ & _ & Hk & _). exact Hk.
Qed.

Lemma counter_deleteNode page nodeId s :
  nodeCounter (final (deleteNode page nodeId s)) = nodeCounter s.
Proof.
  unfold deleteNode. rewrite final_bind. cbn [get]. rewrite final_bind.
  pose proof (forEach_final_ind (fun s' => nodeCounter s' = nodeCounter s)
                (deleteConnection page) (connectionsToRemove nodeId s) s) as H.
  cbn beta in H.
  assert (nodeCounter (final (forEach (connectionsToRemove nodeId s)
                                (deleteConnection page) s)) = nodeCounter s) as H'.
  { apply H; [|reflexivity]. intros id s0 <-. apply counter_deleteConnection. }
  destruct (forEach _ (deleteConnection page) s) as [[] s1|e s1]; cbn in H'; [|exact H'].
  unfold querySelector, deselectAll, markDirty. run.
  destruct (accepted page nodeSelector nodeId); run; [|exact H'].
  match goal with
  | |- context [renderConnections page ?s0] =>
      destruct (renderConnections_cases page s0) as [-> | ->]
  end; run; exact H'.
Qed.

Lemma counter_loadNode nodeData s :
  nodeCounter s <= nodeCounter (final (loadNode nodeData s)).
Proof.
  destruct (nodeTypes s !! nd_type nodeData) as [nt|] eqn:Hnt.
  2: { rewrite loadNode_unregistered by assumption. cbn. lia. }
  destruct (loadNode_registered nodeData s) as (node & s' & -> & _ & Hk & _); [by eexists|].
  cbn. rewrite Hk.
  destruct (counter_after_update (Js.parseInt (idSuffix (nd_id nodeData))) (nodeCounter s) 0)
    as [Hmono _]. exact Hmono.
Qed.

Lemma counter_loadWorkflow s : nodeCounter s <= nodeCounter (final (loadWorkflow s)).
Proof.
  unfold loadWorkflow. run.
  destruct (workflowData s) as [data|]; [|cbn; lia].
  destruct (wd_nodes data) as [nodeList|]; [|cbn; lia]. run.
  pose proof (forEach_final_ind (fun s' => nodeCounter s <= nodeCounter s') loadNode
                nodeList s) as H.
  cbn beta in H.
  assert (nodeCounter s <= nodeCounter (final (forEach nodeList loadNode s))) as H'.
  { apply H; [|lia]. intros a s0 Hs0. pose proof (counter_loadNode a s0). lia. }
  destruct (forEach nodeList loadNode s); exact H'.
Qed.

Lemma counter_loadConnections page s :
  nodeCounter (final (loadConnections page s)) = nodeCounter s.
Proof.
  unfold loadConnections. run.
  destruct (workflowData s) as [data|]; [|reflexivity].
  destruct (wd_connections data) as [l|]; [|reflexivity].
  apply (forEach_final_ind (fun s' => nodeCounter s' = nodeCounter s)); [|reflexivity].
  intros cd s0 Hs0. destruct (loadConnection_spec page cd s0) as (-> & _). exact Hs0.
Qed.

Lemma counter_registerNodeTypes l s :
  nodeCounter (final (registerNodeTypes l s)) = nodeCounter s.
Proof.
  unfold registerNodeTypes.
  apply (forEach_final_ind (fun s' => nodeCounter s' = nodeCounter s)); [|reflexivity].
  intros nt s0 Hs0. run. exact Hs0.
Qed.

Lemma counter_finishConnection now rnd e s :
  nodeCounter (final (finishConnection now rnd e s)) = nodeCounter s.
Proof.
  unfold finishConnection, addConnection, markDirty. run.
  destruct (ev_target e); run; try reflexivity.
  destruct (connectionStart s); run; try reflexivity.
  case_decide; reflexivity.
Qed.

(** No action takes the counter down, as long as it is below 2^53; once
    there, it stays there or above. *)
Lemma counter_perform a s :
  0 <= nodeCounter s ->
  Z.min (nodeCounter s) (2 ^ 53) <= nodeCounter (final (perform a s)).
Proof.
  intros Hlo. pose proof (increment_capped (nodeCounter s) Hlo) as Hinc.
  destruct a; cbn [perform].
  - unfold init. rewrite final_bind.
    assert (nodeCounter (final (loadNodeTypes response s)) = nodeCounter s) as H
      by (destruct response; apply counter_registerNodeTypes).
    destruct (loadNodeTypes response s) as [[] s1|e s1]; cbn in H; [|lia].
    pose proof (counter_loadWorkflow s1). lia.
  - rewrite final_bind. pose proof (counter_createNode nodeType position s) as H.
    destruct (createNode nodeType position s); cbn in H |- *; lia.
  - unfold onCanvasDrop. run. destruct (nodeTypes s !! nodeTypeName); [|cbn; lia].
    set (position := Build_Position _ _).
    pose proof (counter_createNode n position s) as H.
    destruct (createNode n position s); cbn in H |- *; lia.
  - unfold copyNode. run. destruct (nodes s !! nodeId); cbn; lia.
  - unfold duplicateNode. run. destruct (nodes s !! nodeId); [|cbn; lia].
    rewrite counter_storeCopy. lia.
  - unfold pasteNode. run. destruct (clipboard s); [|cbn; lia].
    rewrite counter_storeCopy. lia.
  - rewrite counter_deleteNode. lia.
  - rewrite counter_deleteConnection. lia.
  - unfold addConnection, markDirty. run. lia.
  - destruct confirmed; cbn; lia.
  - unfold importWorkflow. rewrite final_catch. destruct confirmReplace; [|cbn; lia].
    unfold when. rewrite final_bind.
    assert (nodeCounter (final (clearCanvas confirmClear s)) = nodeCounter s) as H
      by (destruct confirmClear; reflexivity).
    destruct (clearCanvas confirmClear s) as [[] s1|e s1]; cbn in H; [|lia].
    rewrite final_bind. unfold modify at 1. rewrite final_bind.
    pose proof (counter_loadWorkflow (set_workflowData (Some definition) s1)) as H1.
    destruct (loadWorkflow _) as [[] s2|e s2]; cbn in H1 |- *; lia.
  - unfold fireTimer. run. destruct (timers s) as [|[] rest]; [cbn; lia|]. run.
    cbn [runTimer]. rewrite counter_loadConnections. cbn. lia.
  - unfold onNodeMouseDown. run.
    destruct (negb _ || negb _); run; [|lia].
    pose proof (counter_selectNode nodeId s) as H.
    destruct (selectNode nodeId s); cbn in H |- *; lia.
  - unfold onNodeClick. rewrite counter_selectNode. lia.
  - unfold onNodeContextMenu. rewrite counter_selectNode. lia.
  - unfold onConnectionClick, selectConnection, deselectAll. run.
    destruct (connections s !! connectionId); cbn; lia.
  - unfold onHandleMouseDown, startConnection. destruct (ev_target e); cbn; lia.
  - unfold onCanvasMouseDown, deselectAll. destruct (ev_target e); cbn; lia.
  - unfold onCanvasMouseMove, dragSelectedNode. run.
    destruct (isPanning s); run; destruct (isDragging s && truthy (selectedNode s)); run;
      try lia; destruct (selectedNode s); run; try lia;
      destruct (nodes s !! _); cbn; lia.
  - unfold onCanvasMouseUp, markDirty. run.
    destruct (isPanning s); run; destruct (isDragging s); run;
      destruct (isConnecting s); run; rewrite ?counter_finishConnection; cbn; lia.
  - rewrite onCanvasWheel_spec. cbn. lia.
  - cbn. lia.
  - cbn. lia.
  - unfold fitToScreen. run. destruct (boundingBox s); cbn; lia.
  - unfold centerCanvas. run. destruct (boundingBox s); cbn; lia.
Qed.

Lemma session_app l1 l2 s : session (l1 ++ l2) s = session l2 (session l1 s).
Proof. unfold session. apply fold_left_app. Qed.

Lemma counter_session actions s :
  0 <= nodeCounter s ->
  Z.min (nodeCounter s) (2 ^ 53) <= nodeCounter (session actions s).
Proof.
  revert s. induction actions as [|a l IH]; intros s Hlo; [cbn; lia|].
  cbn. pose proof (counter_perform a s Hlo).
  assert (0 <= nodeCounter (final (perform a s))) as Hlo' by lia.
  pose proof (IH (final (perform a s)) Hlo').
  unfold session in *. lia.
Qed.

(** *** Sessions keep the editor consistent *)

(** Consistency only looks at the nodes, the counter, the connections and
    the selection. *)
Lemma consistent_frame s s' :
  nodes s' = nodes s ->
  nodeCounter s' = nodeCounter s ->
  connections s' = connections s ->
  selectedNode s' = None \/ selectedConnection s' = None ->
  Consistent s -> Consistent s'.
Proof.
  intros Hn Hk Hc Hsel [H1 H2 H3 _].
  split; rewrite ?Hn, ?Hk, ?Hc; assumption.
Qed.

(** Closes a goal whose editor differs from a consistent one in other
    fields only, or in the selection in an allowed way. *)
Ltac frame :=
  match goal with
  | H : Consistent ?s |- Consistent _ =>
      solve [ apply (consistent_frame s);
              [reflexivity..
              |cbn;
               first [ left; reflexivity
                     | right; reflexivity
                     | let Hx := fresh in
                       destruct H as [_ _ _ Hx]; cbn in Hx;
                       destruct Hx; [left|right]; congruence ]
              |exact H] ]
  end.

Lemma consistent_constructor options_workflowData :
  Consistent (constructor options_workflowData).
Proof.
  split; cbn.
  - intros id k [n Hn]. rewrite lookup_empty in Hn. discriminate.
  - intros id n Hn. rewrite lookup_empty in Hn. discriminate.
  - intros id c Hc. rewrite lookup_empty in Hc. discriminate.
  - left. reflexivity.
Qed.

Lemma consistent_deselectAll s : Consistent s -> Consistent (final (deselectAll s)).
Proof. intros H. unfold deselectAll. run. frame. Qed.

Lemma consistent_markDirty s : Consistent s -> Consistent (final (markDirty s)).
Proof. intros H. unfold markDirty. run. frame. Qed.

Lemma consistent_selectNode nodeId s :
  Consistent s -> Consistent (final (selectNode nodeId s)).
Proof.
  intros H. unfold selectNode, deselectAll, showNodeProperties. run.
  destruct (nodes s !! nodeId); run; frame.
Qed.

Lemma consistent_selectConnection connectionId s :
  Consistent s -> Consistent (final (selectConnection connectionId s)).
Proof.
  intros H. unfold selectConnection, deselectAll. run.
  destruct (connections s !! connectionId); run; frame.
Qed.

(** Storing a node under the next id keeps the editor consistent, while
    the counter counts. *)
Lemma consistent_store_next s node :
  Consistent s ->
  0 <= nodeCounter s ->
  Js.increment (nodeCounter s) < 2 ^ 53 ->
  node_id node = nextNodeId s ->
  Consistent
    (set_nodes (<[nextNodeId s := node]> (nodes s))
       (set_nodeCounter (Js.increment (nodeCounter s)) s)).
Proof.
  intros [H1 H2 H3 H4] Hlo Hhi Hid.
  pose proof (increment_below _ Hlo Hhi) as Hinc.
  split; cbn.
  - intros id k. rewrite lookup_insert. case_decide as Heq.
    + intros _ ->. unfold nextNodeId in Heq. injection Heq as Heq.
      apply numberToString_inj in Heq. lia.
    + intros Hsome Hk. specialize (H1 id k Hsome Hk). lia.
  - intros id n. rewrite lookup_insert. case_decide as Heq.
    + intros [= <-]. congruence.
    + apply H2.
  - exact H3.
  - exact H4.
Qed.

Lemma consistent_createNode nt pos s :
  Consistent s ->
  0 <= nodeCounter s ->
  nodeCounter (final (createNode nt pos s)) < 2 ^ 53 ->
  Consistent (final (createNode nt pos s)).
Proof.
  intros H Hlo Hhi. rewrite counter_createNode in Hhi.
  unfold createNode, getNodeInputs, getNodeOutputs. run.
  repeat case_decide; run.
  all: match goal with
       | |- context [set_nodes (<[?i := ?n]> _) _] =>
           pose proof (consistent_store_next s n H Hlo Hhi eq_refl) as H'
       end.
  all: match goal with
       | |- context [selectNode ?i ?s0] =>
           pose proof (consistent_selectNode i s0 H') as Hs;
           destruct (selectNode i s0) as [[] s1|e s1]; cbn in Hs |- *
       end.
  all: try exact Hs.
  all: unfold markDirty; run; frame.
Qed.

Lemma consistent_storeCopy original suffix s :
  Consistent s ->
  0 <= nodeCounter s ->
  nodeCounter (final (storeCopy original suffix s)) < 2 ^ 53 ->
  Consistent (final (storeCopy original suffix s)).
Proof.
  intros H Hlo Hhi. rewrite counter_storeCopy in Hhi. unfold storeCopy. run.
  match goal with
  | |- context [set_nodes (<[?i := ?n]> _) _] =>
      pose proof (consistent_store_next s n H Hlo Hhi eq_refl) as H'
  end.
  match goal with
  | |- context [selectNode ?i ?s0] =>
      pose proof (consistent_selectNode i s0 H') as Hs;
      destruct (selectNode i s0) as [[] s1|e s1]; cbn in Hs |- *
  end.
  - unfold markDirty; run; frame.
  - exact Hs.
Qed.

Lemma consistent_copyNode nodeId s :
  Consistent s -> Consistent (final (copyNode nodeId s)).
Proof.
  intros H. unfold copyNode. run. destruct (nodes s !! nodeId); run; [frame|exact H].
Qed.

Lemma consistent_duplicateNode nodeId s :
  Consistent s ->
  0 <= nodeCounter s ->
  nodeCounter (final (duplicateNode nodeId s)) < 2 ^ 53 ->
  Consistent (final (duplicateNode nodeId s)).
Proof.
  intros H Hlo. unfold duplicateNode. run.
  destruct (nodes s !! nodeId); run; [by apply consistent_storeCopy|trivial].
Qed.

Lemma consistent_pasteNode s :
  Consistent s ->
  0 <= nodeCounter s ->
  nodeCounter (final (pasteNode s)) < 2 ^ 53 ->
  Consistent (final (pasteNode s)).
Proof.
  intros H Hlo. unfold pasteNode. run.
  destruct (clipboard s); run; [by apply consistent_storeCopy|trivial].
Qed.

Lemma consistent_delete_connection connectionId s :
  Consistent s ->
  Consistent (set_connections (delete connectionId (connections s)) s).
Proof.
  intros [H1 H2 H3 H4]. split; cbn; [exact H1|exact H2| |exact H4].
  intros id c Hc. apply lookup_delete_Some in Hc as [_ Hc]. by apply H3.
Qed.

(** However [deleteConnection] ends. *)
Lemma consistent_deleteConnection page connectionId s :
  Consistent s -> Consistent (final (deleteConnection page connectionId s)).
Proof.
  intros H. pose proof (consistent_delete_connection connectionId s H) as H'.
  unfold deleteConnection, querySelector, deselectAll, markDirty. run.
  destruct (accepted page connectionSelector connectionId); run; [|exact H'].
  case_bool_decide; run; [|frame].
  match goal with
  | |- context [renderConnections page ?s0] =>
      destruct (renderConnections_cases page s0) as [-> | ->]
  end; run; frame.
Qed.

(** However [deleteNode] ends. *)
Lemma consistent_deleteNode page nodeId s :
  Consistent s -> Consistent (final (deleteNode page nodeId s)).
Proof.
  intros H. unfold deleteNode. rewrite final_bind. cbn [get]. rewrite final_bind.
  pose proof (forEach_final_ind Consistent (deleteConnection page)
                (connectionsToRemove nodeId s) s
                (consistent_deleteConnection page) H) as H'.
  destruct (forEach _ (deleteConnection page) s) as [[] s1|e s1]; cbn in H'; [|exact H'].
  assert (Consistent (set_nodes (delete nodeId (nodes s1)) s1)) as H2.
  { destruct H' as [H1 H2 H3 H4]. split; cbn; [| |exact H3|exact H4].
    - intros id k [n Hn]. apply lookup_delete_Some in Hn as [_ Hn]. eauto.
    - intros id n Hn. apply lookup_delete_Some in Hn as [_ Hn]. eauto. }
  unfold querySelector, deselectAll, markDirty. run.
  destruct (accepted page nodeSelector nodeId); run; [|exact H2].
  match goal with
  | |- context [renderConnections page ?s0] =>
      destruct (renderConnections_cases page s0) as [-> | ->]
  end; run; [|exact H2].
  clear H H'. frame.
Qed.

Lemma consistent_addConnection now rnd a b c d s :
  Consistent s -> Consistent (final (addConnection now rnd a b c d s)).
Proof.
  intros [H1 H2 H3 H4]. unfold addConnection, markDirty. run.
  split; cbn; [exact H1|exact H2| |exact H4].
  intros id c0. rewrite lookup_insert. case_decide; [intros [= <-]; assumption|apply H3].
Qed.

Lemma consistent_clearCanvas confirmed s :
  Consistent s -> Consistent (final (clearCanvas confirmed s)).
Proof.
  intros H. destruct confirmed; [|exact H].
  unfold clearCanvas, deselectAll, markDirty. run. destruct H as [H1 _ _ _].
  split; cbn; try (intros ? ? Hx; rewrite lookup_empty in Hx; discriminate); [|auto].
  intros id k [n Hn]. rewrite lookup_empty in Hn. discriminate.
Qed.

(** What a node entry with a registered type leaves behind. *)
Lemma loadNode_stores nd s :
  registered s nd ->
  exists node s',
    loadNode nd s = Normal tt s'
    /\ nodes s' = <[nd_id nd := node]> (nodes s)
    /\ nodeDataOf node
       = {| nd_id := nd_id nd; nd_type := nd_type nd; nd_name := nd_name nd;
            nd_position := nd_position nd;
            nd_config := Some (default ∅ (nd_config nd));
            nd_description := Some (Js.orString (nd_description nd) "");
            nd_continue_on_error := Some (Js.orFalse (nd_continue_on_error nd));
            nd_timeout := Some (Js.orNumber (nd_timeout nd) 30) |}
    /\ getNodeInputs (nodeTypes s !! nd_type nd) = Ok (inputs node)
    /\ getNodeOutputs (nodeTypes s !! nd_type nd) = Ok (outputs node)
    /\ nodeCounter s' =
       (if Js.gt (Js.parseInt (idSuffix (nd_id nd))) (nodeCounter s)
        then default 0 (Js.parseInt (idSuffix (nd_id nd)))
        else nodeCounter s)
    /\ nodeTypes s' = nodeTypes s
    /\ connections s' = connections s
    /\ selectedNode s' = selectedNode s
    /\ selectedConnection s' = selectedConnection s.
Proof.
  intros [nt H]. unfold loadNode, getNodeInputs, getNodeOutputs. run. rewrite H.
  assert (Hor : forall d, Js.orString (Some (Js.orString d "")) "" = Js.orString d "")
    by (intros [[|c r]|]; reflexivity).
  assert (Hnum : forall t, Js.orNumber (Some (Js.orNumber t 30)) 30 = Js.orNumber t 30).
  { intros [q|]; cbn; [|reflexivity]. destruct (Qeq_bool q 0) eqn:Hq; cbn; [reflexivity|].
    rewrite Hq. reflexivity. }
  repeat case_decide; run.
  all: destruct (Js.gt _ _); eexists _, _; (split; [reflexivity|]);
    (split; [reflexivity|]); unfold nodeDataOf;
    cbn -[Js.orString Js.orNumber Js.orFalse default]; rewrite Hor, Hnum;
    repeat split; reflexivity.
Qed.

(** Below 2^53 the number [parseInt] returns is the number it read. *)
Lemma toDouble_below (k : Z) : Js.toDouble k < 2 ^ 53 -> Js.toDouble k = k \/ k < - 2 ^ 53.
Proof.
  intros Hlt. destruct (Z.le_gt_cases (- 2 ^ 53) k) as [Hlo|Hlo]; [left|right; lia].
  apply toDouble_small.
  destruct (Z.le_gt_cases k (2 ^ 53)) as [Hhi|Hhi]; [lia|].
  pose proof (toDouble_large k). lia.
Qed.

Lemma consistent_loadNode nodeData s :
  Consistent s ->
  0 <= nodeCounter s ->
  nodeCounter (final (loadNode nodeData s)) < 2 ^ 53 ->
  Consistent (final (loadNode nodeData s)).
Proof.
  intros H Hlo.
  destruct (nodeTypes s !! nd_type nodeData) as [nt|] eqn:Hnt.
  2: { rewrite loadNode_unregistered by assumption. intros _. exact H. }
  destruct (loadNode_stores nodeData s) as
    (node & s' & -> & Hn & Hdata & _ & _ & Hk & _ & Hc & Hs1 & Hs2); [by eexists|].
  cbn [final]. intros Hhi.
  apply (f_equal nd_id) in Hdata. cbn in Hdata.
  pose proof (counter_after_update (Js.parseInt (idSuffix (nd_id nodeData))) (nodeCounter s))
    as Hupd. cbn zeta in Hupd. rewrite <- Hk in Hupd.
  destruct H as [H1 H2 H3 H4]. split; cbn; rewrite ?Hn, ?Hc, ?Hs1, ?Hs2; try assumption.
  - intros id k. rewrite lookup_insert. case_decide as Hid.
    + intros _ ->. destruct (Hupd (Js.toDouble k)) as [Hmono Hle].
      specialize (Hle ltac:(rewrite Hid; apply parseInt_idSuffix_node)).
      destruct (toDouble_below k) as [Heq|Hneg]; lia.
    + intros Hsome Hid'. specialize (H1 id k Hsome Hid').
      destruct (Hupd 0) as [Hmono _]. lia.
  - intros id n. rewrite lookup_insert. case_decide; [intros [= <-]; congruence|apply H2].
Qed.

Lemma below_loadNode nodeData s :
  ConsistentBelowLimit s -> ConsistentBelowLimit (final (loadNode nodeData s)).
Proof.
  intros [Hlo H]. pose proof (counter_loadNode nodeData s) as Hmono.
  split; [lia|]. intros Hhi. apply consistent_loadNode; [apply H; lia|exact Hlo|exact Hhi].
Qed.

Lemma consistent_loadWorkflow s :
  Consistent s ->
  0 <= nodeCounter s ->
  nodeCounter (final (loadWorkflow s)) < 2 ^ 53 ->
  Consistent (final (loadWorkflow s)).
Proof.
  intros H Hlo. unfold loadWorkflow. run.
  destruct (workflowData s) as [data|]; [|intros _; exact H].
  destruct (wd_nodes data) as [nodeList|]; [|intros _; exact H]. run.
  pose proof (forEach_final_ind ConsistentBelowLimit loadNode nodeList s below_loadNode)
    as H'.
  specialize (H' (conj Hlo (fun _ => H))).
  destruct (forEach nodeList loadNode s) as [[] s1|e s1]; cbn in H' |- *;
    intros Hhi; destruct H' as [_ H']; specialize (H' Hhi); [|exact H'].
  clear H. frame.
Qed.

Lemma consistent_loadConnection page cd s :
  Consistent s -> Consistent (final (loadConnection page cd s)).
Proof.
  intros [H1 H2 H3 H4]. destruct (loadConnection_spec page cd s) as (-> & _).
  split; cbn; [exact H1|exact H2| |exact H4].
  intros id c. rewrite lookup_insert. case_decide; [intros [= <-]; assumption|apply H3].
Qed.

Lemma consistent_loadConnections page s :
  Consistent s -> Consistent (final (loadConnections page s)).
Proof.
  intros H. unfold loadConnections. run.
  destruct (workflowData s) as [data|]; [|exact H].
  destruct (wd_connections data) as [l|]; [|exact H].
  by apply forEach_final_ind; [apply consistent_loadConnection|].
Qed.

Lemma consistent_fireTimer page s :
  Consistent s -> Consistent (final (fireTimer page s)).
Proof.
  intros H. unfold fireTimer. run. destruct (timers s) as [|[] rest]; [exact H|]. run.
  cbn [runTimer]. apply consistent_loadConnections. frame.
Qed.

Lemma consistent_importWorkflow definition confirmReplace confirmClear s :
  Consistent s ->
  0 <= nodeCounter s ->
  nodeCounter (final (importWorkflow definition confirmReplace confirmClear s)) < 2 ^ 53 ->
  Consistent (final (importWorkflow definition confirmReplace confirmClear s)).
Proof.
  intros H Hlo. unfold importWorkflow. rewrite final_catch.
  destruct confirmReplace; [|intros _; exact H]. unfold when. rewrite final_bind.
  pose proof (consistent_clearCanvas confirmClear s H) as H1.
  assert (nodeCounter (final (clearCanvas confirmClear s)) = nodeCounter s) as Hk
    by (destruct confirmClear; reflexivity).
  destruct (clearCanvas confirmClear s) as [[] s1|e s1]; cbn in H1, Hk;
    [|intros _; exact H1].
  change (final ((modify (set_workflowData (Some definition)) ;; loadWorkflow ;; markDirty) s1))
    with (final ((loadWorkflow ;; markDirty) (set_workflowData (Some definition) s1))).
  rewrite final_bind.
  assert (Consistent (set_workflowData (Some definition) s1)) as H2 by (frame).
  pose proof (consistent_loadWorkflow _ H2) as H3. cbn [nodeCounter set_workflowData] in H3.
  rewrite Hk in H3. specialize (H3 Hlo).
  destruct (loadWorkflow _) as [[] s2|e s2]; cbn in H3 |- *; intros Hhi;
    [|exact (H3 Hhi)].
  specialize (H3 Hhi). frame.
Qed.

Lemma consistent_registerNodeTypes l s :
  Consistent s -> Consistent (final (registerNodeTypes l s)).
Proof.
  intros H. unfold registerNodeTypes. apply forEach_final_ind; [|exact H].
  intros nt s0 H0. run. frame.
Qed.

Lemma consistent_init response s :
  Consistent s ->
  0 <= nodeCounter s ->
  nodeCounter (final (init response s)) < 2 ^ 53 ->
  Consistent (final (init response s)).
Proof.
  intros H Hlo. unfold init. rewrite final_bind.
  assert (Consistent (final (loadNodeTypes response s))) as H1.
  { destruct response; by apply consistent_registerNodeTypes. }
  assert (nodeCounter (final (loadNodeTypes response s)) = nodeCounter s) as Hk
    by (destruct response; apply counter_registerNodeTypes).
  destruct (loadNodeTypes response s) as [[] s1|e s1]; cbn in H1, Hk; [|intros _; exact H1].
  apply consistent_loadWorkflow; [exact H1|lia].
Qed.

Lemma consistent_onCanvasDrop rect nodeTypeName e s :
  Consistent s ->
  0 <= nodeCounter s ->
  nodeCounter (final (onCanvasDrop rect nodeTypeName e s)) < 2 ^ 53 ->
  Consistent (final (onCanvasDrop rect nodeTypeName e s)).
Proof.
  intros H Hlo. unfold onCanvasDrop. run.
  destruct (nodeTypes s !! nodeTypeName) as [nt|]; [|intros _; exact H].
  set (position := Build_Position _ _).
  pose proof (consistent_createNode nt position s H Hlo) as H'.
  destruct (createNode nt position s) as [id s1|err s1]; exact H'.
Qed.

Lemma consistent_finishConnection now rnd e s :
  Consistent s -> Consistent (final (finishConnection now rnd e s)).
Proof.
  intros H. unfold finishConnection. run.
  assert (Consistent (set_isConnecting false s)) as H0 by frame.
  destruct (ev_target e); run; try frame.
  destruct (connectionStart s) as [start|]; run; try frame.
  case_decide; run; try frame.
  match goal with
  | |- context [addConnection ?a ?b ?c ?d ?f ?g ?s0] =>
      pose proof (consistent_addConnection a b c d f g s0 H0) as H'
  end.
  destruct (addConnection _ _ _ _ _ _ _) as [id s1|err s1]; cbn in H' |- *;
    [frame|exact H'].
Qed.

Lemma consistent_onNodeMouseDown e nodeId s :
  Consistent s -> Consistent (final (onNodeMouseDown e nodeId s)).
Proof.
  intros H. unfold onNodeMouseDown. run.
  destruct (negb (truthy (selectedNode s)) || negb (bool_decide (selectedNode s = Some nodeId)));
    run; [|frame].
  pose proof (consistent_selectNode nodeId s H) as H'.
  destruct (selectNode nodeId s) as [[] s1|err s1]; cbn in H' |- *; [frame|exact H'].
Qed.

Lemma consistent_onHandleMouseDown e handlePosition s :
  Consistent s -> Consistent (final (onHandleMouseDown e handlePosition s)).
Proof.
  intros H. unfold onHandleMouseDown, startConnection.
  destruct (ev_target e); run; try exact H; frame.
Qed.

Lemma consistent_onCanvasMouseDown e s :
  Consistent s -> Consistent (final (onCanvasMouseDown e s)).
Proof.
  intros H. unfold onCanvasMouseDown, deselectAll.
  destruct (ev_target e); run; try exact H; frame.
Qed.

Lemma consistent_dragSelectedNode e s :
  Consistent s -> Consistent (final (dragSelectedNode e s)).
Proof.
  intros H. unfold dragSelectedNode. run.
  destruct (selectedNode s) as [selected|] eqn:Hsel; [|exact H]. run.
  destruct (nodes s !! selected) as [node|] eqn:Hnode; run; [|frame].
  destruct H as [H1 H2 H3 H4]. split; cbn; [| |exact H3|destruct H4 as [H4|H4]; [congruence|right; exact H4]].
  - intros id k [n Hn] Hid. apply (H1 id k); [|exact Hid].
    revert Hn. rewrite lookup_insert. case_decide; [subst; eauto|eauto].
  - intros id n. rewrite lookup_insert. case_decide; [|apply H2].
    intros [= <-]. subst id. cbn. by apply H2.
Qed.

Lemma consistent_onCanvasMouseMove e s :
  Consistent s -> Consistent (final (onCanvasMouseMove e s)).
Proof.
  intros H. unfold onCanvasMouseMove. run.
  destruct (isPanning s); run.
  - destruct (isDragging s && truthy (selectedNode s)); [|frame].
    apply consistent_dragSelectedNode. frame.
  - destruct (isDragging s && truthy (selectedNode s)); [|exact H].
    by apply consistent_dragSelectedNode.
Qed.

Lemma consistent_onCanvasMouseUp now rnd e s :
  Consistent s -> Consistent (final (onCanvasMouseUp now rnd e s)).
Proof.
  intros H. unfold onCanvasMouseUp, markDirty. run.
  destruct (isPanning s); run; destruct (isDragging s); run;
    destruct (isConnecting s); run;
    try (apply consistent_finishConnection); try exact H; frame.
Qed.

Lemma consistent_onCanvasWheel rect e s :
  Consistent s -> Consistent (final (onCanvasWheel rect e s)).
Proof. intros H. rewrite onCanvasWheel_spec. cbn [final]. frame. Qed.

Lemma consistent_zoomIn s : Consistent s -> Consistent (final (zoomIn s)).
Proof. intros H. unfold zoomIn. run. frame. Qed.

Lemma consistent_zoomOut s : Consistent s -> Consistent (final (zoomOut s)).
Proof. intros H. unfold zoomOut. run. frame. Qed.

Lemma consistent_fitToScreen rect s : Consistent s -> Consistent (final (fitToScreen rect s)).
Proof.
  intros H. unfold fitToScreen. run. destruct (boundingBox s); run; [frame|exact H].
Qed.

Lemma consistent_centerCanvas rect s : Consistent s -> Consistent (final (centerCanvas rect s)).
Proof.
  intros H. unfold centerCanvas. run. destruct (boundingBox s); run; [frame|exact H].
Qed.

Lemma consistent_perform a s :
  Consistent s ->
  0 <= nodeCounter s ->
  nodeCounter (final (perform a s)) < 2 ^ 53 ->
  Consistent (final (perform a s)).
Proof.
  intros H Hlo. destruct a; cbn [perform].
  - by apply consistent_init.
  - rewrite final_bind. pose proof (consistent_createNode nodeType position s H Hlo) as H'.
    destruct (createNode nodeType position s); exact H'.
  - by apply consistent_onCanvasDrop.
  - intros _. by apply consistent_copyNode.
  - by apply consistent_duplicateNode.
  - by apply consistent_pasteNode.
  - intros _. by apply consistent_deleteNode.
  - intros _. by apply consistent_deleteConnection.
  - intros _. rewrite final_bind.
    lazymatch goal with
    | |- context [addConnection ?clock ?suffix ?a ?b ?c ?d s] =>
        pose proof (consistent_addConnection clock suffix a b c d s H) as H';
        destruct (addConnection clock suffix a b c d s); exact H'
    end.
  - intros _. by apply consistent_clearCanvas.
  - by apply consistent_importWorkflow.
  - intros _. by apply consistent_fireTimer.
  - intros _. by apply consistent_onNodeMouseDown.
  - intros _. by apply consistent_selectNode.
  - intros _. by apply consistent_selectNode.
  - intros _. by apply consistent_selectConnection.
  - intros _. by apply consistent_onHandleMouseDown.
  - intros _. by apply consistent_onCanvasMouseDown.
  - intros _. by apply consistent_onCanvasMouseMove.
  - intros _. by apply consistent_onCanvasMouseUp.
  - intros _. by apply consistent_onCanvasWheel.
  - intros _. by apply consistent_zoomIn.
  - intros _. by apply consistent_zoomOut.
  - intros _. by apply consistent_fitToScreen.
  - intros _. by apply consistent_centerCanvas.
Qed.

Lemma below_perform a s :
  ConsistentBelowLimit s -> ConsistentBelowLimit (final (perform a s)).
Proof.
  intros [Hlo H]. pose proof (counter_perform a s Hlo) as Hmono.
  split; [lia|]. intros Hhi. apply consistent_perform; [apply H; lia|exact Hlo|exact Hhi].
Qed.

Lemma below_session actions s :
  ConsistentBelowLimit s -> ConsistentBelowLimit (session actions s).
Proof.
  revert s. induction actions as [|a l IH]; intros s H; [exact H|].
  cbn. apply IH. by apply below_perform.
Qed.

Lemma below_constructor options_workflowData :
  ConsistentBelowLimit (constructor options_workflowData).
Proof. split; [cbn; lia|]. intros _. apply consistent_constructor. Qed.

(** Every editor of a session whose counter is below 2^53 is consistent,
    and its counter is a count. *)
Lemma consistent_session options_workflowData actions :
  let s := session actions (constructor options_workflowData) in
  nodeCounter s < 2 ^ 53 -> Consistent s /\ 0 <= nodeCounter s.
Proof.
  intros s Hhi.
  destruct (below_session actions _ (below_constructor options_workflowData)) as [Hlo H].
  split; [exact (H Hhi)|exact Hlo].
Qed.

(** *** What sessions guarantee *)

(** The id the counter gives next is not in the store. *)
Lemma nextNodeId_fresh s :
  Consistent s -> 0 <= nodeCounter s < 2 ^ 53 -> nodes s !! nextNodeId s = None.
Proof.
  intros H Hk. destruct (nodes s !! nextNodeId s) as [n|] eqn:Hn; [|reflexivity].
  pose proof (ids_covered s H (nextNodeId s) (Js.increment (nodeCounter s))) as Hle.
  rewrite Hn in Hle. specialize (Hle ltac:(by eexists) eq_refl).
  rewrite increment_small in Hle by exact Hk. lia.
Qed.

Lemma storeCopy_spec original suffix s :
  exists s',
    storeCopy original suffix s = Normal tt s'
    /\ nodes s' =
       <[nextNodeId s :=
           set_node_name (node_name original +:+ suffix)
             (set_node_position
                {| x := Js.add (x (node_position original)) 50;
                   y := Js.add (y (node_position original)) 50 |}
                (set_node_id (nextNodeId s) original))]> (nodes s)
    /\ connections s' = connections s
    /\ clipboard s' = clipboard s
    /\ nodeCounter s' = Js.increment (nodeCounter s)
    /\ selectedNode s' = Some (nextNodeId s).
Proof.
  unfold storeCopy, selectNode, deselectAll, showNodeProperties, markDirty, nextNodeId. run.
  rewrite lookup_insert_eq. run. eexists. repeat split; reflexivity.
Qed.

(** X1.  Whatever sequence of handlers and methods runs on a freshly
    constructed editor, exceptions included, as long as the counter has
    not reached 2^53, from where on [++] no longer counts: every node and
    every connection is stored under its own id, the counter is at least
    the number of every stored id of the form [node_<number>], and a node
    and a connection are never selected together. *)
Theorem session_keeps_editor_consistent options_workflowData actions :
  nodeCounter (session actions (constructor options_workflowData)) < 2 ^ 53 ->
  Consistent (session actions (constructor options_workflowData)).
Proof. intros Hhi. by apply consistent_session. Qed.

Lemma session_keeps_editor_consistent_witness :
  Consistent (session [DoInit None; DoCreateNode webhook_trigger origin;
                       DoDeleteNode strictPage "node_1"]
                (constructor (Some snapshot5))).
Proof.
  apply (session_keeps_editor_consistent (Some snapshot5)
           [DoInit None; DoCreateNode webhook_trigger origin;
            DoDeleteNode strictPage "node_1"]).
  vm_compute. reflexivity.
Defined.

(** X2.  In every editor a session reaches with the counter below 2^53,
    [createNode] stores the new node under an id that no stored node has:
    no node is overwritten, the other nodes stay as they are, and the new
    node carries that id, the name of the type and the position asked
    for.  This is so however the drawing that follows goes. *)
Theorem createNode_never_overwrites options_workflowData actions nodeType position :
  let s := session actions (constructor options_workflowData) in
  nodeCounter s < 2 ^ 53 ->
  exists node,
    nodes (final (createNode nodeType position s)) = <[nextNodeId s := node]> (nodes s)
    /\ nodes s !! nextNodeId s = None
    /\ node_id node = nextNodeId s
    /\ node_type node = name nodeType
    /\ node_position node = position
    /\ node_config node = getDefaultConfig nodeType.
Proof.
  intros s Hhi.
  destruct (consistent_session options_workflowData actions Hhi) as [Hs Hlo]. fold s in Hs, Hlo.
  pose proof (nextNodeId_fresh s Hs (conj Hlo Hhi)) as Hfresh.
  unfold createNode, getNodeInputs, getNodeOutputs, selectNode, deselectAll,
    showNodeProperties, markDirty, nextNodeId in *.
  run.
  destruct (decide (category nodeType = "trigger")), (decide (name nodeType = "condition")); run.
  all: try destruct (decide (name nodeType = "switch")); run.
  all: rewrite lookup_insert_eq; run.
  all: eexists; split; [reflexivity|]; split; [exact Hfresh|];
    repeat split; reflexivity.
Qed.

Lemma createNode_never_overwrites_witness :
  let s := session [DoInit None; DoCreateNode webhook_trigger origin]
             (constructor (Some snapshot5)) in
  exists node,
    nodes (final (createNode http_request origin s)) = <[nextNodeId s := node]> (nodes s)
    /\ nodes s !! nextNodeId s = None
    /\ node_id node = nextNodeId s
    /\ node_type node = name http_request
    /\ node_position node = origin
    /\ node_config node = getDefaultConfig http_request.
Proof.
  apply (createNode_never_overwrites (Some snapshot5)
           [DoInit None; DoCreateNode webhook_trigger origin] http_request origin).
  vm_compute. reflexivity.
Defined.

(** X3.  In every editor a session reaches with the counter below 2^53,
    duplicating a stored node adds exactly one node, under a new id: a
    copy of the original moved by (50, 50) and named with the suffix
    " (Copy)".  The original stays, and no connection of the original is
    copied.  This is so however the drawing that follows goes. *)
Theorem duplicateNode_adds_shifted_copy options_workflowData actions nodeId original :
  let s := session actions (constructor options_workflowData) in
  nodeCounter s < 2 ^ 53 ->
  nodes s !! nodeId = Some original ->
  exists copy,
    nodes (final (duplicateNode nodeId s)) = <[nextNodeId s := copy]> (nodes s)
    /\ nodes s !! nextNodeId s = None
    /\ nodes (final (duplicateNode nodeId s)) !! nodeId = Some original
    /\ copy =
       set_node_name (node_name original +:+ " (Copy)")
         (set_node_position
            {| x := Js.add (x (node_position original)) 50;
               y := Js.add (y (node_position original)) 50 |}
            (set_node_id (nextNodeId s) original))
    /\ connections (final (duplicateNode nodeId s)) = connections s.
Proof.
  intros s Hhi Hn.
  destruct (consistent_session options_workflowData actions Hhi) as [Hs Hlo]. fold s in Hs, Hlo.
  pose proof (nextNodeId_fresh s Hs (conj Hlo Hhi)) as Hfresh.
  destruct (storeCopy_spec original " (Copy)" s) as (s' & Hrun & Hnodes & Hc & _).
  assert (duplicateNode nodeId s = Normal tt s') as ->
    by (unfold duplicateNode; run; rewrite Hn; exact Hrun).
  cbn [final]. eexists.
  split; [exact Hnodes|]. split; [exact Hfresh|]. split.
  { rewrite Hnodes, lookup_insert_ne; [exact Hn|]. intros Heq. congruence. }
  split; [reflexivity|exact Hc].
Qed.

Lemma duplicateNode_adds_shifted_copy_witness :
  let s := session [DoInit None; DoCreateNode http_request {| x := 40; y := 60 |}]
             (constructor None) in
  exists original copy,
    nodes s !! "node_1" = Some original
    /\ nodes (final (duplicateNode "node_1" s)) !! "node_1" = Some original
    /\ nodes (final (duplicateNode "node_1" s)) !! "node_2" = Some copy
    /\ node_name copy = "HTTP Request (Copy)"
    /\ (x (node_position copy) == 90)%Q.
Proof.
  intros s.
  assert (exists original, nodes s !! "node_1" = Some original) as [original Hn]
    by (vm_compute; eauto).
  assert (nodeCounter s < 2 ^ 53) as Hhi by (vm_compute; reflexivity).
  destruct (duplicateNode_adds_shifted_copy None
              [DoInit None; DoCreateNode http_request {| x := 40; y := 60 |}]
              "node_1" original Hhi Hn)
    as (copy & Hnodes & _ & Horig & Hcopy & _).
  exists original, copy. split; [exact Hn|].
  split; [exact Horig|]. split.
  { fold s in Hnodes. rewrite Hnodes. change (nextNodeId s) with "node_2".
    apply lookup_insert_eq. }
  rewrite Hcopy. vm_compute in Hn. injection Hn as <-. split; [reflexivity|].
  vm_compute. reflexivity.
Defined.

(** X4.  [pasteNode] does not move the clipboard on: in every editor a
    session reaches with a node on the clipboard and the counter more
    than one below 2^53, pasting twice adds two nodes under two new ids,
    both at the position of the copied node moved by (50, 50), one on top
    of the other. *)
Theorem pasteNode_twice_stacks_copies options_workflowData actions copied :
  let s := session actions (constructor options_workflowData) in
  nodeCounter s + 1 < 2 ^ 53 ->
  clipboard s = Some copied ->
  let s2 := final (pasteNode (final (pasteNode s))) in
  exists first second,
    nodes s !! node_id first = None
    /\ nodes s !! node_id second = None
    /\ node_id first <> node_id second
    /\ nodes s2 = <[node_id second := second]> (<[node_id first := first]> (nodes s))
    /\ node_position first = node_position second
    /\ node_position first =
       {| x := Js.add (x (node_position copied)) 50;
          y := Js.add (y (node_position copied)) 50 |}
    /\ node_name first = node_name copied +:+ " (Pasted)"
    /\ node_name second = node_name copied +:+ " (Pasted)".
Proof.
  intros s Hhi Hclip s2.
  destruct (consistent_session options_workflowData actions) as [Hs Hlo]; [fold s; lia|].
  fold s in Hs, Hlo.
  destruct (storeCopy_spec copied " (Pasted)" s) as (s1 & Hrun1 & Hn1 & _ & Hc1 & Hk1 & _).
  destruct (storeCopy_spec copied " (Pasted)" s1) as (s2' & Hrun2 & Hn2 & _ & _ & _ & _).
  assert (pasteNode s = Normal tt s1) as Hp1
    by (unfold pasteNode; run; rewrite Hclip; exact Hrun1).
  assert (pasteNode s1 = Normal tt s2') as Hp2
    by (unfold pasteNode; run; rewrite Hc1, Hclip; exact Hrun2).
  assert (s2 = s2') as -> by (unfold s2; rewrite Hp1; cbn [final]; rewrite Hp2; reflexivity).
  rewrite increment_small in Hk1 by lia.
  assert (Consistent s1) as Hs1.
  { pose proof (consistent_pasteNode s Hs Hlo) as H. rewrite Hp1 in H. cbn [final] in H.
    apply H. lia. }
  assert (nextNodeId s <> nextNodeId s1) as Hne.
  { unfold nextNodeId. rewrite Hk1, !increment_small by lia. intros Heq.
    cbn in Heq. injection Heq as Heq. apply numberToString_inj in Heq. lia. }
  set (copyAt := fun id =>
         set_node_name (node_name copied +:+ " (Pasted)")
           (set_node_position
              {| x := Js.add (x (node_position copied)) 50;
                 y := Js.add (y (node_position copied)) 50 |}
              (set_node_id id copied))) in *.
  exists (copyAt (nextNodeId s)), (copyAt (nextNodeId s1)).
  cbn [copyAt node_id set_node_name set_node_position set_node_id node_position node_name].
  split; [apply nextNodeId_fresh; [exact Hs|lia]|]. split.
  { pose proof (nextNodeId_fresh s1 Hs1 ltac:(lia)) as H. rewrite Hn1 in H.
    rewrite lookup_insert_ne in H; [exact H|exact Hne]. }
  split; [exact Hne|]. split; [rewrite Hn2, Hn1; reflexivity|].
  repeat split; reflexivity.
Qed.

Lemma pasteNode_twice_stacks_copies_witness :
  let s := session [DoInit None; DoCreateNode http_request {| x := 40; y := 60 |};
                    DoCopyNode "node_1"] (constructor None) in
  let s2 := final (pasteNode (final (pasteNode s))) in
  exists copied first second,
    clipboard s = Some copied
    /\ node_id first <> node_id second
    /\ nodes s2 = <[node_id second := second]> (<[node_id first := first]> (nodes s))
    /\ node_position first = node_position second.
Proof.
  intros s s2.
  assert (exists copied, clipboard s = Some copied) as [copied Hc] by (vm_compute; eauto).
  assert (nodeCounter s + 1 < 2 ^ 53) as Hhi by (vm_compute; reflexivity).
  destruct (pasteNode_twice_stacks_copies None
              [DoInit None; DoCreateNode http_request {| x := 40; y := 60 |};
               DoCopyNode "node_1"] copied Hhi Hc)
    as (first & second & _ & _ & Hne & Hn & Hpos & _).
  exists copied, first, second. auto 10.
Defined.

(** X5.  Node ids are never handed out twice while the counter is below
    2^53: an id that was in the store at some point of a session is not
    the id that [createNode], [duplicateNode] or [pasteNode] use at any
    later point, whatever happened in between (the node deleted, the
    canvas cleared, a workflow imported). *)
Theorem stored_id_never_allocated_again options_workflowData before after nodeId :
  nodeCounter (session (before ++ after) (constructor options_workflowData)) < 2 ^ 53 ->
  is_Some (nodes (session before (constructor options_workflowData)) !! nodeId) ->
  nextNodeId (session (before ++ after) (constructor options_workflowData)) <> nodeId.
Proof.
  intros Hhi Hin Heq. rewrite session_app in Heq, Hhi.
  set (s := session before (constructor options_workflowData)) in *.
  destruct (below_session before _ (below_constructor options_workflowData)) as [Hlo Hs].
  fold s in Hlo, Hs.
  pose proof (counter_session after s Hlo) as Hmono.
  specialize (Hs ltac:(lia)).
  pose proof (ids_covered s Hs nodeId (Js.increment (nodeCounter (session after s))) Hin) as Hk.
  specialize (Hk (eq_sym Heq)).
  rewrite increment_small in Hk by lia. lia.
Qed.

Lemma stored_id_never_allocated_again_witness :
  is_Some (nodes (session [DoInit None; DoCreateNode webhook_trigger origin]
                    (constructor None)) !! "node_1")
  /\ nextNodeId (session ([DoInit None; DoCreateNode webhook_trigger origin]
                            ++ [DoDeleteNode strictPage "node_1"; DoClearCanvas true])
                   (constructor None)) <> "node_1".
Proof.
  assert (is_Some (nodes (session [DoInit None; DoCreateNode webhook_trigger origin]
                            (constructor None)) !! "node_1")) as H
    by (vm_compute; eauto).
  split; [exact H|].
  apply (stored_id_never_allocated_again None
           [DoInit None; DoCreateNode webhook_trigger origin]
           [DoDeleteNode strictPage "node_1"; DoClearCanvas true] "node_1");
    [vm_compute; reflexivity|exact H].
Defined.

(** *** Panning *)






(** *** The wheel *)



(** *** Drawing a connection *)

Lemma ex_comm_pair {A : Type} (P : Prop) (Q : A -> Prop) :
  P /\ (exists a, Q a) -> exists a, P /\ Q a.
Proof. intros [HP [a HQ]]. exists a. split; assumption. Qed.

(** X9.  The whole gesture: pressing an output handle of one node and
    releasing the pointer over an input handle of another node stores
    exactly one new connection, from the pressed handle to the handle under
    the pointer, and ends the gesture; no node changes. *)
Theorem connection_gesture_adds_one_connection
    clock rnd press handlePosition release a h b q s :
  ev_target press = TargetOutputHandle a h ->
  ev_target release = TargetInputHandle b q ->
  a <> b ->
  exists s1 s2,
    onHandleMouseDown press handlePosition s = Normal tt s1
    /\ onCanvasMouseUp clock rnd release s1 = Normal tt s2
    /\ connections s2 =
       <[connectionIdOf clock rnd :=
           {| conn_id := connectionIdOf clock rnd; source := a; sourceHandle := h;
              target := b; targetHandle := q |}]> (connections s)
    /\ nodes s2 = nodes s
    /\ isConnecting s2 = false
    /\ connectionStart s2 = None.
Proof.
  intros Hpress Hrelease Hab.
  unfold onHandleMouseDown, startConnection. rewrite Hpress. run.
  eexists. apply ex_comm_pair. split; [reflexivity|].
  unfold onCanvasMouseUp, finishConnection, addConnection, markDirty. run.
  destruct (isPanning s); run; destruct (isDragging s); run; rewrite Hrelease; run;
    cbn [cs_nodeId cs_handle]; rewrite decide_True by congruence; run;
    eexists; repeat split; reflexivity.
Qed.

Lemma connection_gesture_adds_one_connection_witness :
  let press := {| clientX := 300; clientY := 50; deltaY := 0;
                  ev_target := TargetOutputHandle "node_1" "output" |} in
  let release := {| clientX := 500; clientY := 50; deltaY := 0;
                    ev_target := TargetInputHandle "node_3" "input" |} in
  exists s1 s2,
    onHandleMouseDown press {| x := 300; y := 50 |} storeABC = Normal tt s1
    /\ onCanvasMouseUp 1700000000002 "q1w2e3r4t" release s1 = Normal tt s2
    /\ size (connections s2) = 3%nat
    /\ isConnecting s2 = false.
Proof.
  intros press release.
  destruct (connection_gesture_adds_one_connection 1700000000002 "q1w2e3r4t" press
              {| x := 300; y := 50 |} release "node_1" "output" "node_3" "input" storeABC
              eq_refl eq_refl ltac:(discriminate))
    as (s1 & s2 & H1 & H2 & Hc & _ & Hfin & _).
  exists s1, s2. split; [exact H1|]. split; [exact H2|]. split; [|exact Hfin].
  rewrite Hc. vm_compute. reflexivity.
Defined.

(** *** Watching an execution *)

Lemma poll_bounded replies : forall pollCount,
  (statusRequests (Polling.poll replies pollCount) <= S (Polling.maxPolls - pollCount))%nat
  /\ (timeouts (Polling.poll replies pollCount) <= Polling.maxPolls - pollCount)%nat
  /\ (logRequests (Polling.poll replies pollCount) <= 1)%nat.
Proof.
  unfold statusRequests, timeouts, logRequests.
  induction replies as [|reply later IH]; intros pollCount; cbn -[Nat.sub Nat.ltb Polling.maxPolls]; [lia|].
  destruct reply as [| |status]; cbn -[Nat.sub Nat.ltb Polling.maxPolls]; try lia.
  destruct (Polling.inProgress status); cbn -[Nat.sub Nat.ltb Polling.maxPolls]; [|lia].
  destruct (Nat.ltb_spec pollCount Polling.maxPolls);
    cbn -[Nat.sub Nat.ltb Polling.maxPolls]; [|lia].
  specialize (IH (S pollCount)). lia.
Qed.

(** X10.  Polling stops by itself: whatever the server answers, and for
    however long it answers that the execution is running or queued, one
    call of [pollExecutionStatus] sends at most 61 status requests, sets at
    most 60 timers and asks for the logs at most once. *)
Theorem pollExecutionStatus_bounded replies :
  (statusRequests (Polling.pollExecutionStatus replies) <= 61)%nat
  /\ (timeouts (Polling.pollExecutionStatus replies) <= 60)%nat
  /\ (logRequests (Polling.pollExecutionStatus replies) <= 1)%nat.
Proof. exact (poll_bounded replies 0). Qed.

Lemma poll_logs replies : forall pollCount,
  In Polling.FetchLogs (Polling.poll replies pollCount) <->
  exists waiting status later,
    replies = ((Polling.Status <$> waiting) ++ Polling.Status status :: later)%list
    /\ Forall (fun w => Polling.inProgress w = true) waiting
    /\ Polling.inProgress status = false
    /\ (length waiting <= Polling.maxPolls - pollCount)%nat.
Proof.
  induction replies as [|reply later IH]; intros pollCount.
  { cbn. split; [intros [H|[]]; discriminate H|].
    intros (waiting & status & rest & H & _). destruct waiting; discriminate H. }
  cbn [Polling.poll].
  destruct reply as [| |status].
  1, 2: split; [intros [H|[]]; discriminate H|];
    intros (waiting & status & rest & H & _); destruct waiting; discriminate H.
  destruct (Polling.inProgress status) eqn:Hst.
  - destruct (Nat.ltb_spec pollCount Polling.maxPolls) as [Hlt|Hge].
    + split.
      * intros [H|[H|H]]; try discriminate H.
        apply IH in H. destruct H as (waiting & final & rest & -> & Hw & Hf & Hlen).
        exists (status :: waiting), final, rest. split; [reflexivity|].
        split; [constructor; assumption|]. split; [exact Hf|]. cbn -[Nat.sub Nat.ltb Polling.maxPolls]. lia.
      * intros (waiting & final & rest & H & Hw & Hf & Hlen).
        destruct waiting as [|w waiting]; cbn in H; injection H as H1 H2.
        { congruence. }
        right. right. apply IH. exists waiting, final, rest.
        inversion Hw; subst. split; [reflexivity|]. split; [assumption|].
        split; [exact Hf|]. cbn -[Nat.sub Nat.ltb Polling.maxPolls] in Hlen. lia.
    + split; [intros [H|[]]; discriminate H|].
      intros (waiting & final & rest & H & Hw & Hf & Hlen).
      destruct waiting as [|w waiting]; cbn in H; injection H as H1 H2.
      { congruence. }
      cbn -[Nat.sub Nat.ltb Polling.maxPolls] in Hlen. lia.
  - split.
    + intros _. exists [], status, later. split; [reflexivity|].
      split; [constructor|]. split; [exact Hst|]. cbn -[Nat.sub Nat.ltb Polling.maxPolls]. lia.
    + intros _. right. left. reflexivity.
Qed.

(** X11.  The logs of an execution are asked for exactly in one case: the
    server answers a status other than running and queued, after at most
    60 answers of running or queued, and no request before it failed or
    was refused.  In particular an execution that is still running at the
    61st answer is never looked at again, and its logs are never shown. *)
Theorem pollExecutionStatus_fetches_logs_iff replies :
  In Polling.FetchLogs (Polling.pollExecutionStatus replies) <->
  exists waiting status later,
    replies = ((Polling.Status <$> waiting) ++ Polling.Status status :: later)%list
    /\ Forall (fun w => Polling.inProgress w = true) waiting
    /\ Polling.inProgress status = false
    /\ (length waiting <= 60)%nat.
Proof. exact (poll_logs replies 0). Qed.

(** *** Saving and loading *)

Lemma loadNode_frame nd s :
  workflowData (final (loadNode nd s)) = workflowData s
  /\ timers (final (loadNode nd s)) = timers s.
Proof.
  unfold loadNode, getNodeInputs, getNodeOutputs. run.
  destruct (nodeTypes s !! nd_type nd); run; [|split; reflexivity].
  repeat case_decide; run;
    destruct (Js.gt _ _); split; reflexivity.
Qed.

(** Loading the serialized form of nodes that are stored under their ids
    and have registered types rebuilds their serialized form. *)
Lemma forEach_loadNode_restores (l : list (string * Node)) : forall s,
  Forall (fun p => node_id p.2 = p.1 /\ is_Some (nodeTypes s !! node_type p.2)) l ->
  NoDup l.*1 ->
  exists s',
    forEach (nodeDataOf <$> l.*2) loadNode s = Normal tt s'
    /\ nodeDataOf <$> nodes s' = (nodeDataOf <$> list_to_map l) ∪ (nodeDataOf <$> nodes s)
    /\ nodeTypes s' = nodeTypes s
    /\ connections s' = connections s
    /\ workflowData s' = workflowData s
    /\ timers s' = timers s.
Proof.
  induction l as [|[k n] l IH]; intros s Hl Hnodup.
  { exists s. split; [reflexivity|]. cbn. rewrite fmap_empty, (left_id_L ∅ (∪)).
    repeat split; reflexivity. }
  apply Forall_cons in Hl. destruct Hl as [[Hk Hreg] Hl]. cbn in Hk, Hreg.
  apply NoDup_cons in Hnodup. destruct Hnodup as [Hnotin Hnodup].
  destruct (loadNode_stores (nodeDataOf n) s Hreg)
    as (node & s1 & Hrun & Hn1 & Hdata & _ & _ & _ & Hty & Hc & _).
  pose proof (loadNode_frame (nodeDataOf n) s) as [Hwd Htm]. rewrite Hrun in Hwd, Htm.
  cbn [final] in Hwd, Htm.
  destruct (IH s1) as (s2 & Hrun2 & Hn2 & Hty2 & Hc2 & Hwd2 & Htm2); [|exact Hnodup|].
  { rewrite Hty. exact Hl. }
  exists s2. cbn [fmap list_fmap]. change ((k, n).2) with n.
  rewrite forEach_cons, Hrun. split; [exact Hrun2|].
  split; [|repeat split; congruence].
  rewrite Hn2, Hn1. cbn [list_to_map foldr]. change (nd_id (nodeDataOf n)) with (node_id n).
  rewrite Hk, !fmap_insert.
  assert (nodeDataOf node = nodeDataOf n) as ->.
  { rewrite Hdata. unfold nodeDataOf. cbn -[Js.orString Js.orNumber].
    assert (Hor : forall d, Js.orString (Some (Js.orString d "")) "" = Js.orString d "")
      by (intros [[|c r]|]; reflexivity).
    assert (Hnum : forall t, Js.orNumber (Some (Js.orNumber t 30)) 30 = Js.orNumber t 30).
    { intros [q|]; cbn; [|reflexivity]. destruct (Qeq_bool q 0) eqn:Hq; cbn; [reflexivity|].
      rewrite Hq. reflexivity. }
    rewrite Hor, Hnum. reflexivity. }
  rewrite <- insert_union_l. symmetry. apply insert_union_r.
  rewrite lookup_fmap. apply fmap_None. apply not_elem_of_list_to_map_1. exact Hnotin.
Qed.

Lemma connectionOf_connectionDataOf c :
  handlesNamed c -> connectionOf (connectionDataOf c) = c.
Proof.
  intros [Hsrc Htgt]. destruct c as [i a b d e]. cbn in *. unfold connectionOf. cbn.
  destruct b; [congruence|]. destruct e; [congruence|]. reflexivity.
Qed.

Lemma forEach_loadConnection_restores page (l : list (string * Connection)) : forall s,
  Forall (fun p => conn_id p.2 = p.1 /\ handlesNamed p.2 /\ drawable p.2 = true) l ->
  NoDup l.*1 ->
  exists s',
    forEach (connectionDataOf <$> l.*2) (loadConnection page) s = Normal tt s'
    /\ connections s' = list_to_map l ∪ connections s
    /\ nodes s' = nodes s
    /\ nodeCounter s' = nodeCounter s.
Proof.
  induction l as [|[k c] l IH]; intros s Hl Hnodup.
  { exists s. split; [reflexivity|]. cbn. rewrite (left_id_L ∅ (∪)).
    repeat split; reflexivity. }
  apply Forall_cons in Hl. destruct Hl as [(Hk & Hnamed & Hdraw) Hl]. cbn in Hk, Hnamed, Hdraw.
  apply NoDup_cons in Hnodup. destruct Hnodup as [Hnotin Hnodup].
  set (s1 := set_connections (<[k := c]> (connections s)) s).
  assert (loadConnection page (connectionDataOf c) s = Normal tt s1) as Hrun.
  { destruct (loadConnection_spec page (connectionDataOf c) s) as (_ & _ & Hrun).
    cbn zeta in Hrun. rewrite connectionOf_connectionDataOf in Hrun by exact Hnamed.
    change (cd_id (connectionDataOf c)) with (conn_id c) in Hrun. rewrite Hk in Hrun.
    apply Hrun. apply renderConnection_drawable. exact Hdraw. }
  destruct (IH s1 Hl Hnodup) as (s2 & Hrun2 & Hc2 & Hn2 & Hk2).
  exists s2. cbn [fmap list_fmap]. change ((k, c).2) with c.
  rewrite forEach_cons, Hrun. split; [exact Hrun2|].
  split; [|split; [exact Hn2|exact Hk2]].
  rewrite Hc2. cbn [list_to_map foldr connections s1 set_connections].
  rewrite <- insert_union_l. symmetry. apply insert_union_r.
  apply not_elem_of_list_to_map_1. exact Hnotin.
Qed.

(** X12.  Saving and loading again gives the workflow back.  Take any
    editor a session reaches with the counter below 2^53, in which the
    type of every stored node is registered, every connection has
    non-empty handle names, and the ids and handle names are quotable, so
    that drawing the nodes and the connections again throws nothing.
    Importing what [getWorkflowData] returns, with both dialogs confirmed,
    and then letting the connection timer fire, completes without an
    exception and leaves a store that serializes to the same nodes, entry
    by entry, and holds the same connections; the counter has not gone
    down. *)
Theorem export_import_round_trip page options_workflowData actions :
  let s := session actions (constructor options_workflowData) in
  nodeCounter s < 2 ^ 53 ->
  map_Forall (fun id node => is_Some (nodeTypes s !! node_type node)
                             /\ quotable id = true) (nodes s) ->
  map_Forall (fun _ connection => handlesNamed connection
                                  /\ drawable connection = true) (connections s) ->
  exists s1 s2,
    importWorkflow (getWorkflowData s) true true s = Normal tt s1
    /\ fireTimer page s1 = Normal tt s2
    /\ nodeDataOf <$> nodes s2 = nodeDataOf <$> nodes s
    /\ connections s2 = connections s
    /\ nodeCounter s <= nodeCounter s2.
Proof.
  intros s Hhi Hreg Hnamed.
  destruct (consistent_session options_workflowData actions Hhi) as [Hs _]. fold s in Hs.
  set (s0 := set_workflowData (Some (getWorkflowData s))
               (set_isDirty true
                  (set_selectedConnection None
                     (set_selectedNode None (set_connections ∅ (set_nodes ∅ s)))))).
  assert (Hrun : importWorkflow (getWorkflowData s) true true s
                 = catch (bind loadWorkflow (fun _ => markDirty)) s0) by reflexivity.
  destruct (forEach_loadNode_restores (map_to_list (nodes s)) s0)
    as (s1 & Hloop & Hn1 & Hty1 & Hc1 & Hwd1 & Htm1).
  { apply Forall_forall. intros [k n] Hin. apply elem_of_map_to_list in Hin. cbn.
    split; [exact (nodes_keyed s Hs k n Hin)|exact (proj1 (Hreg k n Hin))]. }
  { apply NoDup_fst_map_to_list. }
  set (s1' := set_isDirty true (set_timers (timers s1 ++ [LoadConnections])%list s1)).
  assert (exists rest, fireTimer page s1' = loadConnections page (set_timers rest s1'))
    as [rest Hfire].
  { unfold fireTimer. run.
    destruct (timers s1 ++ [LoadConnections])%list as [|[] rest] eqn:Htimers.
    - destruct (timers s1); discriminate Htimers.
    - exists rest. reflexivity. }
  destruct (forEach_loadConnection_restores page (map_to_list (connections s))
              (set_timers rest s1'))
    as (s2 & Hloop2 & Hc2 & Hn2 & Hk2).
  { apply Forall_forall. intros [k c] Hin. apply elem_of_map_to_list in Hin. cbn.
    split; [exact (connections_keyed s Hs k c Hin)|exact (Hnamed k c Hin)]. }
  { apply NoDup_fst_map_to_list. }
  exists s1', s2. split.
  { rewrite Hrun. unfold catch, bind at 1, loadWorkflow. run.
    cbn [workflowData s0 set_workflowData getWorkflowData wd_nodes].
    fold s0. rewrite Hloop. reflexivity. }
  split.
  { rewrite Hfire. unfold loadConnections. run.
    cbn [workflowData s1' set_timers set_isDirty]. rewrite Hwd1.
    cbn [workflowData s0 set_workflowData getWorkflowData wd_connections].
    exact Hloop2. }
  split.
  { rewrite Hn2. cbn [nodes s1' set_timers set_isDirty]. rewrite Hn1.
    rewrite list_to_map_to_list. cbn [nodes s0 set_workflowData set_isDirty
      set_selectedConnection set_selectedNode set_connections set_nodes].
    rewrite fmap_empty. apply (right_id_L ∅ (∪)). }
  split.
  { rewrite Hc2. cbn [connections s1' set_timers set_isDirty]. rewrite Hc1.
    rewrite list_to_map_to_list. cbn [connections s0 set_workflowData set_isDirty
      set_selectedConnection set_selectedNode set_connections set_nodes].
    apply (right_id_L ∅ (∪)). }
  rewrite Hk2. cbn [nodeCounter s1' set_timers set_isDirty].
  pose proof (forEach_final_ind (fun s' => nodeCounter s <= nodeCounter s') loadNode
                (nodeDataOf <$> (map_to_list (nodes s)).*2) s0) as Hmono.
  rewrite Hloop in Hmono. apply Hmono; [|cbn; lia].
  intros nd s' Hle. pose proof (counter_loadNode nd s'). lia.
Qed.

Lemma export_import_round_trip_witness :
  let s := session [DoInit None;
                    DoCreateNode webhook_trigger {| x := 0; y := 0 |};
                    DoCreateNode http_request {| x := 300; y := 0 |};
                    DoAddConnection 1700000000000 "k3x9q2m1a"
                      "node_1" "output" "node_2" "input"]
             (constructor None) in
  nodeCounter s < 2 ^ 53
  /\ map_Forall (fun id node => is_Some (nodeTypes s !! node_type node)
                                /\ quotable id = true) (nodes s)
  /\ map_Forall (fun _ connection => handlesNamed connection
                                     /\ drawable connection = true) (connections s)
  /\ exists s1 s2,
       importWorkflow (getWorkflowData s) true true s = Normal tt s1
       /\ fireTimer strictPage s1 = Normal tt s2
       /\ nodeDataOf <$> nodes s2 = nodeDataOf <$> nodes s
       /\ connections s2 = connections s.
Proof.
  intros s.
  assert (nodeCounter s < 2 ^ 53) as Hhi by (vm_compute; reflexivity).
  assert (map_Forall (fun id node => is_Some (nodeTypes s !! node_type node)
                                     /\ quotable id = true) (nodes s))
    as Hreg by (apply (bool_decide_unpack _); vm_compute; exact I).
  assert (map_Forall (fun _ connection => handlesNamed connection
                                          /\ drawable connection = true) (connections s))
    as Hnamed by (apply (bool_decide_unpack _); vm_compute; exact I).
  split; [exact Hhi|]. split; [exact Hreg|]. split; [exact Hnamed|].
  destruct (export_import_round_trip strictPage None _ Hhi Hreg Hnamed)
    as (s1 & s2 & H1 & H2 & Hn & Hc & _).
  exists s1, s2. auto.
Defined.

(** *** Fitting the view *)







(** *** Default configuration *)




(** *** Dropping a palette entry *)

(** X15.  Dropping a registered palette entry on the canvas stores one
    node of that type, under the next id, at the snapped world position
    of the pointer: the pointer position less the corner of the canvas
    and the offset, divided by the scale, and then on each axis the
    integer nearest to the quotient by the grid size, times the grid
    size, every operation rounding as doubles do.  This is so however
    the drawing that follows goes. *)
Theorem onCanvasDrop_lands_on_grid rect nodeTypeName e s nodeType :
  nodeTypes s !! nodeTypeName = Some nodeType ->
  (0 < gridSize s)%Q -> (0 < zoomLevel s)%Q ->
  let worldX :=
    Js.div (Js.sub (Js.sub (clientX e) (rect_left rect)) (x (canvasOffset s)))
      (zoomLevel s) in
  let worldY :=
    Js.div (Js.sub (Js.sub (clientY e) (rect_top rect)) (y (canvasOffset s)))
      (zoomLevel s) in
  exists node,
    nodes (final (onCanvasDrop rect nodeTypeName e s)) = <[nextNodeId s := node]> (nodes s)
    /\ node_id node = nextNodeId s
    /\ node_type node = name nodeType
    /\ node_position node =
       {| x := snapToGrid (gridSize s) worldX; y := snapToGrid (gridSize s) worldY |}
    /\ exists column row : Z,
         column = Qfloor (Js.div worldX (gridSize s) + (1 # 2))
         /\ row = Qfloor (Js.div worldY (gridSize s) + (1 # 2))
         /\ x (node_position node) = Js.mul (inject_Z column) (gridSize s)
         /\ y (node_position node) = Js.mul (inject_Z row) (gridSize s).
Proof.
  intros Hty _ _ worldX worldY.
  unfold onCanvasDrop. run. rewrite Hty.
  unfold createNode, getNodeInputs, getNodeOutputs, selectNode, deselectAll,
    showNodeProperties, markDirty, nextNodeId.
  run.
  destruct (decide (category nodeType = "trigger")),
    (decide (name nodeType = "condition")); run.
  all: try destruct (decide (name nodeType = "switch")); run.
  all: rewrite lookup_insert_eq; run.
  all: eexists; split; [reflexivity|]; split; [reflexivity|];
    split; [reflexivity|]; split; [reflexivity|];
    eexists _, _; repeat split; reflexivity.
Qed.

Lemma onCanvasDrop_lands_on_grid_witness :
  let e := {| clientX := 127; clientY := 49; deltaY := 0; ev_target := TargetCanvas |} in
  exists node,
    nodeTypes catalogue !! "http_request" = Some http_request
    /\ nodes (final (onCanvasDrop originRect "http_request" e catalogue)) !! "node_1"
       = Some node
    /\ (x (node_position node) == 120)%Q
    /\ (y (node_position node) == 40)%Q.
Proof.
  intros e.
  assert (nodeTypes catalogue !! "http_request" = Some http_request) as Hty
    by (vm_compute; reflexivity).
  destruct (onCanvasDrop_lands_on_grid originRect "http_request" e catalogue http_request Hty)
    as (node & Hnodes & _ & _ & Hpos & _); [vm_compute; reflexivity | vm_compute; reflexivity |].
  exists node. split; [exact Hty|].
  split; [rewrite Hnodes; apply lookup_insert_eq|].
  rewrite Hpos. split; vm_compute; reflexivity.
Defined.
